(** * Guardian: capture-to-analysis pipeline and its lifecycle

    A shallow embedding of the Python sources under [src/]:
    the three analysis workers ([audio/transcriber.py],
    [screen/analyzer.py], [keyboard/analyzer.py]), the two capture
    producers ([screen/capture.py], [keyboard/recorder.py]), the power
    monitor, the task scheduler and the orchestrator ([main.py]).

    Every Python thread is a small state machine; a method call or one
    turn of a loop is one atomic step of the embedding, and a run of the
    program is a list of such steps applied in order.  Mutable objects are
    records threaded through the steps; the file system, the loggers, the
    clock and every call that leaves the process (analysis service, thread
    start and join, sleep, callbacks) live in one [World]. *)

From Stdlib Require Import ZArith Lia.
From stdpp Require Import base gmap strings list pretty.

Local Open Scope nat_scope.

(** ** Python values shared by all modules *)

(** The result of a call that may raise: [Ret v] or [Raise e], where [e]
    is the text of the exception ([str(e)], what the handlers log). *)
Inductive Outcome (A : Type) : Type :=
  | Ret (v : A)
  | Raise (e : string).
Arguments Ret {A} v.
Arguments Raise {A} e.

Definition nl : string := String (Ascii.ascii_of_nat 10) "".
Definition tab : string := String (Ascii.ascii_of_nat 9) "".

(** A [pathlib.Path], kept as its parsed parts. *)
Record Path : Type := mkPath {
  parent : string;
  stem : string;
  suffix : string
  }.

Definition name (p : Path) : string := stem p +:+ suffix p.
Definition path_str (p : Path) : string := parent p +:+ "/" +:+ name p.

Global Instance Path_eq_dec : EqDecision Path.
Proof. solve_decision. Defined.

(** [datetime.now()], as the fields [strftime] reads. *)
Record DateTime : Type := mkDateTime {
  year : nat; month : nat; day : nat;
  hour : nat; minute : nat; second : nat
  }.

Definition pad2 (n : nat) : string :=
  if n <? 10 then "0" +:+ pretty n else pretty n.

Definition pad4 (n : nat) : string :=
  if n <? 10 then "000" +:+ pretty n
  else if n <? 100 then "00" +:+ pretty n
  else if n <? 1000 then "0" +:+ pretty n
  else pretty n.

(** [strftime("%Y-%m-%d")] *)
Definition strftime_Ymd (d : DateTime) : string :=
  pad4 (year d) +:+ "-" +:+ pad2 (month d) +:+ "-" +:+ pad2 (day d).

(** [strftime("%Hh%Mm%Ss")] *)
Definition strftime_HhMmSs (d : DateTime) : string :=
  pad2 (hour d) +:+ "h" +:+ pad2 (minute d) +:+ "m" +:+ pad2 (second d) +:+ "s".

(** [strftime("%H:%M:%S")] *)
Definition strftime_HMS (d : DateTime) : string :=
  pad2 (hour d) +:+ ":" +:+ pad2 (minute d) +:+ ":" +:+ pad2 (second d).

Inductive Level : Type := DEBUG | INFO | WARNING | ERROR.

Global Instance Level_eq_dec : EqDecision Level.
Proof. solve_decision. Defined.

(** Everything a component does that is visible outside its own fields. *)
Inductive Effect : Type :=
  | ApiTranscribe (audio_path : Path)
  | ApiAnalyzeImage (screenshot_path : Path)
  | ApiSummary (content : string)
  | Spawn (target : string)
  | Join (target : string) (timeout : nat)
  | Sleep (secs : nat)
  | Grab
  | Notify (callback : string) (arg : Path)
  | ListenerStart
  | ListenerStop
  | Invoke (callable : string)
  | OsCall (api : string) (handle : nat)
  | Mail (method : string) (text : string).

Global Instance Effect_eq_dec : EqDecision Effect.
Proof. solve_decision. Defined.

Record World : Type := mkWorld {
  fs : gmap string string;
  log : list (Level * string);
  trace : list Effect;
  now : DateTime
  }.

Definition logger (lvl : Level) (msg : string) (w : World) : World :=
  mkWorld (fs w) (log w ++ [(lvl, msg)]) (trace w) (now w).

Definition emit (e : Effect) (w : World) : World :=
  mkWorld (fs w) (log w) (trace w ++ [e]) (now w).

Definition set_fs (m : gmap string string) (w : World) : World :=
  mkWorld m (log w) (trace w) (now w).

(** [utils/helpers.py]: [get_today_folder] *)
Definition get_today_folder (w : World) : string := strftime_Ymd (now w).

(** The collaborators outside the core.  Each answer may depend on the
    world at the time of the call. *)
Record Env : Type := mkEnv {
  transcribe_audio : World -> Path -> string -> string -> Outcome string;
  analyze_image : World -> Path -> string -> string -> Outcome string;
  generate_summary : World -> string -> string -> string -> Outcome string;
  (** the [OSError] raised when the directory or file at this path is
      created, opened, written or removed, if any *)
  io_error : World -> string -> option string;
  (** [config.get("google_drive.backup.screenshots", False)] *)
  backup_screenshots : bool;
  (** [win32gui.GetWindowText(GetForegroundWindow())], lower-cased *)
  active_window_title : World -> string;
  (** [sct.grab(monitor)] and [Image.frombytes]: the bytes of the image *)
  grab : World -> Outcome string
  }.

(** [ensure_dir(dir)] followed by [open(file, "a")] and one [f.write]. *)
Definition append_file (env : Env) (file : string) (text : string)
    (w : World) : Outcome World :=
  match io_error env w file with
  | Some e => Raise e
  | None => Ret (set_fs (<[file := default "" (fs w !! file) +:+ text]> (fs w)) w)
  end.

(** *** Text

    A Python [str] is kept as its UTF-8 encoding, which is what
    [open(..., encoding="utf-8")] writes of it; a file is its bytes. *)

(** The UTF-8 encoding of a code point. *)
Definition utf8 (cp : N) : string :=
  let byte (n : N) := Ascii.ascii_of_N n in
  let tail (n : N) := byte (128 + n mod 64)%N in
  if (cp <? 128)%N then String (byte cp) ""
  else if (cp <? 2048)%N then String (byte (192 + cp / 64)%N) (String (tail cp) "")
  else if (cp <? 65536)%N
  then String (byte (224 + cp / 4096)%N)
         (String (tail (cp / 64)%N) (String (tail cp) ""))
  else String (byte (240 + cp / 262144)%N)
         (String (tail (cp / 4096)%N) (String (tail (cp / 64)%N) (String (tail cp) ""))).

Definition encode (cps : list N) : string := String.concat "" (map utf8 cps).

Definition hex_digit (n : N) : Ascii.ascii :=
  Ascii.ascii_of_N (if (n <? 10)%N then 48 + n else 87 + n)%N.

(** [str(e)] for the [UnicodeDecodeError] of the codec: [lead] is the
    byte at [start], where the sequence that cannot be decoded begins,
    and [got] the number of its bytes. *)
Definition decode_error (lead : N) (start got : nat) (reason : string) : string :=
  "'utf-8' codec can't decode "
  +:+ (if got =? 1
       then "byte 0x" +:+ String (hex_digit (lead / 16)%N) (String (hex_digit (lead mod 16)%N) "")
            +:+ " in position " +:+ pretty start
       else "bytes in position " +:+ pretty start +:+ "-" +:+ pretty (start + got - 1))
  +:+ ": " +:+ reason.

(** Where the decoder stands: between two code points, or inside the
    sequence that began at [start] with the byte [lead], of which [got]
    bytes were read and [need] are to come, the next one between [lo]
    and [hi]. *)
Inductive Utf8State : Type :=
  | Boundary
  | Inside (start : nat) (lead : N) (got need : nat) (acc lo hi : N).

Definition consR (cp : N) (r : Outcome (list N)) : Outcome (list N) :=
  match r with Ret cps => Ret (cp :: cps) | Raise e => Raise e end.

(** The strict decoder: no overlong form, no surrogate, nothing above
    U+10FFFF. *)
Fixpoint decode_from (st : Utf8State) (pos : nat) (s : string) : Outcome (list N) :=
  match s with
  | EmptyString =>
      match st with
      | Boundary => Ret []
      | Inside start lead got _ _ _ _ =>
          Raise (decode_error lead start got "unexpected end of data")
      end
  | String b s' =>
      let n := Ascii.N_of_ascii b in
      match st with
      | Boundary =>
          if (n <? 128)%N then consR n (decode_from Boundary (S pos) s')
          else if (n <? 194)%N then Raise (decode_error n pos 1 "invalid start byte")
          else if (n <? 224)%N
          then decode_from (Inside pos n 1 1 (n - 192) 128 191)%N (S pos) s'
          else if (n <? 240)%N
          then decode_from
                 (Inside pos n 1 2 (n - 224)
                    (if n =? 224 then 160 else 128) (if n =? 237 then 159 else 191))%N
                 (S pos) s'
          else if (n <? 245)%N
          then decode_from
                 (Inside pos n 1 3 (n - 240)
                    (if n =? 240 then 144 else 128) (if n =? 244 then 143 else 191))%N
                 (S pos) s'
          else Raise (decode_error n pos 1 "invalid start byte")
      | Inside start lead got need acc lo hi =>
          if ((lo <=? n) && (n <=? hi))%N
          then
            match need with
            | S (S need') =>
                decode_from (Inside start lead (S got) (S need') (acc * 64 + (n - 128)) 128 191)%N
                  (S pos) s'
            | _ => consR (acc * 64 + (n - 128))%N (decode_from Boundary (S pos) s')
            end
          else Raise (decode_error lead start got "invalid continuation byte")
      end
  end.

(** [bytes.decode("utf-8")]: the code points, or the text of the
    [UnicodeDecodeError]. *)
Definition decode (bytes : string) : Outcome (list N) := decode_from Boundary 0 bytes.

Definition CR : Ascii.ascii := Ascii.ascii_of_nat 13.
Definition LF : Ascii.ascii := Ascii.ascii_of_nat 10.

(** What the text layer does to newlines when it reads: a carriage
    return, with the line feed that follows it if one does, becomes a
    line feed. *)
Fixpoint universal_newlines (s : string) : string :=
  match s with
  | String c s' =>
      if Ascii.eqb c CR
      then String LF
             match s' with
             | String c' s'' =>
                 if Ascii.eqb c' LF then universal_newlines s'' else universal_newlines s'
             | EmptyString => EmptyString
             end
      else String c (universal_newlines s')
  | EmptyString => EmptyString
  end.

(** What reading gives for the bytes of a file: the text of
    [bytes.decode("utf-8")] with its newlines translated, or the
    [UnicodeDecodeError]. *)
Definition text_of_bytes (bytes : string) : Outcome string :=
  match decode bytes with
  | Ret _ => Ret (universal_newlines bytes)
  | Raise e => Raise e
  end.

(** [Path.read_text(encoding="utf-8")] *)
Definition read_text (env : Env) (p : Path) (w : World) : Outcome string :=
  match io_error env w (path_str p) with
  | Some e => Raise e
  | None =>
      match fs w !! path_str p with
      | Some bytes => text_of_bytes bytes
      | None => Raise ("[Errno 2] No such file or directory: " +:+ path_str p)
      end
  end.

(** The code points of which [str.isspace] holds. *)
Definition whitespace : list N :=
  [9; 10; 11; 12; 13; 28; 29; 30; 31; 32; 133; 160; 5760;
   8192; 8193; 8194; 8195; 8196; 8197; 8198; 8199; 8200; 8201; 8202;
   8232; 8233; 8239; 8287; 12288]%N.

Definition isspace (cp : N) : bool := existsb (N.eqb cp) whitespace.

Fixpoint lstrip (cps : list N) : list N :=
  match cps with
  | c :: cps' => if isspace c then lstrip cps' else cps
  | [] => []
  end.

Definition rstrip (cps : list N) : list N := rev (lstrip (rev cps)).

(** [str.strip()]; a [str] is always UTF-8. *)
Definition strip (s : string) : string :=
  match decode s with
  | Ret cps => encode (rstrip (lstrip cps))
  | Raise _ => s
  end.

(** A text of whitespace, or of nothing. *)
Definition whitespace_only (s : string) : bool :=
  match decode s with
  | Ret cps => forallb isspace cps
  | Raise _ => false
  end.

(** [len] of a [str]: the bytes that begin a code point. *)
Definition len (s : string) : nat :=
  length (filter (fun b => let n := Ascii.nat_of_ascii b in (n <? 128) || (192 <=? n))
            (String.list_ascii_of_string s)).

(** Python truth value of a [str] *)
Definition truthy (s : string) : bool :=
  match s with EmptyString => false | _ => true end.

(** [ensure_dir(dir)] followed by [Path.write_text]: the file is opened
    with mode ['w'], which empties it, and then written.  Either step
    may raise; after a failed write the file is left empty. *)
Definition write_text (env : Env) (file : string) (text : string)
    (w : World) : Outcome unit * World :=
  match io_error env w file with
  | Some e => (Raise e, w)
  | None =>
      let opened := set_fs (<[file := ""]> (fs w)) w in
      match io_error env opened file with
      | Some e => (Raise e, opened)
      | None => (Ret tt, set_fs (<[file := text]> (fs w)) w)
      end
  end.

(** [p.read_text() if p.exists() else ""] *)
Definition read_if_exists (env : Env) (p : Path) (w : World) : Outcome string :=
  match fs w !! path_str p with
  | Some _ => read_text env p w
  | None => Ret ""
  end.

(** ** [utils/helpers.py] *)

(** [str.replace(old, new)] for two strings of one character each. *)
Fixpoint replace_char (old new : Ascii.ascii) (s : string) : string :=
  match s with
  | String c s' =>
      String (if Ascii.eqb c old then new else c) (replace_char old new s')
  | EmptyString => EmptyString
  end.

(** The nine characters of [invalid_chars], by code point, in the order
    of the source: less-than, greater-than, colon, double quote, slash,
    backslash, vertical bar, question mark, asterisk. *)
Definition invalid_chars : list Ascii.ascii :=
  map Ascii.ascii_of_nat [60; 62; 58; 34; 47; 92; 124; 63; 42].

Definition underscore : Ascii.ascii := Ascii.ascii_of_nat 95.

Definition safe_filename (filename : string) : string :=
  fold_left (fun name char => replace_char char underscore name) invalid_chars filename.

(** ** [config_manager.py] *)

Module ConfigManager.

(** What [yaml.safe_load] gives.  A mapping is the list of its items, in
    which no key occurs twice; a key that is not a string never equals the
    [str] that [get] looks up, and is left out. *)
#[warnings="-register-all"] Inductive Yaml : Type :=
  | YNone
  | YBool (b : bool)
  | YInt (n : Z)
  | YStr (s : string)
  | YList (elements : list Yaml)
  | YDict (items : list (string * Yaml)).

(** [str.split(sep)] for a separator of one character. *)
Fixpoint split (sep : Ascii.ascii) (s : string) : list string :=
  match s with
  | EmptyString => [EmptyString]
  | String c s' =>
      if Ascii.eqb c sep then EmptyString :: split sep s'
      else
        match split sep s' with
        | part :: parts => String c part :: parts
        | [] => [String c EmptyString]
        end
  end.

Definition dot : Ascii.ascii := Ascii.ascii_of_nat 46.

(** [d[k]] for a [dict] *)
Fixpoint getitem (k : string) (items : list (string * Yaml)) : option Yaml :=
  match items with
  | [] => None
  | (k', v) :: rest => if String.eqb k' k then Some v else getitem k rest
  end.

(** The loop [for k in keys: value = value[k]]; [None] when a subscript
    raises, [KeyError] on a mapping without the key and [TypeError] on
    anything that is not a mapping. *)
Fixpoint subscripts (keys : list string) (value : Yaml) : option Yaml :=
  match keys with
  | [] => Some value
  | k :: rest =>
      match value with
      | YDict items =>
          match getitem k items with
          | Some v => subscripts rest v
          | None => None
          end
      | _ => None
      end
  end.

Definition get (key : string) (default : Yaml) (_config : Yaml) : Yaml :=
  match subscripts (split dot key) _config with
  | Some value => value
  | None => default
  end.

Definition is_enabled (module : string) (_config : Yaml) : Yaml :=
  get (module +:+ ".enabled") (YBool false) _config.

Definition required : list string :=
  ["openrouter.api_key"; "models.transcription"; "models.screen_analysis"; "models.summary"].

(** The lines one required key adds to [errors]. *)
Definition complaint (_config : Yaml) (key : string) : list string :=
  match get key YNone _config with
  | YNone | YStr EmptyString => ["Configuração obrigatória ausente: " +:+ key]
  | YStr s =>
      if String.eqb key "openrouter.api_key" && String.eqb s "YOUR_OPENROUTER_API_KEY"
      then ["Configure sua API key do OpenRouter em settings.yaml"]
      else []
  | _ => []
  end.

(** [_validate]: [Raise] is the [ConfigError] with its message. *)
Definition _validate (_config : Yaml) : Outcome unit :=
  match flat_map (complaint _config) required with
  | [] => Ret tt
  | errors => Raise (String.concat nl errors)
  end.

End ConfigManager.

(** ** Analysis workers

    [AudioTranscriber], [ScreenAnalyzer] and [KeyboardAnalyzer] have the
    same fields, the same loop and the same [start], [stop] and
    [add_to_queue]; they differ in what the loop does with a dequeued
    item, in the join timeout and in their log lines.  One record holds
    the state of any of them, tagged by the stream it serves. *)

Inductive Stream : Type := Audio | Screen | Keyboard.

Global Instance Stream_eq_dec : EqDecision Stream.
Proof. solve_decision. Defined.

Record Worker : Type := mkWorker {
  kind : Stream;
  output_dir : string;
  model : string;
  prompt : string;
  _queue : list Path;            (* queue.Queue(): put at the back, get at the front *)
  _is_running : bool;
  _worker_thread : bool;         (* hasattr(self, '_worker_thread') *)
  alive : nat                    (* threads still inside _worker *)
  }.

Definition set_queue (q : list Path) (self : Worker) : Worker :=
  mkWorker (kind self) (output_dir self) (model self) (prompt self)
           q (_is_running self) (_worker_thread self) (alive self).

Definition set_is_running (b : bool) (self : Worker) : Worker :=
  mkWorker (kind self) (output_dir self) (model self) (prompt self)
           (_queue self) b (_worker_thread self) (alive self).

Definition set_thread (t : bool) (n : nat) (self : Worker) : Worker :=
  mkWorker (kind self) (output_dir self) (model self) (prompt self)
           (_queue self) (_is_running self) t n.

(** [__init__] of the three classes, after [config] supplied the defaults *)
Definition Worker_init (k : Stream) (dir mdl prm : string) : Worker :=
  mkWorker k dir mdl prm [] false false 0.

(** The file of the day a worker appends to. *)
Definition aggregate_name (k : Stream) : string :=
  match k with
  | Audio => "transcricao.txt"
  | Screen => "analise_tela.txt"
  | Keyboard => "analise_teclado.txt"
  end.

Definition aggregate_file (self : Worker) (w : World) : string :=
  output_dir self +:+ "/" +:+ get_today_folder w +:+ "/" +:+ aggregate_name (kind self).

Module AudioTranscriber.

Definition entry (audio_path : Path) (transcription : string) : string :=
  nl +:+ "[" +:+ stem audio_path +:+ "]" +:+ nl +:+ transcription +:+ nl.

Definition _save_transcription (env : Env) (self : Worker)
    (audio_path : Path) (transcription : string) (w : World) : World :=
  match append_file env (aggregate_file self w) (entry audio_path transcription) w with
  | Ret w' => logger INFO "Transcrição salva" w'
  | Raise e => logger ERROR ("Erro ao salvar: " +:+ e) w
  end.

(** The [try] block of [_worker] after a successful [get], with its
    [except Exception] handler. *)
Definition handle (env : Env) (self : Worker) (audio_path : Path)
    (w : World) : World :=
  let w1 := logger INFO ("Transcrevendo: " +:+ name audio_path) w in
  let w2 := emit (ApiTranscribe audio_path) w1 in
  match transcribe_audio env w1 audio_path (model self) "pt" with
  | Ret transcription => _save_transcription env self audio_path transcription w2
  | Raise e => logger ERROR ("Erro: " +:+ e) w2
  end.

End AudioTranscriber.

Module ScreenAnalyzer.

Definition entry (screenshot_path : Path) (analysis : string) : string :=
  nl +:+ "[" +:+ stem screenshot_path +:+ "]" +:+ nl +:+ analysis +:+ nl.

Definition _save_analysis (env : Env) (self : Worker)
    (screenshot_path : Path) (analysis : string) (w : World) : World :=
  match append_file env (aggregate_file self w) (entry screenshot_path analysis) w with
  | Ret w' => logger DEBUG "Análise salva" w'
  | Raise e => logger ERROR ("Erro ao salvar análise: " +:+ e) w
  end.

(** [unlink] inside [try: ... except: pass] *)
Definition _delete_screenshot (env : Env) (screenshot_path : Path)
    (w : World) : World :=
  if backup_screenshots env then w
  else
    match io_error env w (path_str screenshot_path), fs w !! path_str screenshot_path with
    | None, Some _ =>
        logger DEBUG ("Screenshot deletado: " +:+ name screenshot_path)
               (set_fs (delete (path_str screenshot_path) (fs w)) w)
    | _, _ => w
    end.

Definition handle (env : Env) (self : Worker) (screenshot_path : Path)
    (w : World) : World :=
  let w1 := logger INFO ("Analisando: " +:+ name screenshot_path) w in
  let w2 := emit (ApiAnalyzeImage screenshot_path) w1 in
  match analyze_image env w1 screenshot_path (prompt self) (model self) with
  | Ret analysis =>
      _delete_screenshot env screenshot_path
        (_save_analysis env self screenshot_path analysis w2)
  | Raise e => logger ERROR ("Erro na análise: " +:+ e) w2
  end.

End ScreenAnalyzer.

Module KeyboardAnalyzer.

Definition entry (w : World) (analysis : string) : string :=
  nl +:+ "[" +:+ strftime_HhMmSs (now w) +:+ "]" +:+ nl +:+ analysis +:+ nl.

Definition _save_analysis (env : Env) (self : Worker) (analysis : string)
    (w : World) : World :=
  match append_file env (aggregate_file self w) (entry w analysis) w with
  | Ret w' => logger DEBUG "Análise de teclado salva" w'
  | Raise e => logger ERROR ("Erro ao salvar análise de teclado: " +:+ e) w
  end.

Definition handle (env : Env) (self : Worker) (log_path : Path)
    (w : World) : World :=
  let w1 := logger INFO ("Analisando log de teclado: " +:+ name log_path) w in
  match read_text env log_path w1 with
  | Raise e => logger ERROR ("Erro na análise de teclado: " +:+ e) w1
  | Ret content =>
      if negb (truthy (strip content)) then w1
      else
        let w2 := emit (ApiSummary content) w1 in
        match generate_summary env w1 content (prompt self) (model self) with
        | Ret analysis => _save_analysis env self analysis w2
        | Raise e => logger ERROR ("Erro na análise de teclado: " +:+ e) w2
        end
  end.

End KeyboardAnalyzer.

(** What the loop does with one dequeued item.  [Queue.task_done] only
    maintains the counter behind [Queue.join], which the program never
    calls, and is left out. *)
Definition handle (env : Env) (self : Worker) (item : Path) (w : World) : World :=
  match kind self with
  | Audio => AudioTranscriber.handle env self item w
  | Screen => ScreenAnalyzer.handle env self item w
  | Keyboard => KeyboardAnalyzer.handle env self item w
  end.

Definition queue_empty (self : Worker) : bool :=
  match _queue self with [] => true | _ => false end.

(** One test of the [while] condition of [_worker] by one of its threads
    and, when it holds, one turn of the body.  [get(timeout=1.0)] on an
    empty queue raises [queue.Empty] after the wait and the loop goes on;
    when the condition fails the thread leaves the loop and ends. *)
Definition _worker (env : Env) (self : Worker) (w : World) : Worker * World :=
  if _is_running self || negb (queue_empty self) then
    match _queue self with
    | [] => (self, w)
    | item :: rest => (set_queue rest self, handle env self item w)
    end
  else (set_thread (_worker_thread self) (pred (alive self)) self, w).

Definition join_timeout (k : Stream) : nat :=
  match k with Audio => 30 | Screen => 60 | Keyboard => 30 end.

Definition started_line (k : Stream) (w : World) : World :=
  match k with
  | Audio => w
  | Screen => logger INFO "Analisador iniciado" w
  | Keyboard => logger INFO "Analisador de teclado iniciado" w
  end.

Definition stopped_line (k : Stream) (w : World) : World :=
  match k with
  | Audio => w
  | Screen => logger INFO "Analisador parado" w
  | Keyboard => logger INFO "Analisador de teclado parado" w
  end.

Module Worker.

Definition start (self : Worker) (w : World) : Worker * World :=
  if _is_running self then (self, w)
  else (set_thread true (S (alive self)) (set_is_running true self),
        started_line (kind self) (emit (Spawn "_worker") w)).

(** [join(timeout)] returns when the thread has ended or the timeout has
    passed; the turns the worker takes meanwhile are the [Turn] steps
    that follow [Stop] in a run. *)
Definition stop (self : Worker) (w : World) : Worker * World :=
  (set_is_running false self,
   stopped_line (kind self)
     (if _worker_thread self
      then emit (Join "_worker" (join_timeout (kind self))) w
      else w)).

Definition add_to_queue (item : Path) (self : Worker) (w : World) : Worker * World :=
  (set_queue (_queue self ++ [item]) self,
   match kind self with
   | Audio => w
   | Screen => logger DEBUG ("Screenshot na fila: " +:+ name item) w
   | Keyboard => logger DEBUG ("Log de teclado na fila: " +:+ name item) w
   end).


(** [ScreenAnalyzer.get_queue_size] *)
Definition get_queue_size (self : Worker) : nat := length (_queue self).

(** The steps of a run: the three calls made from other threads, and
    one turn of a worker thread. *)
Inductive Step : Type :=
  | Start
  | Stop
  | Add (item : Path)
  | Turn.

Definition step (env : Env) (st : Worker * World) (s : Step) : Worker * World :=
  match s with
  | Start => start st.1 st.2
  | Stop => stop st.1 st.2
  | Add item => add_to_queue item st.1 st.2
  | Turn => if alive st.1 is O then st else _worker env st.1 st.2
  end.

Definition run (env : Env) (steps : list Step) (st : Worker * World) : Worker * World :=
  fold_left (step env) steps st.

End Worker.

(** ** Capture producers *)

(** [str.lower] as it acts on ASCII text, where it changes the letters
    A to Z and nothing else, and [needle in hay].  On other text
    [str.lower] changes more than [lower] does: what is stated of the
    two directions of the test of exclusion is stated of ASCII titles
    and names. *)
Definition lower_ascii (c : Ascii.ascii) : Ascii.ascii :=
  let n := Ascii.nat_of_ascii c in
  if (65 <=? n) && (n <=? 90) then Ascii.ascii_of_nat (n + 32) else c.

Fixpoint lower (s : string) : string :=
  match s with
  | String c s' => String (lower_ascii c) (lower s')
  | EmptyString => EmptyString
  end.

Fixpoint contains (needle hay : string) : bool :=
  String.prefix needle hay ||
  match hay with
  | String _ hay' => contains needle hay'
  | EmptyString => false
  end.

Module ScreenCapture.

Record t : Type := mk {
  interval : nat;
  output_dir : string;
  on_capture_ready : bool;        (* the callback is not None *)
  monitor_index : nat;
  format : string;
  quality : nat;
  excluded_apps : list string;
  excluded_windows : list string;
  is_running : bool;
  is_paused : bool;
  _capture_thread : bool;         (* hasattr(self, '_capture_thread') *)
  alive : nat                     (* threads still inside _capture_loop *)
  }.

Definition set_flags (r p : bool) (self : t) : t :=
  mk (interval self) (output_dir self) (on_capture_ready self)
     (monitor_index self) (format self) (quality self)
     (excluded_apps self) (excluded_windows self)
     r p (_capture_thread self) (alive self).

Definition set_thread (h : bool) (n : nat) (self : t) : t :=
  mk (interval self) (output_dir self) (on_capture_ready self)
     (monitor_index self) (format self) (quality self)
     (excluded_apps self) (excluded_windows self)
     (is_running self) (is_paused self) h n.

Definition init (interval_seconds : nat) (dir : string) (cb : bool)
    (mon : nat) (fmt : string) (q : nat) (apps wins : list string) : t :=
  mk interval_seconds dir cb mon fmt q apps wins false false false 0.

(** [Some line] when the capture is to be skipped, with the debug line
    the method logs before it returns [True]. *)
Definition _should_skip_capture (env : Env) (self : t) (w : World) : option string :=
  let title := lower (active_window_title env w) in
  match List.find (fun app => contains (lower app) title) (excluded_apps self) with
  | Some app => Some ("Pulando captura: app excluído (" +:+ app +:+ ")")
  | None =>
      match List.find (fun win => contains (lower win) title) (excluded_windows self) with
      | Some win => Some ("Pulando captura: janela excluída (" +:+ win +:+ ")")
      | None => None
      end
  end.

Definition _save_screenshot (env : Env) (self : t) (img : string)
    (w : World) : option Path * World :=
  let today_dir := output_dir self +:+ "/" +:+ get_today_folder w in
  let timestamp := strftime_HhMmSs (now w) in
  let filepath :=
    if String.eqb (format self) "jpg"
    then mkPath today_dir timestamp ".jpg"
    else mkPath today_dir timestamp ".png" in
  match io_error env w (path_str filepath) with
  | Some e => (None, logger ERROR ("Erro ao salvar screenshot: " +:+ e) w)
  | None =>
      (Some filepath,
       logger DEBUG ("Screenshot salvo: " +:+ name filepath)
              (set_fs (<[path_str filepath := img]> (fs w)) w))
  end.

(** One test of [while self.is_running] by a loop thread and, when it
    holds, one turn of the body, which ends in [time.sleep].  A thread is
    between two turns while it sleeps.  [mss.mss()] and the choice of the
    monitor are taken to succeed. *)
Definition _capture_loop (env : Env) (self : t) (w : World) : t * World :=
  if is_running self then
    if is_paused self then (self, emit (Sleep (interval self)) w)
    else
      match _should_skip_capture env self w with
      | Some line => (self, emit (Sleep (interval self)) (logger DEBUG line w))
      | None =>
          let w1 := emit Grab w in
          match grab env w with
          | Raise e =>
              (self, emit (Sleep (interval self))
                       (logger ERROR ("Erro na captura: " +:+ e) w1))
          | Ret img =>
              let '(filepath, w2) := _save_screenshot env self img w1 in
              let w3 :=
                match filepath with
                | Some fp =>
                    if on_capture_ready self
                    then emit (Notify "on_capture_ready" fp) w2
                    else w2
                | None => w2
                end in
              (self, emit (Sleep (interval self)) w3)
          end
      end
  else
    (set_thread (_capture_thread self) (pred (alive self)) self,
     logger INFO "Loop de captura encerrado" w).

Definition start (self : t) (w : World) : t * World :=
  if is_running self then (self, w)
  else
    (set_thread true (S (alive self)) (set_flags true false self),
     logger INFO "Captura de tela iniciada"
       (logger INFO "Loop de captura iniciado"
          (emit (Spawn "_capture_loop") w))).

Definition stop (self : t) (w : World) : t * World :=
  if negb (is_running self) then (self, w)
  else
    (set_flags false (is_paused self) self,
     logger INFO "Captura de tela parada"
       (if _capture_thread self then emit (Join "_capture_loop" 10) w else w)).

Definition pause (self : t) (w : World) : t * World :=
  (set_flags (is_running self) true self, logger INFO "Captura pausada" w).

Definition resume (self : t) (w : World) : t * World :=
  (set_flags (is_running self) false self, logger INFO "Captura retomada" w).

(** [capture_once]: it tests neither [is_running] nor [is_paused] nor the
    excluded windows and calls no callback; an exception of the grab is
    not caught, one of the save is, by [_save_screenshot]. *)
Definition capture_once (env : Env) (self : t) (w : World) : Outcome (option Path) * World :=
  let w1 := emit Grab w in
  match grab env w with
  | Raise e => (Raise e, w1)
  | Ret img =>
      let '(filepath, w2) := _save_screenshot env self img w1 in
      (Ret filepath, w2)
  end.

Inductive Step : Type := Start | Stop | Pause | Resume | Tick.

Definition step (env : Env) (st : t * World) (s : Step) : t * World :=
  match s with
  | Start => start st.1 st.2
  | Stop => stop st.1 st.2
  | Pause => pause st.1 st.2
  | Resume => resume st.1 st.2
  | Tick => if alive st.1 is O then st else _capture_loop env st.1 st.2
  end.

Definition run (env : Env) (steps : list Step) (st : t * World) : t * World :=
  fold_left (step env) steps st.

End ScreenCapture.

(** A key as [pynput] hands it to [on_press]: a [KeyCode] with its [char]
    (possibly [None]) and virtual key number, or a member [Key.<name>] of
    the enumeration of special keys. *)
Inductive Key : Type :=
  | KeyCode (char : option string) (vk : nat)
  | SpecialKey (key : string).

Module KeyboardRecorder.

Record t : Type := mk {
  save_interval : nat;
  on_log_ready : bool;            (* the callback is not None *)
  data_dir : string;
  current_buffer : list string;
  listener : bool;                (* self.listener is not None *)
  running : bool;
  paused : bool;
  _timer : bool;                  (* self._timer is not None *)
  alive : nat                     (* threads still inside _save_loop *)
  }.

Definition set_buffer (b : list string) (self : t) : t :=
  mk (save_interval self) (on_log_ready self) (data_dir self) b
     (listener self) (running self) (paused self) (_timer self) (alive self).

Definition set_listener (l : bool) (self : t) : t :=
  mk (save_interval self) (on_log_ready self) (data_dir self)
     (current_buffer self) l (running self) (paused self) (_timer self) (alive self).

Definition set_flags (r p : bool) (self : t) : t :=
  mk (save_interval self) (on_log_ready self) (data_dir self)
     (current_buffer self) (listener self) r p (_timer self) (alive self).

Definition set_timer (h : bool) (n : nat) (self : t) : t :=
  mk (save_interval self) (on_log_ready self) (data_dir self)
     (current_buffer self) (listener self) (running self) (paused self) h n.

Definition init (save_interval_minutes : nat) (cb : bool) (root : string) : t :=
  mk (save_interval_minutes * 60) cb (root +:+ "/data/keyboard")
     [] false false false false 0.

Definition key_text (key : Key) : string :=
  match key with
  | KeyCode (Some c) _ => c
  | KeyCode None vk => "<" +:+ pretty vk +:+ ">" +:+ "]"
  | SpecialKey k =>
      if String.eqb k "space" then " "
      else if String.eqb k "enter" then nl
      else if String.eqb k "tab" then tab
      else if String.eqb k "backspace" then "[BKSP]"
      else "[" +:+ k +:+ "]"
  end.

Definition _on_press (key : Key) (self : t) (w : World) : t * World :=
  if paused self then (self, w)
  else
    let char := key_text key in
    if truthy char
    then (set_buffer (current_buffer self ++ [char]) self, w)
    else (self, w).

Definition log_file (self : t) (w : World) : Path :=
  mkPath (data_dir self +:+ "/" +:+ get_today_folder w) "keylog" ".txt".

Definition header (w : World) : string :=
  nl +:+ "--- [" +:+ strftime_HMS (now w) +:+ "] ---" +:+ nl.

Definition save_buffer (env : Env) (self : t) (w : World) : t * World :=
  match current_buffer self with
  | [] => (self, w)
  | _ :: _ =>
      let content := String.concat "" (current_buffer self) in
      let self' := set_buffer [] self in
      match append_file env (path_str (log_file self w))
                        (header w +:+ content +:+ nl) w with
      | Raise e => (self', logger ERROR ("Erro ao salvar log de teclado: " +:+ e) w)
      | Ret w1 =>
          let w2 := logger DEBUG ("Log de teclado salvo em " +:+ path_str (log_file self w)) w1 in
          (self',
           if on_log_ready self
           then emit (Notify "on_log_ready" (log_file self w)) w2
           else w2)
      end
  end.

(** A thread of [_save_loop] waking from [time.sleep(self.save_interval)]:
    the rest of the body, then the test of [while self.running], after
    which the thread either sleeps again or ends.  A thread is between
    two such turns while it sleeps. *)
Definition _save_loop (env : Env) (self : t) (w : World) : t * World :=
  let '(self1, w1) :=
    if paused self then (self, w) else save_buffer env self w in
  if running self1
  then (self1, emit (Sleep (save_interval self1)) w1)
  else (set_timer (_timer self1) (pred (alive self1)) self1, w1).

(** The new thread passes [while self.running] and enters its first sleep. *)
Definition start (self : t) (w : World) : t * World :=
  if running self then (self, w)
  else
    (set_timer true (S (alive self)) (set_listener true (set_flags true false self)),
     logger INFO "Gravador de teclado iniciado"
       (emit (Sleep (save_interval self))
          (emit (Spawn "_save_loop") (emit ListenerStart w)))).

Definition stop (env : Env) (self : t) (w : World) : t * World :=
  let self1 := set_flags false (paused self) self in
  let '(self2, w2) :=
    if listener self1
    then (set_listener false self1, emit ListenerStop w)
    else (self1, w) in
  let '(self3, w3) := save_buffer env self2 w2 in
  (self3, logger INFO "Gravador de teclado encerrado" w3).

Definition pause (self : t) (w : World) : t * World :=
  (set_flags (running self) true self, logger INFO "Gravador de teclado pausado" w).

Definition resume (self : t) (w : World) : t * World :=
  (set_flags (running self) false self, logger INFO "Gravador de teclado retomado" w).

(** [save_buffer] and [stop] when the callable in [on_log_ready] is
    known: [cb] is what a call of it, which returns, does to the state
    [S] of the object it belongs to and to the world.  The call is made
    inside the [try] block, after the debug line. *)
Definition save_buffer_with {S : Type} (cb : Path -> S -> World -> S * World)
    (env : Env) (self : t) (s : S) (w : World) : t * S * World :=
  match current_buffer self with
  | [] => (self, s, w)
  | _ :: _ =>
      let content := String.concat "" (current_buffer self) in
      let self' := set_buffer [] self in
      match append_file env (path_str (log_file self w))
                        (header w +:+ content +:+ nl) w with
      | Raise e => (self', s, logger ERROR ("Erro ao salvar log de teclado: " +:+ e) w)
      | Ret w1 =>
          let w2 := logger DEBUG ("Log de teclado salvo em " +:+ path_str (log_file self w)) w1 in
          if on_log_ready self
          then let '(s', w3) := cb (log_file self w) s w2 in (self', s', w3)
          else (self', s, w2)
      end
  end.

Definition stop_with {S : Type} (cb : Path -> S -> World -> S * World)
    (env : Env) (self : t) (s : S) (w : World) : t * S * World :=
  let self1 := set_flags false (paused self) self in
  let '(self2, w2) :=
    if listener self1
    then (set_listener false self1, emit ListenerStop w)
    else (self1, w) in
  let '(self3, s3, w3) := save_buffer_with cb env self2 s w2 in
  (self3, s3, logger INFO "Gravador de teclado encerrado" w3).

(** [Press] is a key event delivered by the listener, [Wake] a turn of a
    save-loop thread. *)
Inductive Step : Type := Start | Stop | Pause | Resume | Press (key : Key) | Wake.

Definition step (env : Env) (st : t * World) (s : Step) : t * World :=
  match s with
  | Start => start st.1 st.2
  | Stop => stop env st.1 st.2
  | Pause => pause st.1 st.2
  | Resume => resume st.1 st.2
  | Press key => if listener st.1 then _on_press key st.1 st.2 else st
  | Wake => if alive st.1 is O then st else _save_loop env st.1 st.2
  end.

Definition run (env : Env) (steps : list Step) (st : t * World) : t * World :=
  fold_left (step env) steps st.

End KeyboardRecorder.

(** ** Callbacks

    A callable handed to [register_callback]: what it does is outside the
    component that calls it, so a call leaves [Invoke] in the trace and
    either returns or raises. *)
Record Callable : Type := mkCallable {
  callable_name : string;
  raises : option string
  }.

Global Instance Callable_eq_dec : EqDecision Callable.
Proof. solve_decision. Defined.

(** The world after the call, and the exception that came out of it. *)
Definition call (c : Callable) (w : World) : World * option string :=
  (emit (Invoke (callable_name c)) w, raises c).

(** ** Power monitor *)

Module PowerMonitor.

Definition WM_POWERBROADCAST : Z := 0x0218.
Definition PBT_APMSUSPEND : Z := 0x0004.
Definition PBT_APMRESUMESUSPEND : Z := 0x0007.
Definition PBT_APMRESUMEAUTOMATIC : Z := 0x0012.
Definition WM_WTSSESSION_CHANGE : Z := 0x02B1.
Definition WTS_SESSION_LOCK : Z := 0x7.
Definition WTS_SESSION_UNLOCK : Z := 0x8.

Record t : Type := mk {
  pause_on_lock : bool;
  _callbacks : gmap string Callable;
  _is_running : bool;
  _hwnd : option nat;
  starting : nat;     (* threads in _message_loop that have not made the window yet *)
  looping : nat       (* threads of _message_loop waiting in GetMessageW *)
  }.

Definition init (pause_lock : bool) : t := mk pause_lock ∅ false None 0 0.

Definition register_callback (event : string) (callback : Callable) (self : t) : t :=
  mk (pause_on_lock self) (<[event := callback]> (_callbacks self))
     (_is_running self) (_hwnd self) (starting self) (looping self).

Definition _trigger (event : string) (self : t) (w : World) : World :=
  match _callbacks self !! event with
  | Some callback =>
      match call callback w with
      | (w', Some e) => logger ERROR ("Erro no callback " +:+ event +:+ ": " +:+ e) w'
      | (w', None) => w'
      end
  | None => w
  end.

(** The body of [_window_proc]; its result, that of [DefWindowProcW],
    goes back to the system. *)
Definition _window_proc (self : t) (msg wparam : Z) (w : World) : World :=
  if (msg =? WM_POWERBROADCAST)%Z then
    if (wparam =? PBT_APMSUSPEND)%Z then
      _trigger "on_sleep" self (logger INFO "Sistema entrando em sleep" w)
    else if (wparam =? PBT_APMRESUMESUSPEND)%Z || (wparam =? PBT_APMRESUMEAUTOMATIC)%Z then
      _trigger "on_wake" self (logger INFO "Sistema acordando" w)
    else w
  else if (msg =? WM_WTSSESSION_CHANGE)%Z then
    if (wparam =? WTS_SESSION_LOCK)%Z then
      let w1 := logger INFO "Tela bloqueada" w in
      if pause_on_lock self then _trigger "on_lock" self w1 else w1
    else if (wparam =? WTS_SESSION_UNLOCK)%Z then
      let w1 := logger INFO "Tela desbloqueada" w in
      if pause_on_lock self then _trigger "on_unlock" self w1 else w1
    else w
  else w.

Definition set_threads (s l : nat) (self : t) : t :=
  mk (pause_on_lock self) (_callbacks self) (_is_running self) (_hwnd self) s l.

Definition set_hwnd (h : option nat) (self : t) : t :=
  mk (pause_on_lock self) (_callbacks self) (_is_running self) h
     (starting self) (looping self).

Definition set_is_running (b : bool) (self : t) : t :=
  mk (pause_on_lock self) (_callbacks self) b (_hwnd self)
     (starting self) (looping self).

(** The head of [_message_loop], up to the first test of
    [while self._is_running]: [created] is what the creation and
    registration of the window gave, a handle or an exception. *)
Definition _message_loop_bind (created : Outcome nat) (self : t) (w : World) : t * World :=
  match created with
  | Raise e =>
      (set_threads (pred (starting self)) (looping self) self,
       logger ERROR ("Erro no message loop: " +:+ e) w)
  | Ret h =>
      let self1 := set_hwnd (Some h) self in
      let w1 := logger INFO "Power monitor iniciado"
                  (emit (OsCall "WTSRegisterSessionNotification" h)
                     (emit (OsCall "CreateWindowExW" h) w)) in
      if _is_running self1
      then (set_threads (pred (starting self1)) (S (looping self1)) self1, w1)
      else (set_threads (pred (starting self1)) (looping self1) self1, w1)
  end.

(** [GetMessageW] hands a message to a waiting thread, which dispatches
    it to [_window_proc] and tests [while self._is_running] again. *)
Definition _message_loop_turn (msg wparam : Z) (self : t) (w : World) : t * World :=
  let w1 := _window_proc self msg wparam w in
  if _is_running self then (self, w1)
  else (set_threads (starting self) (pred (looping self)) self, w1).

Definition start (self : t) (w : World) : t * World :=
  if _is_running self then (self, w)
  else (set_threads (S (starting self)) (looping self) (set_is_running true self),
        emit (Spawn "_message_loop") w).

Definition stop (self : t) (w : World) : t * World :=
  (set_is_running false self,
   match _hwnd self with
   | Some h =>
       emit (OsCall "DestroyWindow" h)
         (emit (OsCall "WTSUnRegisterSessionNotification" h) w)
   | None => w
   end).

Inductive Step : Type :=
  | Register (event : string) (callback : Callable)
  | Start
  | Stop
  | Bind (created : Outcome nat)
  | Message (msg wparam : Z).

Definition step (st : t * World) (s : Step) : t * World :=
  match s with
  | Register event callback => (register_callback event callback st.1, st.2)
  | Start => start st.1 st.2
  | Stop => stop st.1 st.2
  | Bind created =>
      if starting st.1 is O then st else _message_loop_bind created st.1 st.2
  | Message msg wparam =>
      if looping st.1 is O then st else _message_loop_turn msg wparam st.1 st.2
  end.

Definition run (steps : list Step) (st : t * World) : t * World :=
  fold_left step steps st.

End PowerMonitor.

(** ** Task scheduler *)

(** A calendar date, the day key of the spec. *)
Definition DayKey : Type := (nat * nat * nat)%type.

Definition dayKey (d : DateTime) : DayKey := (year d, month d, day d).

(** Dates in calendar order. *)
Definition day_lt (a b : DayKey) : Prop :=
  a.1.1 < b.1.1 \/
  (a.1.1 = b.1.1 /\ (a.1.2 < b.1.2 \/ (a.1.2 = b.1.2 /\ a.2 < b.2))).

Definition day_le (a b : DayKey) : Prop := a = b \/ day_lt a b.

(** The functions [TaskScheduler.start] hands to the scheduling package. *)
Inductive JobFunc : Type := TriggerDailySummary | TriggerCleanup.

Global Instance JobFunc_eq_dec : EqDecision JobFunc.
Proof. solve_decision. Defined.

Module Schedule.

(** Modelled from the spec: the module [schedule] that
    [system/scheduler.py] imports is a package outside the repository
    and not under [src/]; this record is the ScheduledTrigger of spec
    section 3, "{name, timeOfDay (HH:MM), lastFiredDayKey}", with the
    job function as its name. *)
Record ScheduledTrigger : Type := mkTrigger {
  job_func : JobFunc;
  timeOfDay : nat * nat;
  lastFiredDayKey : option DayKey
  }.

Definition digit (c : Ascii.ascii) : option nat :=
  let n := Ascii.nat_of_ascii c in
  if (48 <=? n) && (n <=? 57) then Some (n - 48) else None.

(** Modelled from the spec: the argument of [every().day.at(...)], a
    time of day written "HH:MM" (spec section 3); any other text is
    refused. *)
Definition parse_time (s : string) : option (nat * nat) :=
  match s with
  | String a (String b (String c (String d (String e EmptyString)))) =>
      match digit a, digit b, digit d, digit e with
      | Some h1, Some h0, Some m1, Some m0 =>
          if (Ascii.nat_of_ascii c =? 58) && (h1 * 10 + h0 <? 24) && (m1 * 10 + m0 <? 60)
          then Some (h1 * 10 + h0, m1 * 10 + m0)
          else None
      | _, _, _, _ => None
      end
  | _ => None
  end.

(** Modelled from the spec: [schedule.every().day.at(at).do(f)] adds a
    trigger that has not fired yet to the package's list of jobs. *)
Definition every_day_at_do (at_time : nat * nat) (f : JobFunc)
    (jobs : list ScheduledTrigger) : list ScheduledTrigger :=
  jobs ++ [mkTrigger f at_time None].

(** Modelled from the spec: section 4.5, "if current time >= timeOfDay
    AND today's dayKey <> trigger.lastFiredDayKey". *)
Definition due (j : ScheduledTrigger) (d : DateTime) : bool :=
  ((timeOfDay j).1 * 60 + (timeOfDay j).2 <=? hour d * 60 + minute d)
  && negb (bool_decide (lastFiredDayKey j = Some (dayKey d))).

(** Modelled from the spec: [schedule.run_pending()], section 4.5, "a
    single polling loop checks each trigger: if [due], fire the
    trigger's registered callback and set lastFiredDayKey = today". *)
Fixpoint run_pending (fire : JobFunc -> World -> World)
    (jobs : list ScheduledTrigger) (w : World) : list ScheduledTrigger * World :=
  match jobs with
  | [] => ([], w)
  | j :: rest =>
      let '(j', w1) :=
        if due j (now w)
        then (mkTrigger (job_func j) (timeOfDay j) (Some (dayKey (now w))),
              fire (job_func j) w)
        else (j, w) in
      let '(rest', w2) := run_pending fire rest w1 in
      (j' :: rest', w2)
  end.

(** Modelled from the spec: [schedule.clear()] removes every job. *)
Definition clear (jobs : list ScheduledTrigger) : list ScheduledTrigger := [].

End Schedule.

Module TaskScheduler.

Record t : Type := mk {
  summary_time : string;
  timezone : string;
  _is_running : bool;
  _thread : bool;                                (* self._thread is not None *)
  _callbacks : gmap string Callable;
  jobs : list Schedule.ScheduledTrigger;         (* the job list of the package, used by this class alone *)
  alive : nat                                    (* threads still inside _run_scheduler *)
  }.

Definition init (summary : string) (tz : string) : t :=
  mk summary tz false false ∅ [] 0.

Definition register_callback (name : string) (callback : Callable) (self : t) : t :=
  mk (summary_time self) (timezone self) (_is_running self) (_thread self)
     (<[name := callback]> (_callbacks self)) (jobs self) (alive self).

Definition set_jobs (js : list Schedule.ScheduledTrigger) (self : t) : t :=
  mk (summary_time self) (timezone self) (_is_running self) (_thread self)
     (_callbacks self) js (alive self).

Definition set_is_running (b : bool) (self : t) : t :=
  mk (summary_time self) (timezone self) b (_thread self)
     (_callbacks self) (jobs self) (alive self).

Definition set_thread (h : bool) (n : nat) (self : t) : t :=
  mk (summary_time self) (timezone self) (_is_running self) h
     (_callbacks self) (jobs self) n.

Definition _trigger_daily_summary (self : t) (w : World) : World :=
  let w1 := logger INFO "Disparando resumo diário..." w in
  match _callbacks self !! "on_summary_time" with
  | Some callback =>
      match call callback w1 with
      | (w2, Some e) => logger ERROR ("Erro no resumo diário: " +:+ e) w2
      | (w2, None) => w2
      end
  | None => w1
  end.

Definition _trigger_cleanup (self : t) (w : World) : World :=
  let w1 := logger INFO "Disparando limpeza..." w in
  match _callbacks self !! "on_cleanup" with
  | Some callback =>
      match call callback w1 with
      | (w2, Some e) => logger ERROR ("Erro na limpeza: " +:+ e) w2
      | (w2, None) => w2
      end
  | None => w1
  end.

Definition fire (self : t) (f : JobFunc) (w : World) : World :=
  match f with
  | TriggerDailySummary => _trigger_daily_summary self w
  | TriggerCleanup => _trigger_cleanup self w
  end.

(** One test of [while self._is_running] by a scheduler thread and,
    when it holds, [schedule.run_pending()] and [time.sleep(1)]. *)
Definition _run_scheduler (self : t) (w : World) : t * World :=
  if _is_running self then
    let '(js, w1) := Schedule.run_pending (fire self) (jobs self) w in
    (set_jobs js self, emit (Sleep 1) w1)
  else
    (set_thread (_thread self) (pred (alive self)) self,
     logger INFO "Scheduler parado" w).

(** [at] raises on a time it cannot read, before anything is changed. *)
Definition start (self : t) (w : World) : Outcome (t * World) :=
  if _is_running self then Ret (self, w)
  else
    match Schedule.parse_time (summary_time self), Schedule.parse_time "00:30" with
    | Some at_summary, Some at_cleanup =>
        let js := Schedule.every_day_at_do at_cleanup TriggerCleanup
                    (Schedule.every_day_at_do at_summary TriggerDailySummary (jobs self)) in
        Ret (set_thread true (S (alive self)) (set_is_running true (set_jobs js self)),
             logger INFO "Scheduler iniciado"
               (emit (Spawn "_run_scheduler")
                  (logger INFO "Limpeza agendada para 00:30"
                     (logger INFO ("Resumo agendado para " +:+ summary_time self) w))))
    | _, _ => Raise ("Invalid time format: " +:+ summary_time self)
    end.

Definition stop (self : t) (w : World) : t * World :=
  (set_jobs (Schedule.clear (jobs self)) (set_is_running false self),
   if _thread self then emit (Join "_run_scheduler" 5) w else w).

Definition run_now (task : string) (self : t) (w : World) : World :=
  if String.eqb task "summary" then _trigger_daily_summary self w
  else if String.eqb task "cleanup" then _trigger_cleanup self w
  else w.

Definition set_now (d : DateTime) (w : World) : World :=
  mkWorld (fs w) (log w) (trace w) d.

(** [Poll d] is a turn of a scheduler thread taken when the clock shows
    [d]. *)
Inductive Step : Type :=
  | Register (name : string) (callback : Callable)
  | Start
  | Stop
  | Poll (d : DateTime)
  | RunNow (task : string).

Definition step (st : t * World) (s : Step) : t * World :=
  match s with
  | Register name callback => (register_callback name callback st.1, st.2)
  | Start => match start st.1 st.2 with Ret st' => st' | Raise _ => st end
  | Stop => stop st.1 st.2
  | Poll d =>
      if alive st.1 is O then (st.1, set_now d st.2)
      else _run_scheduler st.1 (set_now d st.2)
  | RunNow task => (st.1, run_now task st.1 st.2)
  end.

Definition run (steps : list Step) (st : t * World) : t * World :=
  fold_left step steps st.

End TaskScheduler.

(** ** Orchestrator *)

Module AudioRecorder.

(** Modelled from the spec: [audio/recorder.py], which [main.py]
    imports [AudioRecorder] from, is not under [src/]; spec section 4.2
    gives a producer a running flag and a paused flag, "start():
    transition Stopped->Running", "pause(): set a flag", "stop(): set
    running=false". *)
Record t : Type := mk { running : bool; paused : bool }.

Definition init : t := mk false false.
Definition start (self : t) : t := if running self then self else mk true false.
Definition stop (self : t) : t := mk false (paused self).
Definition pause (self : t) : t := mk (running self) true.
Definition resume (self : t) : t := mk (running self) false.

End AudioRecorder.

(** ** Daily summary ([summary/generator.py]) *)

Module SummaryGenerator.

Record t : Type := mk {
  model : string;
  prompt : string;
  transcriptions_dir : string;
  screen_analysis_dir : string;
  keyboard_analysis_dir : string;
  output_dir : string
  }.

(** [__init__], [root] being [get_project_root()] *)
Definition init (mdl prm root : string) : t :=
  mk mdl prm (root +:+ "/data/transcriptions") (root +:+ "/data/screen_analysis")
     (root +:+ "/data/keyboard_analysis") (root +:+ "/data/summaries").

(** [date or get_today_folder()] *)
Definition date_or_today (date : option string) (w : World) : string :=
  match date with
  | Some d => if truthy d then d else get_today_folder w
  | None => get_today_folder w
  end.

Definition transcriptions_file (self : t) (date : string) : Path :=
  mkPath (transcriptions_dir self +:+ "/" +:+ date) "transcricao" ".txt".

Definition screen_analysis_file (self : t) (date : string) : Path :=
  mkPath (screen_analysis_dir self +:+ "/" +:+ date) "analise_tela" ".txt".

Definition keyboard_analysis_file (self : t) (date : string) : Path :=
  mkPath (keyboard_analysis_dir self +:+ "/" +:+ date) "analise_teclado" ".txt".

Definition summary_file (self : t) (date : string) : Path :=
  mkPath (output_dir self +:+ "/" +:+ date) "resumo" ".md".

Definition _get_transcriptions (env : Env) (self : t) (date : option string)
    (w : World) : Outcome string :=
  read_if_exists env (transcriptions_file self (date_or_today date w)) w.

Definition _get_screen_analysis (env : Env) (self : t) (date : option string)
    (w : World) : Outcome string :=
  read_if_exists env (screen_analysis_file self (date_or_today date w)) w.

Definition _get_keyboard_analysis (env : Env) (self : t) (date : option string)
    (w : World) : Outcome string :=
  read_if_exists env (keyboard_analysis_file self (date_or_today date w)) w.

(** [strftime('%d/%m/%Y às %H:%M')] *)
Definition strftime_dmY_HM (d : DateTime) : string :=
  pad2 (day d) +:+ "/" +:+ pad2 (month d) +:+ "/" +:+ pad4 (year d)
  +:+ " às " +:+ pad2 (hour d) +:+ ":" +:+ pad2 (minute d).

Definition header (date : string) (w : World) : string :=
  "# Resumo do dia " +:+ date +:+ nl
  +:+ "*Gerado em " +:+ strftime_dmY_HM (now w) +:+ "*" +:+ nl
  +:+ nl +:+ "---" +:+ nl +:+ nl.

(** No exception is caught here. *)
Definition _save_summary (env : Env) (self : t) (summary date : string)
    (w : World) : Outcome unit * World :=
  match write_text env (path_str (summary_file self date)) (header date w +:+ summary) w with
  | (Raise e, w1) => (Raise e, w1)
  | (Ret _, w1) =>
      (Ret tt, logger INFO ("Resumo salvo: " +:+ path_str (summary_file self date)) w1)
  end.

(** The list [content_parts] of [generate]. *)
Definition content_parts (transcriptions screen_analysis keyboard_analysis : string)
    : list string :=
  (if truthy transcriptions
   then ["### TRANSCRIÇÕES DE ÁUDIO ###"; transcriptions] else [])
  ++ (if truthy screen_analysis
      then [nl +:+ "### ANÁLISES DE TELA ###"; screen_analysis] else [])
  ++ (if truthy keyboard_analysis
      then [nl +:+ "### ANÁLISES DE TECLADO ###"; keyboard_analysis] else []).

(** [generate]: the summary it returns or the exception that leaves it,
    and the world it leaves. *)
Definition generate (env : Env) (self : t) (date : option string) (w : World)
    : Outcome string * World :=
  let date := date_or_today date w in
  let w1 := logger INFO ("Gerando resumo para " +:+ date) w in
  match _get_transcriptions env self (Some date) w1 with
  | Raise e => (Raise e, w1)
  | Ret transcriptions =>
      match _get_screen_analysis env self (Some date) w1 with
      | Raise e => (Raise e, w1)
      | Ret screen_analysis =>
          match _get_keyboard_analysis env self (Some date) w1 with
          | Raise e => (Raise e, w1)
          | Ret keyboard_analysis =>
              if negb (truthy transcriptions) && negb (truthy screen_analysis)
                 && negb (truthy keyboard_analysis)
              then (Ret "Nenhum conteúdo foi capturado hoje.",
                    logger WARNING "Nenhum conteúdo para resumir" w1)
              else
                let content :=
                  String.concat nl
                    (content_parts transcriptions screen_analysis keyboard_analysis) in
                let w2 := emit (ApiSummary content) w1 in
                match generate_summary env w1 content (prompt self) (model self) with
                | Raise e => (Raise e, w2)
                | Ret summary =>
                    match _save_summary env self summary date w2 with
                    | (Raise e, w3) => (Raise e, w3)
                    | (Ret _, w3) =>
                        (Ret summary,
                         logger INFO ("Resumo gerado: " +:+ pretty (len summary)
                                      +:+ " caracteres") w3)
                    end
                end
          end
      end
  end.

Definition get_summary (env : Env) (self : t) (date : option string)
    (w : World) : Outcome string :=
  read_if_exists env (summary_file self (date_or_today date w)) w.

End SummaryGenerator.

Module Assistant.

(** What [get_config()] returns, as far as [main.py] and the
    constructors read it; [ctor_error] is the exception a class raises
    from its constructor, if any. *)
Record Config : Type := mkConfig {
  audio_enabled : bool;
  screen_enabled : bool;
  keyboard_enabled : bool;
  drive_enabled : bool;
  email_enabled : bool;
  start_with_windows : bool;
  startup_is_enabled : bool;
  models_transcription : string;
  models_screen_analysis : string;
  models_summary : string;
  screen_analysis_prompt : string;
  keyboard_analysis_prompt : string;
  screen_capture_interval_seconds : nat;
  screen_monitor : nat;
  screen_format : string;
  screen_quality : nat;
  privacy_excluded_apps : list string;
  privacy_excluded_windows : list string;
  privacy_pause_on_lock : bool;
  keyboard_save_interval_minutes : nat;
  schedule_summary_time : string;
  schedule_timezone : string;
  project_root : string;
  ctor_error : string -> option string
  }.

Record t : Type := mk {
  running : bool;
  config : option Config;
  audio_recorder : option AudioRecorder.t;
  audio_transcriber : option Worker;
  screen_capture : option ScreenCapture.t;
  screen_analyzer : option Worker;
  keyboard_recorder : option KeyboardRecorder.t;
  keyboard_analyzer : option Worker;
  drive_manager : bool;          (* the field is not None *)
  email_sender : bool;
  summary_generator : bool;
  scheduler : option TaskScheduler.t;
  power_monitor : option PowerMonitor.t
  }.

Definition init : t :=
  mk false None None None None None None None false false false None None.

Definition set_running (b : bool) (a : t) : t :=
  mk b (config a) (audio_recorder a) (audio_transcriber a) (screen_capture a)
     (screen_analyzer a) (keyboard_recorder a) (keyboard_analyzer a)
     (drive_manager a) (email_sender a) (summary_generator a)
     (scheduler a) (power_monitor a).

Definition set_config (c : option Config) (a : t) : t :=
  mk (running a) c (audio_recorder a) (audio_transcriber a) (screen_capture a)
     (screen_analyzer a) (keyboard_recorder a) (keyboard_analyzer a)
     (drive_manager a) (email_sender a) (summary_generator a)
     (scheduler a) (power_monitor a).

Definition set_audio_recorder (x : option AudioRecorder.t) (a : t) : t :=
  mk (running a) (config a) x (audio_transcriber a) (screen_capture a)
     (screen_analyzer a) (keyboard_recorder a) (keyboard_analyzer a)
     (drive_manager a) (email_sender a) (summary_generator a)
     (scheduler a) (power_monitor a).

Definition set_audio_transcriber (x : option Worker) (a : t) : t :=
  mk (running a) (config a) (audio_recorder a) x (screen_capture a)
     (screen_analyzer a) (keyboard_recorder a) (keyboard_analyzer a)
     (drive_manager a) (email_sender a) (summary_generator a)
     (scheduler a) (power_monitor a).

Definition set_screen_capture (x : option ScreenCapture.t) (a : t) : t :=
  mk (running a) (config a) (audio_recorder a) (audio_transcriber a) x
     (screen_analyzer a) (keyboard_recorder a) (keyboard_analyzer a)
     (drive_manager a) (email_sender a) (summary_generator a)
     (scheduler a) (power_monitor a).

Definition set_screen_analyzer (x : option Worker) (a : t) : t :=
  mk (running a) (config a) (audio_recorder a) (audio_transcriber a) (screen_capture a)
     x (keyboard_recorder a) (keyboard_analyzer a)
     (drive_manager a) (email_sender a) (summary_generator a)
     (scheduler a) (power_monitor a).

Definition set_keyboard_recorder (x : option KeyboardRecorder.t) (a : t) : t :=
  mk (running a) (config a) (audio_recorder a) (audio_transcriber a) (screen_capture a)
     (screen_analyzer a) x (keyboard_analyzer a)
     (drive_manager a) (email_sender a) (summary_generator a)
     (scheduler a) (power_monitor a).

Definition set_keyboard_analyzer (x : option Worker) (a : t) : t :=
  mk (running a) (config a) (audio_recorder a) (audio_transcriber a) (screen_capture a)
     (screen_analyzer a) (keyboard_recorder a) x
     (drive_manager a) (email_sender a) (summary_generator a)
     (scheduler a) (power_monitor a).

Definition set_collaborators (d e s : bool) (a : t) : t :=
  mk (running a) (config a) (audio_recorder a) (audio_transcriber a) (screen_capture a)
     (screen_analyzer a) (keyboard_recorder a) (keyboard_analyzer a)
     d e s (scheduler a) (power_monitor a).

Definition set_scheduler (x : option TaskScheduler.t) (a : t) : t :=
  mk (running a) (config a) (audio_recorder a) (audio_transcriber a) (screen_capture a)
     (screen_analyzer a) (keyboard_recorder a) (keyboard_analyzer a)
     (drive_manager a) (email_sender a) (summary_generator a)
     x (power_monitor a).

Definition set_power_monitor (x : option PowerMonitor.t) (a : t) : t :=
  mk (running a) (config a) (audio_recorder a) (audio_transcriber a) (screen_capture a)
     (screen_analyzer a) (keyboard_recorder a) (keyboard_analyzer a)
     (drive_manager a) (email_sender a) (summary_generator a)
     (scheduler a) x.

(** Statements of a method of [Assistant]: they read and change the
    object and the world, and may raise; what was changed before an
    exception stays changed. *)
Definition M (A : Type) : Type := t -> World -> Outcome A * t * World.

Definition ret {A : Type} (v : A) : M A := fun a w => (Ret v, a, w).

Definition bind {A B : Type} (m : M A) (k : A -> M B) : M B :=
  fun a w =>
    match m a w with
    | (Ret v, a', w') => k v a' w'
    | (Raise e, a', w') => (Raise e, a', w')
    end.

Definition seq {A : Type} (m : M unit) (k : M A) : M A := bind m (fun _ => k).

Definition when (b : t -> bool) (m : M unit) : M unit :=
  fun a w => if b a then m a w else (Ret tt, a, w).

Definition assign (f : t -> t) : M unit := fun a w => (Ret tt, f a, w).
Definition effect (f : World -> World) : M unit := fun a w => (Ret tt, a, f w).
Definition raise {A : Type} (e : string) : M A := fun a w => (Raise e, a, w).

Definition construct (cfg : Config) (class : string) : M unit :=
  match ctor_error cfg class with
  | Some e => raise e
  | None => ret tt
  end.

Notation "m1 >> m2" := (seq m1 m2) (at level 62, right associativity).

Definition info (msg : string) : M unit := effect (logger INFO msg).

Definition rule (c : string) : string := String.concat "" (replicate 50 c).

Definition _setup_audio (cfg : Config) : M unit :=
  info "Configurando módulo de áudio..." >>
  construct cfg "AudioTranscriber" >>
  assign (set_audio_transcriber
            (Some (Worker_init Audio "data/transcriptions" (models_transcription cfg) ""))) >>
  construct cfg "AudioRecorder" >>
  assign (set_audio_recorder (Some AudioRecorder.init)).

Definition _setup_screen (cfg : Config) : M unit :=
  info "Configurando módulo de tela..." >>
  construct cfg "ScreenAnalyzer" >>
  assign (set_screen_analyzer
            (Some (Worker_init Screen "data/screen_analysis"
                     (models_screen_analysis cfg) (screen_analysis_prompt cfg)))) >>
  construct cfg "ScreenCapture" >>
  assign (set_screen_capture
            (Some (ScreenCapture.init (screen_capture_interval_seconds cfg)
                     "data/temp_screenshots" true (screen_monitor cfg)
                     (screen_format cfg) (screen_quality cfg)
                     (privacy_excluded_apps cfg) (privacy_excluded_windows cfg)))).

Definition _setup_keyboard (cfg : Config) : M unit :=
  info "Configurando módulo de teclado..." >>
  construct cfg "KeyboardAnalyzer" >>
  assign (set_keyboard_analyzer
            (Some (Worker_init Keyboard "data/keyboard_analysis"
                     (models_summary cfg) (keyboard_analysis_prompt cfg)))) >>
  construct cfg "KeyboardRecorder" >>
  assign (set_keyboard_recorder
            (Some (KeyboardRecorder.init (keyboard_save_interval_minutes cfg) true
                     (project_root cfg)))).

Definition _setup_drive (cfg : Config) : M unit :=
  info "Configurando Google Drive..." >>
  construct cfg "DriveManager" >>
  assign (fun a => set_collaborators true (email_sender a) (summary_generator a) a).

Definition _setup_email (cfg : Config) : M unit :=
  info "Configurando email..." >>
  construct cfg "EmailSender" >>
  assign (fun a => set_collaborators (drive_manager a) true (summary_generator a) a).

Definition _setup_summary (cfg : Config) : M unit :=
  info "Configurando gerador de resumo..." >>
  construct cfg "SummaryGenerator" >>
  assign (fun a => set_collaborators (drive_manager a) (email_sender a) true a).

Definition _setup_scheduler (cfg : Config) : M unit :=
  info "Configurando agendador..." >>
  construct cfg "TaskScheduler" >>
  assign (set_scheduler
            (Some (TaskScheduler.register_callback "on_cleanup"
                     (mkCallable "_cleanup_old_files" None)
                     (TaskScheduler.register_callback "on_summary_time"
                        (mkCallable "_generate_daily_summary" None)
                        (TaskScheduler.init (schedule_summary_time cfg)
                           (schedule_timezone cfg)))))).

Definition _setup_power_monitor (cfg : Config) : M unit :=
  info "Configurando monitor de energia..." >>
  construct cfg "PowerMonitor" >>
  assign (set_power_monitor
            (Some (PowerMonitor.register_callback "on_unlock" (mkCallable "_on_unlock" None)
                     (PowerMonitor.register_callback "on_lock" (mkCallable "_on_lock" None)
                        (PowerMonitor.register_callback "on_wake" (mkCallable "_on_wake" None)
                           (PowerMonitor.register_callback "on_sleep" (mkCallable "_on_sleep" None)
                              (PowerMonitor.init (privacy_pause_on_lock cfg)))))))).

Definition mark (b : bool) : string := if b then "✓" else "✗".

Definition _log_status (cfg : Config) : M unit :=
  info (rule "-") >>
  info ("Áudio: " +:+ mark (audio_enabled cfg)) >>
  info ("Tela: " +:+ mark (screen_enabled cfg)) >>
  info ("Teclado: " +:+ mark (keyboard_enabled cfg)) >>
  info ("Drive: " +:+ mark (drive_enabled cfg)) >>
  info ("Email: " +:+ mark (email_enabled cfg)) >>
  info (rule "-").

(** The [try] block of [setup] once [get_config()] has returned. *)
Definition setup_body (cfg : Config) : M unit :=
  assign (set_config (Some cfg)) >>
  effect (emit (Invoke "cleanup_old_logs")) >>
  info (rule "=") >> info "Guardian v1.0" >> info (rule "=") >>
  when (fun _ => audio_enabled cfg) (_setup_audio cfg) >>
  when (fun _ => screen_enabled cfg) (_setup_screen cfg) >>
  when (fun _ => keyboard_enabled cfg) (_setup_keyboard cfg) >>
  when (fun _ => drive_enabled cfg) (_setup_drive cfg) >>
  when (fun _ => email_enabled cfg) (_setup_email cfg) >>
  _setup_summary cfg >>
  _setup_scheduler cfg >>
  _setup_power_monitor cfg >>
  when (fun _ => start_with_windows cfg && negb (startup_is_enabled cfg))
       (effect (emit (Invoke "StartupManager.enable"))) >>
  _log_status cfg.

(** [loaded] is what [get_config()] gave; both handlers of [setup]
    print the exception and return [False]. *)
Definition setup (loaded : Outcome Config) (a : t) (w : World) : bool * t * World :=
  match loaded with
  | Raise _ => (false, a, w)
  | Ret cfg =>
      match setup_body cfg a w with
      | (Ret _, a', w') => (true, a', w')
      | (Raise _, a', w') => (false, a', w')
      end
  end.

(** [if self.x: self.x.start()], the call being recorded as
    [Invoke "x.start"] before the component's own effects. *)
Definition start_audio_transcriber : M unit := fun a w =>
  match audio_transcriber a with
  | Some x =>
      let '(x', w') := Worker.start x (emit (Invoke "audio_transcriber.start") w) in
      (Ret tt, set_audio_transcriber (Some x') a, w')
  | None => (Ret tt, a, w)
  end.

Definition start_audio_recorder : M unit := fun a w =>
  match audio_recorder a with
  | Some x =>
      (Ret tt, set_audio_recorder (Some (AudioRecorder.start x)) a,
       emit (Invoke "audio_recorder.start") w)
  | None => (Ret tt, a, w)
  end.

Definition start_screen_analyzer : M unit := fun a w =>
  match screen_analyzer a with
  | Some x =>
      let '(x', w') := Worker.start x (emit (Invoke "screen_analyzer.start") w) in
      (Ret tt, set_screen_analyzer (Some x') a, w')
  | None => (Ret tt, a, w)
  end.

Definition start_screen_capture : M unit := fun a w =>
  match screen_capture a with
  | Some x =>
      let '(x', w') := ScreenCapture.start x (emit (Invoke "screen_capture.start") w) in
      (Ret tt, set_screen_capture (Some x') a, w')
  | None => (Ret tt, a, w)
  end.

Definition start_keyboard_analyzer : M unit := fun a w =>
  match keyboard_analyzer a with
  | Some x =>
      let '(x', w') := Worker.start x (emit (Invoke "keyboard_analyzer.start") w) in
      (Ret tt, set_keyboard_analyzer (Some x') a, w')
  | None => (Ret tt, a, w)
  end.

Definition start_keyboard_recorder : M unit := fun a w =>
  match keyboard_recorder a with
  | Some x =>
      let '(x', w') := KeyboardRecorder.start x (emit (Invoke "keyboard_recorder.start") w) in
      (Ret tt, set_keyboard_recorder (Some x') a, w')
  | None => (Ret tt, a, w)
  end.

Definition start_scheduler : M unit := fun a w =>
  match scheduler a with
  | Some x =>
      match TaskScheduler.start x (emit (Invoke "scheduler.start") w) with
      | Ret (x', w') => (Ret tt, set_scheduler (Some x') a, w')
      | Raise e => (Raise e, a, emit (Invoke "scheduler.start") w)
      end
  | None => (Ret tt, a, w)
  end.

Definition start_power_monitor : M unit := fun a w =>
  match power_monitor a with
  | Some x =>
      let '(x', w') := PowerMonitor.start x (emit (Invoke "power_monitor.start") w) in
      (Ret tt, set_power_monitor (Some x') a, w')
  | None => (Ret tt, a, w)
  end.

(** [start] after a successful [setup], up to the loop
    [while self.running: time.sleep(1)] in which the main thread then
    stays. *)
Definition start_modules : M unit :=
  assign (set_running true) >>
  info "Iniciando assistente..." >>
  start_audio_transcriber >>
  start_audio_recorder >>
  start_screen_analyzer >>
  start_screen_capture >>
  start_keyboard_analyzer >>
  start_keyboard_recorder >>
  start_scheduler >>
  start_power_monitor >>
  info (rule "=") >> info "Assistente rodando!" >> info (rule "=").

(** [sys.exit(1)] raises [SystemExit]. *)
Definition start (loaded : Outcome Config) : M unit := fun a w =>
  let '(ok, a1, w1) := setup loaded a w in
  if negb ok then (Raise "SystemExit: 1", a1, w1)
  else start_modules a1 w1.


Definition _on_keyboard_log_ready (log_path : Path) : M unit := fun a w =>
  let w1 := logger DEBUG ("Log de teclado pronto: " +:+ name log_path) w in
  match keyboard_analyzer a with
  | Some x =>
      let '(x', w') := Worker.add_to_queue log_path x w1 in
      (Ret tt, set_keyboard_analyzer (Some x') a, w')
  | None => (Ret tt, a, w1)
  end.

(** The three [if self.x: self.x.pause()] of [_on_sleep] and [_on_lock],
    and the three [if self.x: self.x.resume()] of [_on_wake] and
    [_on_unlock]. *)
Definition pause_producers : M unit := fun a w =>
  let a1 :=
    match audio_recorder a with
    | Some x => set_audio_recorder (Some (AudioRecorder.pause x)) a
    | None => a
    end in
  let '(a2, w2) :=
    match screen_capture a1 with
    | Some x =>
        let '(x', w') := ScreenCapture.pause x w in
        (set_screen_capture (Some x') a1, w')
    | None => (a1, w)
    end in
  match keyboard_recorder a2 with
  | Some x =>
      let '(x', w') := KeyboardRecorder.pause x w2 in
      (Ret tt, set_keyboard_recorder (Some x') a2, w')
  | None => (Ret tt, a2, w2)
  end.

Definition resume_producers : M unit := fun a w =>
  let a1 :=
    match audio_recorder a with
    | Some x => set_audio_recorder (Some (AudioRecorder.resume x)) a
    | None => a
    end in
  let '(a2, w2) :=
    match screen_capture a1 with
    | Some x =>
        let '(x', w') := ScreenCapture.resume x w in
        (set_screen_capture (Some x') a1, w')
    | None => (a1, w)
    end in
  match keyboard_recorder a2 with
  | Some x =>
      let '(x', w') := KeyboardRecorder.resume x w2 in
      (Ret tt, set_keyboard_recorder (Some x') a2, w')
  | None => (Ret tt, a2, w2)
  end.

Definition _on_sleep : M unit := info "Pausando para sleep..." >> pause_producers.
Definition _on_wake : M unit := info "Retomando após wake..." >> resume_producers.
Definition _on_lock : M unit := info "Pausando (tela bloqueada)..." >> pause_producers.
Definition _on_unlock : M unit := info "Retomando (tela desbloqueada)..." >> resume_producers.

(** [get_project_root() / "data" / "summaries" / get_today_folder() / "resumo.md"] *)
Definition summary_path (root : string) (w : World) : Path :=
  mkPath (root +:+ "/data/summaries" +:+ "/" +:+ get_today_folder w) "resumo" ".md".

(** The callback handed to the scheduler for the summary.  [root] is
    [get_project_root()] and [generator] the object in
    [self.summary_generator]; the calls on the email sender and the drive
    manager, which catch what they raise, are recorded with their
    argument: [Mail] for a method of the email sender and the text it is
    given, [Notify] for the upload and its path. *)
Definition _generate_daily_summary (env : Env) (root : string)
    (generator : SummaryGenerator.t) : M unit := fun a w =>
  let w1 := logger INFO "Gerando resumo diário..." w in
  match SummaryGenerator.generate env generator None w1 with
  | (Ret summary, w2) =>
      let w3 :=
        if email_sender a then emit (Mail "send_daily_summary" summary) w2 else w2 in
      let summary_path := summary_path root w3 in
      (Ret tt, a,
       if drive_manager a
       then match fs w3 !! path_str summary_path with
            | Some _ => emit (Notify "drive_manager.upload_summary" summary_path) w3
            | None => w3
            end
       else w3)
  | (Raise e, w2) =>
      let w3 := logger ERROR ("Erro no resumo diário: " +:+ e) w2 in
      (Ret tt, a,
       if email_sender a then emit (Mail "send_error_alert" e) w3 else w3)
  end.

(** [if self.x: self.x.stop()], the call being recorded as
    [Invoke "x.stop"] before the component's own effects.  The keyboard
    recorder calls [_on_keyboard_log_ready] from its last flush. *)
Definition stop_power_monitor : M unit := fun a w =>
  match power_monitor a with
  | Some x =>
      let '(x', w') := PowerMonitor.stop x (emit (Invoke "power_monitor.stop") w) in
      (Ret tt, set_power_monitor (Some x') a, w')
  | None => (Ret tt, a, w)
  end.

Definition stop_scheduler : M unit := fun a w =>
  match scheduler a with
  | Some x =>
      let '(x', w') := TaskScheduler.stop x (emit (Invoke "scheduler.stop") w) in
      (Ret tt, set_scheduler (Some x') a, w')
  | None => (Ret tt, a, w)
  end.

Definition stop_screen_capture : M unit := fun a w =>
  match screen_capture a with
  | Some x =>
      let '(x', w') := ScreenCapture.stop x (emit (Invoke "screen_capture.stop") w) in
      (Ret tt, set_screen_capture (Some x') a, w')
  | None => (Ret tt, a, w)
  end.

Definition stop_screen_analyzer : M unit := fun a w =>
  match screen_analyzer a with
  | Some x =>
      let '(x', w') := Worker.stop x (emit (Invoke "screen_analyzer.stop") w) in
      (Ret tt, set_screen_analyzer (Some x') a, w')
  | None => (Ret tt, a, w)
  end.

Definition stop_keyboard_recorder (env : Env) : M unit := fun a w =>
  match keyboard_recorder a with
  | Some x =>
      let '(x', a', w') :=
        KeyboardRecorder.stop_with
          (fun log_path a0 w0 =>
             let '(_, a1, w1) := _on_keyboard_log_ready log_path a0 w0 in (a1, w1))
          env x a (emit (Invoke "keyboard_recorder.stop") w) in
      (Ret tt, set_keyboard_recorder (Some x') a', w')
  | None => (Ret tt, a, w)
  end.

Definition stop_keyboard_analyzer : M unit := fun a w =>
  match keyboard_analyzer a with
  | Some x =>
      let '(x', w') := Worker.stop x (emit (Invoke "keyboard_analyzer.stop") w) in
      (Ret tt, set_keyboard_analyzer (Some x') a, w')
  | None => (Ret tt, a, w)
  end.

Definition stop_audio_recorder : M unit := fun a w =>
  match audio_recorder a with
  | Some x =>
      (Ret tt, set_audio_recorder (Some (AudioRecorder.stop x)) a,
       emit (Invoke "audio_recorder.stop") w)
  | None => (Ret tt, a, w)
  end.

Definition stop_audio_transcriber : M unit := fun a w =>
  match audio_transcriber a with
  | Some x =>
      let '(x', w') := Worker.stop x (emit (Invoke "audio_transcriber.stop") w) in
      (Ret tt, set_audio_transcriber (Some x') a, w')
  | None => (Ret tt, a, w)
  end.

(** [stop] for an assistant that [setup] has given its logger, which is
    the statement after the one that sets [self.config].  Before that,
    [self.logger] is [None] and the second statement of [stop] raises
    an [AttributeError]: what is stated of [stop] is stated of an
    assistant that was set up. *)
Definition stop (env : Env) : M unit :=
  assign (set_running false) >>
  info "Encerrando assistente..." >>
  stop_power_monitor >>
  stop_scheduler >>
  stop_screen_capture >>
  stop_screen_analyzer >>
  stop_keyboard_recorder env >>
  stop_keyboard_analyzer >>
  stop_audio_recorder >>
  stop_audio_transcriber >>
  info "Assistente encerrado.".

End Assistant.

(** ** Observations on runs of a worker *)

Module WorkerRun.

(** The item a step takes from the queue and hands to [handle]. *)
Definition dequeued (st : Worker * World) (s : Worker.Step) : list Path :=
  match s with
  | Worker.Turn => if alive st.1 is O then [] else take 1 (_queue st.1)
  | _ => []
  end.

(** The items handled during a run, in order. *)
Fixpoint history (env : Env) (steps : list Worker.Step) (st : Worker * World) : list Path :=
  match steps with
  | [] => []
  | s :: rest => dequeued st s ++ history env rest (Worker.step env st s)
  end.

(** The items a list of steps enqueues, in order. *)
Fixpoint added (steps : list Worker.Step) : list Path :=
  match steps with
  | [] => []
  | Worker.Add item :: rest => item :: added rest
  | _ :: rest => added rest
  end.

Definition add_or_turn (s : Worker.Step) : Prop :=
  match s with Worker.Add _ | Worker.Turn => True | _ => False end.

(** Handling a list of items one after the other. *)
Definition handle_all (env : Env) (self : Worker) (items : list Path) (w : World) : World :=
  fold_left (fun w' item => handle env self item w') items w.

(** Contents of the aggregate file of the day ([""] when absent). *)
Definition aggregate (self : Worker) (w : World) : string :=
  default "" (fs w !! aggregate_file self w).

(** What the analysis call and the write to the aggregate file come to
    for an item handled in world [w]: the text appended, [None] when
    there was nothing to analyse, or the exception that ended the turn. *)
Definition attempt (env : Env) (self : Worker) (item : Path) (w : World)
    : Outcome (option string) :=
  let saved (text : string) (w' : World) : Outcome (option string) :=
    match io_error env w' (aggregate_file self w') with
    | Some e => Raise e
    | None => Ret (Some text)
    end in
  match kind self with
  | Audio =>
      let w1 := logger INFO ("Transcrevendo: " +:+ name item) w in
      match transcribe_audio env w1 item (model self) "pt" with
      | Raise e => Raise e
      | Ret t => saved (AudioTranscriber.entry item t) (emit (ApiTranscribe item) w1)
      end
  | Screen =>
      let w1 := logger INFO ("Analisando: " +:+ name item) w in
      match analyze_image env w1 item (prompt self) (model self) with
      | Raise e => Raise e
      | Ret t => saved (ScreenAnalyzer.entry item t) (emit (ApiAnalyzeImage item) w1)
      end
  | Keyboard =>
      let w1 := logger INFO ("Analisando log de teclado: " +:+ name item) w in
      match read_text env item w1 with
      | Raise e => Raise e
      | Ret content =>
          if negb (truthy (strip content)) then Ret None
          else
            match generate_summary env w1 content (prompt self) (model self) with
            | Raise e => Raise e
            | Ret t => saved (KeyboardAnalyzer.entry w1 t) (emit (ApiSummary content) w1)
            end
      end
  end.

Definition text_of (r : Outcome (option string)) : string :=
  match r with Ret (Some text) => text | _ => "" end.

(** The texts a list of items adds to the aggregate file, each item
    being tried in the world its predecessors left. *)
Fixpoint outputs (env : Env) (self : Worker) (items : list Path) (w : World) : string :=
  match items with
  | [] => ""
  | item :: rest =>
      text_of (attempt env self item w) +:+ outputs env self rest (handle env self item w)
  end.

(** The error records of a log. *)
Definition errors (l : list (Level * string)) : list string :=
  omap (fun r => if decide (r.1 = ERROR) then Some r.2 else None) l.

End WorkerRun.

(** ** The lifecycle shared by the components *)

Module Lifecycle.

(** [start()] and [stop()] as every component has them, with its running
    flag, the number of its loop threads, and what it looks like when
    stopped. *)
Class Component (S : Type) : Type := {
  start : S -> World -> Outcome (S * World);
  stop : Env -> S -> World -> S * World;
  running : S -> bool;
  threads : S -> nat;
  stopped : S -> Prop
  }.

Global Instance worker_component : Component Worker := {|
  start self w := Ret (Worker.start self w);
  stop _ self w := Worker.stop self w;
  running := _is_running;
  threads := alive;
  stopped self := _is_running self = false
  |}.

Global Instance capture_component : Component ScreenCapture.t := {|
  start self w := Ret (ScreenCapture.start self w);
  stop _ self w := ScreenCapture.stop self w;
  running := ScreenCapture.is_running;
  threads := ScreenCapture.alive;
  stopped self := ScreenCapture.is_running self = false
  |}.

Global Instance recorder_component : Component KeyboardRecorder.t := {|
  start self w := Ret (KeyboardRecorder.start self w);
  stop env self w := KeyboardRecorder.stop env self w;
  running := KeyboardRecorder.running;
  threads := KeyboardRecorder.alive;
  stopped self :=
    KeyboardRecorder.running self = false
    /\ KeyboardRecorder.listener self = false
    /\ KeyboardRecorder.current_buffer self = []
  |}.

Global Instance scheduler_component : Component TaskScheduler.t := {|
  start self w := TaskScheduler.start self w;
  stop _ self w := TaskScheduler.stop self w;
  running := TaskScheduler._is_running;
  threads := TaskScheduler.alive;
  stopped self :=
    TaskScheduler._is_running self = false /\ TaskScheduler.jobs self = []
  |}.

Global Instance monitor_component : Component PowerMonitor.t := {|
  start self w := Ret (PowerMonitor.start self w);
  stop _ self w := PowerMonitor.stop self w;
  running := PowerMonitor._is_running;
  threads self := PowerMonitor.starting self + PowerMonitor.looping self;
  stopped self := PowerMonitor._is_running self = false
  |}.




End Lifecycle.

(** ** Observations on traces *)

Module Observe.

(** Screen grabs in a trace. *)
Definition grabs (t : list Effect) : nat :=
  length (filter (fun e => e = Grab) t).

(** Artifacts handed to [on_capture_ready] or [on_log_ready]. *)
Definition is_notify (e : Effect) : bool :=
  match e with Notify _ _ => true | _ => false end.

Definition notifications (t : list Effect) : list Effect :=
  filter (fun e => is_notify e = true) t.

(** Calls of [Thread.join]. *)
Definition is_join (e : Effect) : bool :=
  match e with Join _ _ => true | _ => false end.

Definition joins (t : list Effect) : list Effect :=
  filter (fun e => is_join e = true) t.

(** Calls of registered callables. *)
Definition invoked (t : list Effect) : list string :=
  omap (fun e => match e with Invoke c => Some c | _ => None end) t.


(** The callable that the registrations [regs], made in this order, leave
    for [event]: the last one registered under that name. *)
Definition last_registered (event : string) (regs : list (string * Callable))
    : option Callable :=
  last (omap (fun r => if decide (r.1 = event) then Some r.2 else None) regs).

Definition registrations (regs : list (string * Callable)) : list PowerMonitor.Step :=
  map (fun r => PowerMonitor.Register r.1 r.2) regs.


Definition present {A : Type} (field : option A) (call : string) : list string :=
  match field with Some _ => [call] | None => [] end.



(** Whether the clock has reached a time of day. *)
Definition eligible (at_time : nat * nat) (d : DateTime) : bool :=
  at_time.1 * 60 + at_time.2 <=? hour d * 60 + minute d.

(** The trigger function that wrote a log record, if one did. *)
Definition trigger_of_line (r : Level * string) : option JobFunc :=
  if decide (r = (INFO, "Disparando resumo diário...")) then Some TriggerDailySummary
  else if decide (r = (INFO, "Disparando limpeza...")) then Some TriggerCleanup
  else None.

(** The trigger functions that a turn of the scheduler loop runs when the
    clock shows [d], read off the log records the turn adds. *)
Definition triggered (st : TaskScheduler.t * World) (d : DateTime) : list JobFunc :=
  omap trigger_of_line
     (drop (length (log st.2))
           (log (TaskScheduler.step st (TaskScheduler.Poll d)).2)).

(** What a poll at [d] does to one job, and what a list of polls does. *)
Definition tick (d : DateTime) (j : Schedule.ScheduledTrigger) : Schedule.ScheduledTrigger :=
  if Schedule.due j d
  then Schedule.mkTrigger (Schedule.job_func j) (Schedule.timeOfDay j) (Some (dayKey d))
  else j.

Definition ticks (ds : list DateTime) (j : Schedule.ScheduledTrigger)
    : Schedule.ScheduledTrigger :=
  fold_left (fun j' d => tick d j') ds j.

Definition polls (ds : list DateTime) : list TaskScheduler.Step :=
  map TaskScheduler.Poll ds.

(** The clock never goes back to an earlier day: of two polls, the later
    one is not on an earlier day. *)
Definition days_in_order (ds : list DateTime) : Prop :=
  forall (l1 l2 l3 : list DateTime) (a b : DateTime),
  ds = l1 ++ a :: l2 ++ b :: l3 -> day_le (dayKey a) (dayKey b).

(** The name under which the callback of a trigger function is
    registered. *)
Definition callback_key (f : JobFunc) : string :=
  match f with
  | TriggerDailySummary => "on_summary_time"
  | TriggerCleanup => "on_cleanup"
  end.

(** The time of day at which [TaskScheduler.start] schedules a trigger. *)
Definition scheduled_at (summary : nat * nat) (f : JobFunc) : nat * nat :=
  match f with TriggerDailySummary => summary | TriggerCleanup => (0, 30) end.




(** An excluded app or window name occurs, whatever the case of its
    letters, in the title of the active window. *)
Definition hidden (env : Env) (self : ScreenCapture.t) (w : World) : Prop :=
  exists excluded pre post,
    In excluded (ScreenCapture.excluded_apps self ++ ScreenCapture.excluded_windows self)
    /\ lower (active_window_title env w) = pre +:+ lower excluded +:+ post.

(** A text of ASCII characters only; the title of the active window
    and the excluded names are. *)
Definition is_ascii (s : string) : bool :=
  forallb (fun b => Ascii.nat_of_ascii b <? 128) (String.list_ascii_of_string s).

Definition ascii_names (env : Env) (self : ScreenCapture.t) (w : World) : Prop :=
  is_ascii (active_window_title env w) = true
  /\ Forall (fun excluded => is_ascii excluded = true)
       (ScreenCapture.excluded_apps self ++ ScreenCapture.excluded_windows self).

(** The file a screenshot taken in world [w] is saved to. *)
Definition screenshot_file (self : ScreenCapture.t) (w : World) : Path :=
  mkPath (ScreenCapture.output_dir self +:+ "/" +:+ get_today_folder w)
         (strftime_HhMmSs (now w))
         (if String.eqb (ScreenCapture.format self) "jpg" then ".jpg" else ".png").

(** The key events of a list of keys, and the text they stand for. *)
Definition presses (keys : list Key) : list KeyboardRecorder.Step :=
  map KeyboardRecorder.Press keys.

Definition typed (keys : list Key) : string :=
  String.concat "" (map KeyboardRecorder.key_text keys).

(** Steps of the power monitor among whose messages there are only
    changes of the session (lock, unlock and the like). *)
Definition session_change (s : PowerMonitor.Step) : Prop :=
  match s with
  | PowerMonitor.Message msg _ => msg = PowerMonitor.WM_WTSSESSION_CHANGE
  | _ => True
  end.

Definition not_stop (s : PowerMonitor.Step) : Prop :=
  match s with PowerMonitor.Stop => False | _ => True end.

Definition is_run_now (s : TaskScheduler.Step) : bool :=
  match s with TaskScheduler.RunNow _ => true | _ => false end.

(** A run of the scheduler without its calls of [run_now]. *)
Definition without_run_now (steps : list TaskScheduler.Step) : list TaskScheduler.Step :=
  filter (fun s => is_run_now s = false) steps.

(** Whether a call returned. *)
Definition returns {A : Type} (r : Outcome A) : bool :=
  match r with Ret _ => true | Raise _ => false end.

(** The threads started in a trace, by target. *)
Definition spawns (t : list Effect) : list string :=
  omap (fun e => match e with Spawn target => Some target | _ => None end) t.


(** The classes [setup] builds an object of, in the order in which it
    does. *)
Definition constructed (cfg : Assistant.Config) : list string :=
  (if Assistant.audio_enabled cfg then ["AudioTranscriber"; "AudioRecorder"] else [])
  ++ (if Assistant.screen_enabled cfg then ["ScreenAnalyzer"; "ScreenCapture"] else [])
  ++ (if Assistant.keyboard_enabled cfg then ["KeyboardAnalyzer"; "KeyboardRecorder"] else [])
  ++ (if Assistant.drive_enabled cfg then ["DriveManager"] else [])
  ++ (if Assistant.email_enabled cfg then ["EmailSender"] else [])
  ++ ["SummaryGenerator"; "TaskScheduler"; "PowerMonitor"].

(** A statement of [Assistant] that returns or raises whatever the state
    it runs in ([b] tells which), starts no thread and leaves [running]
    as it is. *)
Definition static (m : Assistant.M unit) (b : bool) : Prop :=
  forall (a : Assistant.t) (w : World),
    returns (m a w).1.1 = b
    /\ spawns (trace (m a w).2) = spawns (trace w)
    /\ Assistant.running (m a w).1.2 = Assistant.running a.

(** The calls [Assistant.stop] may make on its components, in the order
    of the source, and those it makes on a given assistant. *)
Definition stop_sequence : list string :=
  ["power_monitor.stop"; "scheduler.stop";
 "screen_capture.stop"; "screen_analyzer.stop";
 "keyboard_recorder.stop"; "keyboard_analyzer.stop";
 "audio_recorder.stop"; "audio_transcriber.stop"].

Definition stop_calls (a : Assistant.t) : list string :=
  present (Assistant.power_monitor a) "power_monitor.stop"
  ++ present (Assistant.scheduler a) "scheduler.stop"
  ++ present (Assistant.screen_capture a) "screen_capture.stop"
  ++ present (Assistant.screen_analyzer a) "screen_analyzer.stop"
  ++ present (Assistant.keyboard_recorder a) "keyboard_recorder.stop"
  ++ present (Assistant.keyboard_analyzer a) "keyboard_analyzer.stop"
  ++ present (Assistant.audio_recorder a) "audio_recorder.stop"
  ++ present (Assistant.audio_transcriber a) "audio_transcriber.stop".

(** The assistant with the [paused] flag of each producer it has set
    to [p]. *)
Definition with_paused (p : bool) (a : Assistant.t) : Assistant.t :=
  Assistant.set_keyboard_recorder
    (option_map (fun x => KeyboardRecorder.set_flags (KeyboardRecorder.running x) p x)
       (Assistant.keyboard_recorder a))
    (Assistant.set_screen_capture
       (option_map (fun x => ScreenCapture.set_flags (ScreenCapture.is_running x) p x)
          (Assistant.screen_capture a))
       (Assistant.set_audio_recorder
          (option_map (fun x => AudioRecorder.mk (AudioRecorder.running x) p)
             (Assistant.audio_recorder a))
          a)).

(** What a file of the day holds: its bytes, [""] when there is no such
    file; and what reading it gives. *)
Definition text_of_day (p : Path) (w : World) : string :=
  default "" (fs w !! path_str p).

Definition read_of_day (p : Path) (w : World) : Outcome string :=
  text_of_bytes (text_of_day p w).

End Observe.

(** ** Sample data *)

Module Examples.

Definition clock : DateTime := mkDateTime 2025 3 14 8 0 0.

Definition world0 : World := mkWorld ∅ [] [] clock.

(** Collaborators that always answer. *)
Definition env_ok : Env :=
  mkEnv (fun _ p _ _ => Ret ("text of " +:+ stem p))
        (fun _ p _ _ => Ret ("view of " +:+ stem p))
        (fun _ _ _ _ => Ret "summary")
        (fun _ _ => None)
        false
        (fun _ => "editor")
        (fun _ => Ret "pixels").

Definition a_wav : Path := mkPath "data/audio/2025-03-14" "07h50" ".wav".
Definition b_wav : Path := mkPath "data/audio/2025-03-14" "08h00" ".wav".

(** A running transcriber with one chunk queued. *)
Definition transcriber : Worker :=
  mkWorker Audio "data/transcriptions" "whisper" "" [a_wav] true true 1.

(** A transcription service that is down for chunk "03". *)
Definition env_flaky : Env :=
  mkEnv (fun _ p _ _ =>
         if String.eqb (stem p) "03" then Raise "503 Service Unavailable"
         else Ret ("text " +:+ stem p))
      (fun _ p _ _ => Ret ("view of " +:+ stem p))
      (fun _ _ _ _ => Ret "summary")
      (fun _ _ => None)
      false
      (fun _ => "editor")
      (fun _ => Ret "pixels").

Definition chunk (n : string) : Path := mkPath "data/audio/2025-03-14" n ".wav".

(** A running transcriber with five chunks queued. *)
Definition transcriber5 : Worker :=
  mkWorker Audio "data/transcriptions" "whisper" ""
         [chunk "01"; chunk "02"; chunk "03"; chunk "04"; chunk "05"] true true 1.

Definition keylog : Path := mkPath "/guardian/data/keyboard/2025-03-14" "keylog" ".txt".

(** A world whose keylog of the day holds a space, a no-break space, an
    em space, a carriage return with its line feed and an ideographic
    space. *)
Definition world_blank_unicode : World :=
  mkWorld {[ path_str keylog := encode [32; 160; 8195; 13; 10; 12288]%N ]} [] [] clock.

(** A running keyboard analyzer with that keylog queued twice. *)
Definition keyboard_analyzer : Worker :=
  mkWorker Keyboard "data/keyboard_analysis" "gpt" "Resuma" [keylog; keylog] true true 1.

(** A recorder that has been started and has typed nothing yet. *)
Definition recorder_idle : KeyboardRecorder.t :=
  KeyboardRecorder.mk 300 true "/guardian/data/keyboard" [] true true false true 1.

(** The same recorder after "hi" and Enter. *)
Definition recorder_typed : KeyboardRecorder.t :=
  KeyboardRecorder.mk 300 true "/guardian/data/keyboard" ["h"; "i"; nl] true true false true 1.

(** A screen capture that has been started. *)
Definition capture_running : ScreenCapture.t :=
  ScreenCapture.mk 30 "data/temp_screenshots" true 0 "jpg" 70 ["keepass"] ["private"]
                 true false true 1.

Definition on_sleep_a : Callable := mkCallable "pause_audio" None.
Definition on_sleep_b : Callable := mkCallable "pause_screen" None.

(** A scheduler set to 08:00, with both callbacks registered. *)
Definition scheduler8 : TaskScheduler.t :=
  TaskScheduler.register_callback "on_cleanup" (mkCallable "_cleanup_old_files" None)
  (TaskScheduler.register_callback "on_summary_time"
     (mkCallable "_generate_daily_summary" None)
     (TaskScheduler.init "08:00" "America/Sao_Paulo")).

Definition at_time (dd h m s : nat) : DateTime := mkDateTime 2025 3 dd h m s.

Definition shot : Path := mkPath "data/temp_screenshots/2025-03-14" "07h59m30s" ".jpg".

(** A world that holds one screenshot. *)
Definition world_shot : World := mkWorld {[ path_str shot := "pixels" ]} [] [] clock.

(** A running screen analyzer with that screenshot queued. *)
Definition screen_analyzer : Worker :=
  mkWorker Screen "data/screen_analysis" "gemini" "Descreva" [shot] true true 1.

(** The password manager is in front. *)
Definition env_keepass : Env :=
  mkEnv (fun _ p _ _ => Ret ("text of " +:+ stem p))
      (fun _ p _ _ => Ret ("view of " +:+ stem p))
      (fun _ _ _ _ => Ret "summary")
      (fun _ _ => None)
      false
      (fun _ => "KeePass - passwords.kdbx")
      (fun _ => Ret "pixels").

(** A capture whose list of excluded apps holds an empty entry. *)
Definition capture_blank_entry : ScreenCapture.t :=
  ScreenCapture.mk 30 "data/temp_screenshots" true 0 "jpg" 70 [""] [] true false true 1.

(** A monitor in its message loop, told not to pause on lock. *)
Definition monitor_no_lock : PowerMonitor.t :=
  PowerMonitor.mk false {[ "on_lock" := mkCallable "_on_lock" None ]} true (Some 1) 0 1.

(** The summary generator of an installation under [/guardian]. *)
Definition generator : SummaryGenerator.t :=
  SummaryGenerator.init "gpt" "Resuma o dia" "/guardian".

(** A world that holds a transcription of the day. *)
Definition world_transcribed : World :=
  mkWorld {[ "/guardian/data/transcriptions/2025-03-14/transcricao.txt" := "bom dia" ]}
        [] [] clock.

(** A disk on which a file can be opened and emptied, but no longer
    written. *)
Definition env_write_fails : Env :=
  mkEnv (fun _ p _ _ => Ret ("text of " +:+ stem p))
      (fun _ p _ _ => Ret ("view of " +:+ stem p))
      (fun _ _ _ _ => Ret "summary")
      (fun w f =>
         match fs w !! f with
         | Some EmptyString => Some "[Errno 28] No space left on device"
         | _ => None
         end)
      false
      (fun _ => "editor")
      (fun _ => Ret "pixels").

(** A world that holds a transcription of the day and a summary made
    earlier that day. *)
Definition world_summarised : World :=
  mkWorld {[ "/guardian/data/transcriptions/2025-03-14/transcricao.txt" := "bom dia";
             "/guardian/data/summaries/2025-03-14/resumo.md" := "resumo da manhã" ]}
        [] [] clock.

(** An analysis service that is down. *)
Definition env_api_down : Env :=
  mkEnv (fun _ _ _ _ => Raise "503 Service Unavailable")
      (fun _ _ _ _ => Raise "503 Service Unavailable")
      (fun _ _ _ _ => Raise "503 Service Unavailable")
      (fun _ _ => None)
      false
      (fun _ => "editor")
      (fun _ => Ret "pixels").



(** An assistant that records and analyses the keyboard only, with keys
    typed and not yet flushed, and one that only mails summaries. *)
Definition assistant_typing : Assistant.t :=
  Assistant.mk true None None None None None
             (Some recorder_typed)
             (Some (mkWorker Keyboard "data/keyboard_analysis" "gpt" "Resuma" [] true true 1))
             false false true None None.

Definition assistant_mailing : Assistant.t :=
  Assistant.mk true None None None None None None None false true true None None.

(** A configuration with every stream on, mail and drive off, and
    classes whose constructors raise nothing. *)
Definition config : Assistant.Config :=
  Assistant.mkConfig true true true false false false false
    "groq/whisper-large-v3" "google/gemini-2.0-flash-lite-001" "openai/gpt-4o-mini"
    "Descreva" "Resuma" 30 0 "jpg" 70 ["keepass"] [] true 5 "22:00" "America/Sao_Paulo"
    "/guardian" (fun _ => None).

(** A disk on which nothing can be written. *)
Definition env_disk_full : Env :=
  mkEnv (fun _ p _ _ => Ret ("text of " +:+ stem p))
      (fun _ p _ _ => Ret ("view of " +:+ stem p))
      (fun _ _ _ _ => Ret "summary")
      (fun _ _ => Some "[Errno 28] No space left on device")
      false
      (fun _ => "editor")
      (fun _ => Ret "pixels").

End Examples.

(** * Properties *)

(** ** Strings *)

Lemma append_assoc (a b c : string) : (a +:+ b) +:+ c = a +:+ (b +:+ c).
Proof.
  induction a as [|x a IH]; [done |].
  change (String x ((a +:+ b) +:+ c) = String x (a +:+ b +:+ c)). by f_equal.
Qed.

Lemma append_nil_r (a : string) : a +:+ "" = a.
Proof.
  induction a as [|x a IH]; [done |].
  change (String x (a +:+ "") = String x a). by f_equal.
Qed.

Lemma lstrip_whitespace (cps : list N) :
  forallb isspace cps = true -> lstrip cps = [].
Proof.
  induction cps as [|c cps IH]; simpl; [done |].
  destruct (isspace c); simpl; [exact IH | discriminate].
Qed.

Lemma lstrip_not_whitespace (cps : list N) :
  forallb isspace cps = false ->
  exists c r, lstrip cps = c :: r /\ isspace c = false.
Proof.
  induction cps as [|c cps IH]; simpl; [discriminate |].
  destruct (isspace c) eqn:E; simpl; [exact IH | eauto].
Qed.

Lemma rstrip_not_nil (c : N) (cps : list N) :
  isspace c = false -> rstrip (c :: cps) <> [].
Proof.
  intros Hc H. unfold rstrip in H.
  apply (f_equal (@rev N)) in H. rewrite rev_involutive in H. simpl in H.
  assert (G : forall l, lstrip (l ++ [c]) <> []).
  { induction l as [|x l IH]; simpl; [by rewrite Hc |]. by destruct (isspace x). }
  by apply (G (rev cps)).
Qed.

Lemma encode_truthy (cps : list N) : truthy (encode cps) = false <-> cps = [].
Proof.
  split; [| by intros ->].
  destruct cps as [|c cps]; [done |]. unfold encode. simpl.
  assert (E : exists b r, utf8 c = String b r).
  { unfold utf8. repeat case_match; eauto. }
  destruct E as (b & r & ->). by destruct (map utf8 cps).
Qed.

Lemma decode_truthy (s : string) (e : string) : decode s = Raise e -> truthy s = true.
Proof. by destruct s. Qed.

(** [not content.strip()] holds exactly for the empty and the
    whitespace-only texts. *)
Lemma strip_blank (s : string) :
  truthy (strip s) = false <-> whitespace_only s = true.
Proof.
  unfold strip, whitespace_only.
  destruct (decode s) as [cps|e] eqn:D.
  - rewrite encode_truthy. split.
    + intros H. destruct (forallb isspace cps) eqn:W; [done |].
      destruct (lstrip_not_whitespace cps W) as (c & r & E & Hc).
      rewrite E in H. by apply rstrip_not_nil in H.
    + intros W. by rewrite lstrip_whitespace.
  - rewrite (decode_truthy s e D). split; discriminate.
Qed.

(** A byte below 128 stands for itself wherever it occurs in a text. *)
Lemma decode_from_ascii (b : Ascii.ascii) (s : string) :
  (Ascii.N_of_ascii b < 128)%N ->
  In b (String.list_ascii_of_string s) ->
  forall (st : Utf8State) (pos : nat) (cps : list N),
    match st with Boundary => True | Inside _ _ _ _ _ lo _ => (128 <= lo)%N end ->
    decode_from st pos s = Ret cps -> In (Ascii.N_of_ascii b) cps.
Proof.
  intros Hb. induction s as [|x s IH]; [done |].
  intros Hin st pos cps Hst D. simpl in Hin, D.
  destruct st as [|start lead got need acc lo hi].
  - destruct (Ascii.N_of_ascii x <? 128)%N eqn:H1.
    { destruct (decode_from Boundary (S pos) s) as [l|] eqn:R; simpl in D; [| done].
      injection D as <-. destruct Hin as [-> | Hin]; [by left |].
      right. by eapply (IH Hin Boundary). }
    apply N.ltb_ge in H1.
    assert (Hin' : In b (String.list_ascii_of_string s)).
    { destruct Hin as [-> | Hin]; [lia | done]. }
    repeat case_match; try done;
      (eapply (IH Hin'); [| exact D]); simpl; repeat case_match; lia.
  - destruct ((lo <=? Ascii.N_of_ascii x)%N && (Ascii.N_of_ascii x <=? hi)%N) eqn:R;
      [| done].
    apply andb_true_iff in R as [R1 _]. apply N.leb_le in R1.
    assert (Hin' : In b (String.list_ascii_of_string s)).
    { destruct Hin as [-> | Hin]; [lia | done]. }
    destruct need as [|[|need']].
    + destruct (decode_from Boundary (S pos) s) as [l|] eqn:R; simpl in D; [| done].
      injection D as <-. right. by eapply (IH Hin' Boundary).
    + destruct (decode_from Boundary (S pos) s) as [l|] eqn:R; simpl in D; [| done].
      injection D as <-. right. by eapply (IH Hin' Boundary).
    + eapply (IH Hin'); [| exact D]. simpl. lia.
Qed.

(** A text with an ASCII character that is no whitespace is not blank. *)
Lemma not_blank (b : Ascii.ascii) (s : string) :
  (Ascii.N_of_ascii b < 128)%N -> isspace (Ascii.N_of_ascii b) = false ->
  In b (String.list_ascii_of_string s) ->
  truthy (strip s) = true.
Proof.
  intros Hb Hs Hin. destruct (truthy (strip s)) eqn:T; [done |].
  apply strip_blank in T. unfold whitespace_only in T.
  destruct (decode s) as [cps|] eqn:D; [| done].
  pose proof (decode_from_ascii b s Hb Hin Boundary 0 cps I D) as G.
  rewrite forallb_forall in T. specialize (T _ G). congruence.
Qed.

Lemma universal_newlines_keeps (b : Ascii.ascii) (s : string) :
  b <> CR -> In b (String.list_ascii_of_string s) ->
  In b (String.list_ascii_of_string (universal_newlines s)).
Proof.
  intros Hb.
  assert (G : forall n s, String.length s <= n ->
                In b (String.list_ascii_of_string s) ->
                In b (String.list_ascii_of_string (universal_newlines s))).
  { clear s. induction n as [|n IH]; intros [|x s] Hn Hin; simpl in *; try done; try lia.
    destruct (Ascii.eqb_spec x CR) as [-> | Hx]; simpl.
    - destruct Hin as [<- | Hin]; [done |].
      destruct s as [|y s]; [done |]. simpl in *.
      destruct (Ascii.eqb_spec y LF) as [-> | Hy].
      + destruct Hin as [<- | Hin]; [by left |]. right. apply IH; [lia | done].
      + right. apply (IH (String y s)); [simpl; lia | done].
    - destruct Hin as [<- | Hin]; [by left |]. right. apply IH; [lia | done]. }
  intros Hin. by apply (G (String.length s)).
Qed.


(** ** Analysis workers: the loop *)

Section WorkerLoop.
Context (env : Env).
Import WorkerRun.

Lemma set_queue_id (self : Worker) (q : list Path) :
  _queue self = q -> set_queue q self = self.
Proof. destruct self; simpl; by intros ->. Qed.

Lemma run_cons (s : Worker.Step) (steps : list Worker.Step) (st : Worker * World) :
  Worker.run env (s :: steps) st = Worker.run env steps (Worker.step env st s).
Proof. reflexivity. Qed.

Lemma history_cons (s : Worker.Step) (steps : list Worker.Step) (st : Worker * World) :
  history env (s :: steps) st = dequeued st s ++ history env steps (Worker.step env st s).
Proof. reflexivity. Qed.

Lemma history_app (xs ys : list Worker.Step) (st : Worker * World) :
  history env (xs ++ ys) st = history env xs st ++ history env ys (Worker.run env xs st).
Proof.
  revert st. induction xs as [|s xs IH]; intros st; [done |].
  change ((s :: xs) ++ ys) with (s :: (xs ++ ys)).
  by rewrite !history_cons, run_cons, IH, (assoc_L (++)).
Qed.

Lemma step_add (self : Worker) (w : World) (item : Path) :
  Worker.step env (self, w) (Worker.Add item)
  = (set_queue (_queue self ++ [item]) self, (Worker.add_to_queue item self w).2).
Proof. reflexivity. Qed.

Lemma queue_set_queue (self : Worker) (q : list Path) : _queue (set_queue q self) = q.
Proof. reflexivity. Qed.

Lemma dequeued_turn (self : Worker) (w : World) (a : nat) :
  alive self = S a -> dequeued (self, w) Worker.Turn = take 1 (_queue self).
Proof. simpl. by intros ->. Qed.

Lemma dequeued_dead (self : Worker) (w : World) :
  alive self = 0 -> dequeued (self, w) Worker.Turn = [].
Proof. simpl. by intros ->. Qed.

(** The two turns of a stopped worker: it takes the head of the queue,
    or finds the queue empty and ends. *)
Lemma turn_take (self : Worker) (w : World) (item : Path) (q : list Path) (a : nat) :
  alive self = S a -> _queue self = item :: q ->
  Worker.step env (self, w) Worker.Turn = (set_queue q self, handle env self item w).
Proof.
  destruct self as [k d m p qu r t al]; simpl; intros -> ->.
  unfold _worker, queue_empty; simpl. by rewrite orb_true_r.
Qed.

Lemma turn_exit (self : Worker) (w : World) (a : nat) :
  alive self = S a -> _is_running self = false -> _queue self = [] ->
  Worker.step env (self, w) Worker.Turn = (set_thread (_worker_thread self) a self, w).
Proof.
  destruct self as [k d m p qu r t al]; simpl; intros -> -> ->. reflexivity.
Qed.

Lemma turn_dead (self : Worker) (w : World) :
  alive self = 0 -> Worker.step env (self, w) Worker.Turn = (self, w).
Proof. simpl. by intros ->. Qed.

Lemma handle_all_app (self : Worker) (xs ys : list Path) (w : World) :
  handle_all env self (xs ++ ys) w = handle_all env self ys (handle_all env self xs w).
Proof. apply fold_left_app. Qed.

(** Without a thread in the loop, turns do nothing. *)
Lemma turns_without_thread (n : nat) (self : Worker) (w : World) :
  alive self = 0 ->
  Worker.run env (replicate n Worker.Turn) (self, w) = (self, w)
  /\ history env (replicate n Worker.Turn) (self, w) = [].
Proof.
  intros H. induction n as [|n [IH1 IH2]]; [done |].
  change (replicate (S n) Worker.Turn) with (Worker.Turn :: replicate n Worker.Turn).
  rewrite run_cons, history_cons, turn_dead, dequeued_dead by done.
  by rewrite IH1, IH2.
Qed.

(** A stopped worker with one thread takes the queued items one by one
    and then ends. *)
Lemma drain (q : list Path) :
  forall (self : Worker) (w : World) (n : nat),
    _queue self = q -> _is_running self = false -> alive self = 1 ->
    length q < n ->
    Worker.run env (replicate n Worker.Turn) (self, w)
      = (set_thread (_worker_thread self) 0 (set_queue [] self),
         handle_all env self q w)
    /\ history env (replicate n Worker.Turn) (self, w) = q.
Proof.
  induction q as [|item q IH]; intros self w n Hq Hr Ha Hn;
    (destruct n as [|n]; [simpl in Hn; lia |]);
    change (replicate (S n) Worker.Turn) with (Worker.Turn :: replicate n Worker.Turn);
    rewrite run_cons, history_cons.
  - rewrite (turn_exit self w 0) by done.
    destruct (turns_without_thread n (set_thread (_worker_thread self) 0 self) w)
      as [E1 E2]; [done |].
    rewrite E1, E2, (dequeued_turn self w 0), Hq, (set_queue_id self []) by done. done.
  - rewrite (turn_take self w item q 0) by done.
    destruct (IH (set_queue q self) (handle env self item w) n) as [E1 E2];
      [done | done | done | simpl in Hn; lia |].
    rewrite E1, E2, (dequeued_turn self w 0), Hq by done.
    split; [by destruct self | done].
Qed.

(** Once the thread has ended, whatever is enqueued stays in the queue. *)
Lemma after_exit (steps : list Worker.Step) :
  forall (self : Worker) (w : World),
    Forall add_or_turn steps -> alive self = 0 ->
    history env steps (self, w) = []
    /\ _queue (Worker.run env steps (self, w)).1 = _queue self ++ added steps
    /\ alive (Worker.run env steps (self, w)).1 = 0.
Proof.
  induction steps as [|s steps IH]; intros self w Hs Ha.
  { simpl. by rewrite (right_id_L [] (++)). }
  inversion Hs as [|? ? Hs1 Hs2]; subst.
  rewrite run_cons, history_cons.
  destruct s as [| |item|]; simpl in Hs1; try done.
  - rewrite step_add.
    destruct (IH (set_queue (_queue self ++ [item]) self)
                (Worker.add_to_queue item self w).2 Hs2 Ha) as (E1 & E2 & E3).
    rewrite queue_set_queue in E2. rewrite E1, E2, E3.
    change (added (Worker.Add item :: steps)) with (item :: added steps).
    change (dequeued (self, w) (Worker.Add item)) with (@nil Path).
    by rewrite <- (assoc_L (++)).
  - rewrite turn_dead, dequeued_dead by done.
    destruct (IH self w Hs2 Ha) as (E1 & E2 & E3). by rewrite E1, E2, E3.
Qed.

(** However enqueues and turns alternate after [stop], when the thread
    has ended it has handled what was queued and what came in before it
    ended, and nothing else. *)
Lemma drain_interleaved (steps : list Worker.Step) :
  forall (self : Worker) (w : World),
    Forall add_or_turn steps ->
    _is_running self = false -> alive self = 1 ->
    alive (Worker.run env steps (self, w)).1 = 0 ->
    exists before after,
      added steps = before ++ after
      /\ history env steps (self, w) = _queue self ++ before
      /\ _queue (Worker.run env steps (self, w)).1 = after.
Proof.
  induction steps as [|s steps IH]; intros self w Hs Hr Ha Hend.
  { simpl in Hend. congruence. }
  inversion Hs as [|? ? Hs1 Hs2]; subst.
  rewrite run_cons in Hend |- *. rewrite history_cons.
  destruct s as [| |item|]; simpl in Hs1; try done.
  - rewrite step_add in Hend |- *.
    destruct (IH (set_queue (_queue self ++ [item]) self)
                (Worker.add_to_queue item self w).2 Hs2 Hr Ha Hend)
      as (b & a & E1 & E2 & E3).
    rewrite queue_set_queue in E2.
    exists (item :: b), a.
    change (added (Worker.Add item :: steps)) with (item :: added steps).
    change (dequeued (self, w) (Worker.Add item)) with (@nil Path).
    rewrite E1, E2.
    split; [done |]. split; [by rewrite <- (assoc_L (++)) | exact E3].
  - rewrite (dequeued_turn self w 0) by done.
    destruct (_queue self) as [|item q] eqn:Hq.
    + rewrite (turn_exit self w 0) in Hend |- * by done.
      destruct (after_exit steps (set_thread (_worker_thread self) 0 self) w Hs2 eq_refl)
        as (E1 & E2 & _).
      exists [], (added steps). simpl in E2. rewrite Hq in E2.
      split; [done |]. split; [by rewrite E1 | exact E2].
    + rewrite (turn_take self w item q 0) in Hend |- * by done.
      destruct (IH (set_queue q self) (handle env self item w) Hs2 Hr Ha Hend)
        as (b & a & E1 & E2 & E3).
      exists b, a. simpl in E2. split; [done |]. split; [by rewrite E2 | exact E3].
Qed.

End WorkerLoop.

(** ** Stopping a worker *)

Section WorkerStop.
Context (env : Env).
Import WorkerRun.

Lemma run_adds (late : list Path) :
  forall (self : Worker) (w : World),
    exists w',
      Worker.run env (map Worker.Add late) (self, w)
        = (set_queue (_queue self ++ late) self, w')
      /\ history env (map Worker.Add late) (self, w) = [].
Proof.
  induction late as [|item late IH]; intros self w.
  - exists w. simpl. rewrite (right_id_L [] (++)), set_queue_id; done.
  - destruct (IH (set_queue (_queue self ++ [item]) self)
                (Worker.add_to_queue item self w).2) as (w' & E1 & E2).
    exists w'. change (map Worker.Add (item :: late))
      with (Worker.Add item :: map Worker.Add late).
    rewrite run_cons, history_cons, step_add, E1, E2, queue_set_queue.
    rewrite <- (assoc_L (++)). split; [by destruct self | done].
Qed.

End WorkerStop.

(** C1, as amended: after [stop()] a worker with one loop thread and K
    queued items handles all K items, in order, and then its thread ends
    (K+1 turns are enough); an item enqueued after [stop()] but before the
    thread has ended is handled as well, and only what is enqueued after
    the thread ended stays in the queue unhandled. *)
Theorem stop_drains_queue (env : Env) (self : Worker) (w : World) :
  alive self = 1 ->
  (forall n, length (_queue self) < n ->
     Worker.run env (Worker.Stop :: replicate n Worker.Turn) (self, w)
       = (set_thread (_worker_thread self) 0 (set_queue [] (set_is_running false self)),
          WorkerRun.handle_all env self (_queue self) (Worker.stop self w).2)
     /\ WorkerRun.history env (Worker.Stop :: replicate n Worker.Turn) (self, w)
        = _queue self)
  /\ (forall late n, length (_queue self) + length late < n ->
        WorkerRun.history env
          (Worker.Stop :: map Worker.Add late ++ replicate n Worker.Turn) (self, w)
        = _queue self ++ late)
  /\ (forall steps, Forall WorkerRun.add_or_turn steps ->
        alive (Worker.run env (Worker.Stop :: steps) (self, w)).1 = 0 ->
        exists before after,
          WorkerRun.added steps = before ++ after
          /\ WorkerRun.history env (Worker.Stop :: steps) (self, w) = _queue self ++ before
          /\ _queue (Worker.run env (Worker.Stop :: steps) (self, w)).1 = after).
Proof.
  intros Ha. split; [| split].
  - intros n Hn. rewrite run_cons, history_cons.
    destruct (drain env (_queue self) (set_is_running false self) (Worker.stop self w).2 n)
      as [E1 E2]; try done.
  - intros late n Hn. rewrite history_cons.
    change (Worker.step env (self, w) Worker.Stop)
      with (set_is_running false self, (Worker.stop self w).2).
    destruct (run_adds env late (set_is_running false self) (Worker.stop self w).2)
      as (w' & E1 & E2).
    rewrite history_app, E1, E2.
    destruct (drain env (_queue self ++ late)
                (set_queue (_queue self ++ late) (set_is_running false self)) w' n)
      as [_ E3]; try done.
    { rewrite length_app. lia. }
  - intros steps Hs Hend. rewrite run_cons in Hend |- *. rewrite history_cons.
    destruct (drain_interleaved env steps (set_is_running false self)
                (Worker.stop self w).2 Hs eq_refl Ha Hend) as (b & a & E1 & E2 & E3).
    exists b, a. done.
Qed.

Lemma stop_drains_queue_witness :
  alive Examples.transcriber = 1
  /\ WorkerRun.history Examples.env_ok
       (Worker.Stop :: map Worker.Add [Examples.b_wav] ++ replicate 3 Worker.Turn)
       (Examples.transcriber, Examples.world0)
     = [Examples.a_wav; Examples.b_wav].
Proof.
  split; [reflexivity |].
  apply (stop_drains_queue Examples.env_ok Examples.transcriber Examples.world0 eq_refl).
  simpl. lia.
Defined.

(** C1 as stated fails: a chunk enqueued after [stop()], while the thread
    is still draining, is transcribed. *)
Lemma late_item_is_processed :
  ~ (forall (env : Env) (self : Worker) (w : World)
            (steps : list Worker.Step) (item : Path),
       alive self = 1 -> Forall WorkerRun.add_or_turn steps ->
       In item (WorkerRun.added steps) -> ~ In item (_queue self) ->
       ~ In item (WorkerRun.history env (Worker.Stop :: steps) (self, w))).
Proof.
  intros H.
  apply (H Examples.env_ok Examples.transcriber Examples.world0
           [Worker.Add Examples.b_wav; Worker.Turn; Worker.Turn; Worker.Turn]
           Examples.b_wav).
  - reflexivity.
  - repeat constructor.
  - left. reflexivity.
  - intros [E | []]. discriminate E.
  - right. left. reflexivity.
Qed.

(** ** What handling one item does to the aggregate file and the log *)

Section WorkerHandle.
Context (env : Env).
Import WorkerRun.

Lemma now_handle (self : Worker) (item : Path) (w : World) :
  now (handle env self item w) = now w.
Proof.
  unfold handle, AudioTranscriber.handle, AudioTranscriber._save_transcription,
    ScreenAnalyzer.handle, ScreenAnalyzer._save_analysis,
    ScreenAnalyzer._delete_screenshot, KeyboardAnalyzer.handle,
    KeyboardAnalyzer._save_analysis, append_file.
  destruct (kind self); repeat (case_match; simplify_eq/=; try done).
Qed.

Lemma aggregate_file_handle (self : Worker) (item : Path) (w : World) :
  aggregate_file self (handle env self item w) = aggregate_file self w.
Proof. unfold aggregate_file, get_today_folder. by rewrite now_handle. Qed.

Lemma aggregate_file_emit (self : Worker) (e : Effect) (w : World) :
  aggregate_file self (emit e w) = aggregate_file self w.
Proof. reflexivity. Qed.

Lemma aggregate_file_logger (self : Worker) (l : Level) (m : string) (w : World) :
  aggregate_file self (logger l m w) = aggregate_file self w.
Proof. reflexivity. Qed.

Ltac unfold_handle :=
  unfold handle, attempt, text_of,
    AudioTranscriber.handle, AudioTranscriber._save_transcription,
    ScreenAnalyzer.handle, ScreenAnalyzer._save_analysis,
    ScreenAnalyzer._delete_screenshot, KeyboardAnalyzer.handle,
    KeyboardAnalyzer._save_analysis, append_file, read_text;
  rewrite ?aggregate_file_emit, ?aggregate_file_logger.

(** Handling an item adds the text of its attempt to the aggregate file
    and nothing else; a failed attempt adds nothing. *)
Lemma handle_aggregate (self : Worker) (item : Path) (w : World) :
  path_str item <> aggregate_file self w ->
  aggregate self (handle env self item w)
  = aggregate self w +:+ text_of (attempt env self item w).
Proof.
  intros Hne. unfold aggregate. rewrite aggregate_file_handle.
  set (f := aggregate_file self w) in *.
  assert (Hf : forall w', now w' = now w -> aggregate_file self w' = f).
  { intros w' E. unfold f, aggregate_file, get_today_folder. by rewrite E. }
  unfold_handle.
  destruct (kind self);
    repeat (case_match; simplify_eq/=; rewrite ?Hf in * by done;
            rewrite ?lookup_delete_ne by done;
            rewrite ?lookup_insert_eq, ?append_nil_r; try done).
Qed.

Lemma errors_snoc (l : list (Level * string)) (lvl : Level) (msg : string) :
  errors (l ++ [(lvl, msg)])
  = errors l ++ (if decide (lvl = ERROR) then [msg] else []).
Proof. unfold errors. rewrite omap_app. simpl. by case_decide. Qed.

(** An attempt that raises leaves exactly one error record, which ends in
    the text of the exception; any other attempt leaves none. *)
Lemma handle_errors (self : Worker) (item : Path) (w : World) :
  match attempt env self item w with
  | Raise e =>
      exists prefix,
        errors (log (handle env self item w)) = errors (log w) ++ [prefix +:+ e]
  | Ret _ => errors (log (handle env self item w)) = errors (log w)
  end.
Proof.
  unfold_handle.
  destruct (kind self);
    repeat (case_match; simplify_eq/=; rewrite ?aggregate_file_emit, ?aggregate_file_logger in *;
            simplify_eq/=);
    rewrite ?errors_snoc; simpl; rewrite ?(right_id_L [] (++)); eauto.
Qed.
End WorkerHandle.

(** ** A failure touches one item only *)

Section WorkerFailure.
Context (env : Env).
Import WorkerRun.

(** As many turns as there are items queued handle them all, in order,
    whether the worker is running or stopped, and leave the thread in the
    loop. *)
Lemma take_all (q : list Path) :
  forall (self : Worker) (w : World) (a : nat),
    alive self = S a -> _queue self = q ->
    Worker.run env (replicate (length q) Worker.Turn) (self, w)
      = (set_queue [] self, handle_all env self q w)
    /\ history env (replicate (length q) Worker.Turn) (self, w) = q.
Proof.
  induction q as [|item q IH]; intros self w a Ha Hq.
  - simpl. by rewrite (set_queue_id self []).
  - change (replicate (length (item :: q)) Worker.Turn)
      with (Worker.Turn :: replicate (length q) Worker.Turn).
    rewrite run_cons, history_cons, (turn_take env self w item q a),
      (dequeued_turn self w a), Hq by done.
    destruct (IH (set_queue q self) (handle env self item w) a) as [E1 E2]; [done.. |].
    rewrite E1, E2. split; [by destruct self | done].
Qed.

Lemma aggregate_file_handle_all (self : Worker) (items : list Path) (w : World) :
  aggregate_file self (handle_all env self items w) = aggregate_file self w.
Proof.
  revert w. induction items as [|item items IH]; intros w; [done |].
  simpl. by rewrite IH, aggregate_file_handle.
Qed.

Lemma handle_all_aggregate (self : Worker) (items : list Path) :
  forall w : World,
    (forall item, In item items -> path_str item <> aggregate_file self w) ->
    aggregate self (handle_all env self items w)
    = aggregate self w +:+ outputs env self items w.
Proof.
  induction items as [|item items IH]; intros w Hne.
  - simpl. by rewrite append_nil_r.
  - simpl. rewrite IH.
    + rewrite handle_aggregate by (apply Hne; by left). by rewrite append_assoc.
    + intros y Hy. rewrite aggregate_file_handle. apply Hne. by right.
Qed.

End WorkerFailure.

(** C5: when the analysis call or the file I/O for one queued artifact
    raises, the exception is logged once, nothing is appended for that
    artifact, it is taken from the queue once and never put back, the
    thread stays in the loop, and every later artifact is handled in
    turn, its text being appended to the aggregate file of the day. *)
Theorem failure_is_isolated (env : Env) (self : Worker) (w : World)
    (pre post : list Path) (x : Path) (e : string) :
  alive self <> 0 ->
  _queue self = pre ++ x :: post ->
  (forall item, In item (_queue self) -> path_str item <> aggregate_file self w) ->
  WorkerRun.attempt env self x (WorkerRun.handle_all env self pre w) = Raise e ->
  (exists prefix,
      WorkerRun.errors (log (handle env self x (WorkerRun.handle_all env self pre w)))
      = WorkerRun.errors (log (WorkerRun.handle_all env self pre w)) ++ [prefix +:+ e])
  /\ WorkerRun.aggregate self (handle env self x (WorkerRun.handle_all env self pre w))
     = WorkerRun.aggregate self (WorkerRun.handle_all env self pre w)
  /\ WorkerRun.history env (replicate (length (_queue self)) Worker.Turn) (self, w)
     = pre ++ x :: post
  /\ Worker.run env (replicate (length (_queue self)) Worker.Turn) (self, w)
     = (set_queue [] self,
        WorkerRun.handle_all env self post
          (handle env self x (WorkerRun.handle_all env self pre w)))
  /\ WorkerRun.aggregate self
       (Worker.run env (replicate (length (_queue self)) Worker.Turn) (self, w)).2
     = WorkerRun.aggregate self w
       +:+ WorkerRun.outputs env self pre w
       +:+ WorkerRun.outputs env self post
             (handle env self x (WorkerRun.handle_all env self pre w)).
Proof.
  intros Ha Hq Hne Hx.
  destruct (alive self) as [|a] eqn:Ea; [done |].
  destruct (take_all env (_queue self) self w a Ea eq_refl) as [E1 E2].
  assert (Hsplit : WorkerRun.handle_all env self (_queue self) w
                   = WorkerRun.handle_all env self post
                       (handle env self x (WorkerRun.handle_all env self pre w))).
  { rewrite Hq, handle_all_app. reflexivity. }
  assert (Hpre : forall item, In item pre -> path_str item <> aggregate_file self w).
  { intros y Hy. apply Hne. rewrite Hq. apply in_or_app. by left. }
  assert (Hxne : path_str x <> aggregate_file self (WorkerRun.handle_all env self pre w)).
  { rewrite aggregate_file_handle_all. apply Hne. rewrite Hq.
    apply in_or_app. right. by left. }
  assert (Hagg : WorkerRun.aggregate self
                   (handle env self x (WorkerRun.handle_all env self pre w))
                 = WorkerRun.aggregate self (WorkerRun.handle_all env self pre w)).
  { rewrite handle_aggregate by done. rewrite Hx. simpl. by rewrite append_nil_r. }
  split; [| split; [| split; [| split]]].
  - pose proof (handle_errors env self x (WorkerRun.handle_all env self pre w)) as He.
    by rewrite Hx in He.
  - exact Hagg.
  - by rewrite E2.
  - by rewrite E1, Hsplit.
  - rewrite E1. simpl. rewrite Hsplit.
    rewrite handle_all_aggregate.
    + rewrite Hagg, handle_all_aggregate by done. by rewrite append_assoc.
    + intros y Hy. rewrite aggregate_file_handle, aggregate_file_handle_all.
      apply Hne. rewrite Hq. apply in_or_app. right. by right.
Qed.

Lemma failure_is_isolated_witness :
  alive Examples.transcriber5 <> 0
  /\ WorkerRun.aggregate Examples.transcriber5
       (Worker.run Examples.env_flaky (replicate 5 Worker.Turn)
          (Examples.transcriber5, Examples.world0)).2
     = WorkerRun.aggregate Examples.transcriber5 Examples.world0
       +:+ WorkerRun.outputs Examples.env_flaky Examples.transcriber5
             [Examples.chunk "01"; Examples.chunk "02"] Examples.world0
       +:+ WorkerRun.outputs Examples.env_flaky Examples.transcriber5
             [Examples.chunk "04"; Examples.chunk "05"]
             (handle Examples.env_flaky Examples.transcriber5 (Examples.chunk "03")
                (WorkerRun.handle_all Examples.env_flaky Examples.transcriber5
                   [Examples.chunk "01"; Examples.chunk "02"] Examples.world0)).
Proof.
  split; [vm_compute; discriminate |].
  apply (failure_is_isolated Examples.env_flaky Examples.transcriber5 Examples.world0
           [Examples.chunk "01"; Examples.chunk "02"]
           [Examples.chunk "04"; Examples.chunk "05"]
           (Examples.chunk "03") "503 Service Unavailable").
  - vm_compute; discriminate.
  - reflexivity.
  - intros item Hin. vm_compute in Hin.
    repeat (destruct Hin as [<- | Hin]; [vm_compute; discriminate |]). destruct Hin.
  - vm_compute. reflexivity.
Defined.

(** The run of spec section 8: five chunks, the third fails; the file of
    the day holds the texts of the other four, in order, and the log one
    error. *)
Example third_of_five_fails :
  let w' := (Worker.run Examples.env_flaky (replicate 5 Worker.Turn)
               (Examples.transcriber5, Examples.world0)).2 in
  fs w' !! "data/transcriptions/2025-03-14/transcricao.txt"
  = Some (nl +:+ "[01]" +:+ nl +:+ "text 01" +:+ nl +:+
          nl +:+ "[02]" +:+ nl +:+ "text 02" +:+ nl +:+
          nl +:+ "[04]" +:+ nl +:+ "text 04" +:+ nl +:+
          nl +:+ "[05]" +:+ nl +:+ "text 05" +:+ nl)
  /\ WorkerRun.errors (log w') = ["Erro: 503 Service Unavailable"].
Proof. vm_compute. split; reflexivity. Qed.

(** ** Blank keylogs *)

(** C10: when the text read from the file of a dequeued keylog is empty
    or holds whitespace only (the characters of which [str.isspace]
    holds, ASCII or not), the turn of the KeyboardAnalyzer takes the item
    from the queue and logs that it looks at it, and does nothing else:
    no call of the analysis service, no write to any file; the thread
    stays in the loop and its next turn takes the next item. *)
Theorem blank_keylog_is_skipped (env : Env) (self : Worker) (w : World)
    (item : Path) (rest : list Path) (content : string) :
  kind self = Keyboard ->
  alive self <> 0 ->
  _queue self = item :: rest ->
  read_text env item
    (logger INFO ("Analisando log de teclado: " +:+ name item) w) = Ret content ->
  whitespace_only content = true ->
  Worker.step env (self, w) Worker.Turn
  = (set_queue rest self,
     logger INFO ("Analisando log de teclado: " +:+ name item) w)
  /\ trace (Worker.step env (self, w) Worker.Turn).2 = trace w
  /\ fs (Worker.step env (self, w) Worker.Turn).2 = fs w
  /\ alive (Worker.step env (self, w) Worker.Turn).1 = alive self
  /\ WorkerRun.dequeued (Worker.step env (self, w) Worker.Turn) Worker.Turn
     = take 1 rest.
Proof.
  intros Hk Ha Hq Hread Hblank.
  destruct (alive self) as [|a] eqn:Ea; [done |].
  assert (E : Worker.step env (self, w) Worker.Turn
              = (set_queue rest self,
                 logger INFO ("Analisando log de teclado: " +:+ name item) w)).
  { rewrite (turn_take env self w item rest a) by done. f_equal.
    unfold handle. rewrite Hk. unfold KeyboardAnalyzer.handle. rewrite Hread.
    apply strip_blank in Hblank. by rewrite Hblank. }
  rewrite E. repeat split; try done.
  simpl. by rewrite Ea.
Qed.

Lemma blank_keylog_is_skipped_witness :
  kind Examples.keyboard_analyzer = Keyboard
  /\ trace (Worker.step Examples.env_ok
              (Examples.keyboard_analyzer, Examples.world_blank_unicode) Worker.Turn).2
     = trace Examples.world_blank_unicode.
Proof.
  split; [reflexivity |].
  apply (blank_keylog_is_skipped Examples.env_ok Examples.keyboard_analyzer
           Examples.world_blank_unicode Examples.keylog [Examples.keylog]
           (encode [32; 160; 8195; 10; 12288]%N)).
  - reflexivity.
  - vm_compute; discriminate.
  - reflexivity.
  - vm_compute. reflexivity.
  - vm_compute. reflexivity.
Defined.

(** A keylog that is no UTF-8, here the one byte 160, is not read as
    blank: reading it raises, and the turn logs the error. *)
Example undecodable_keylog_is_an_error :
  let w := mkWorld {[ path_str Examples.keylog := String (Ascii.ascii_of_nat 160) "" ]}
             [] [] Examples.clock in
  log (Worker.step Examples.env_ok (Examples.keyboard_analyzer, w) Worker.Turn).2
  = [(INFO, "Analisando log de teclado: keylog.txt");
     (ERROR, "Erro na análise de teclado: "
             +:+ "'utf-8' codec can't decode byte 0xa0 in position 0: invalid start byte")].
Proof. vm_compute. reflexivity. Qed.

(** ** Keyboard recorder: flushing *)

Lemma notifications_snoc (t : list Effect) (e : Effect) :
  Observe.notifications (t ++ [e])
  = Observe.notifications t ++ (if Observe.is_notify e then [e] else []).
Proof.
  unfold Observe.notifications. rewrite filter_app. f_equal.
  destruct (Observe.is_notify e) eqn:E.
  - by rewrite filter_cons_True.
  - rewrite filter_cons_False; [done |]. by rewrite E.
Qed.

(** C9: with an empty keystroke buffer [save_buffer()] returns at once,
    leaving the recorder and the world as they were; the flush in
    [stop()] therefore writes no file and calls no [on_log_ready]. *)
Theorem empty_flush_writes_nothing (env : Env) (self : KeyboardRecorder.t) (w : World) :
  KeyboardRecorder.current_buffer self = [] ->
  KeyboardRecorder.save_buffer env self w = (self, w)
  /\ fs (KeyboardRecorder.stop env self w).2 = fs w
  /\ Observe.notifications (trace (KeyboardRecorder.stop env self w).2)
     = Observe.notifications (trace w)
  /\ KeyboardRecorder.current_buffer (KeyboardRecorder.stop env self w).1 = [].
Proof.
  intros Hb.
  assert (E : forall s w', KeyboardRecorder.current_buffer s = [] ->
                KeyboardRecorder.save_buffer env s w' = (s, w')).
  { intros s w' Hs. unfold KeyboardRecorder.save_buffer. by rewrite Hs. }
  split; [by apply E |].
  unfold KeyboardRecorder.stop.
  destruct (KeyboardRecorder.listener
              (KeyboardRecorder.set_flags false (KeyboardRecorder.paused self) self)) eqn:L;
    rewrite E by done; simpl; rewrite ?notifications_snoc; simpl;
    rewrite ?(right_id_L [] (++)); done.
Qed.

Lemma empty_flush_writes_nothing_witness :
  KeyboardRecorder.current_buffer Examples.recorder_idle = []
  /\ fs (KeyboardRecorder.stop Examples.env_ok Examples.recorder_idle Examples.world0).2
     = fs Examples.world0.
Proof.
  split; [reflexivity |].
  apply (empty_flush_writes_nothing Examples.env_ok Examples.recorder_idle Examples.world0).
  reflexivity.
Defined.

(** ** Producers while paused *)

Section Paused.
Context (env : Env).



Lemma grabs_snoc (t : list Effect) (e : Effect) :
  Observe.grabs (t ++ [e]) = Observe.grabs t + (if decide (e = Grab) then 1 else 0).
Proof.
  unfold Observe.grabs. rewrite filter_app, length_app. f_equal.
  case_decide.
  - by rewrite filter_cons_True.
  - by rewrite filter_cons_False.
Qed.


Lemma grabs_sleeps (t : list Effect) (n secs : nat) :
  Observe.grabs (t ++ replicate n (Sleep secs)) = Observe.grabs t.
Proof.
  unfold Observe.grabs. rewrite filter_app.
  assert (E : filter (fun e => e = Grab) (replicate n (Sleep secs)) = []).
  { induction n as [|n IH]; [done |]. simpl replicate. by rewrite filter_cons_False. }
  by rewrite E, (right_id_L [] (++)).
Qed.

Lemma capture_run_cons (s : ScreenCapture.Step) (steps : list ScreenCapture.Step)
    (st : ScreenCapture.t * World) :
  ScreenCapture.run env (s :: steps) st
  = ScreenCapture.run env steps (ScreenCapture.step env st s).
Proof. reflexivity. Qed.

Lemma recorder_run_cons (s : KeyboardRecorder.Step) (steps : list KeyboardRecorder.Step)
    (st : KeyboardRecorder.t * World) :
  KeyboardRecorder.run env (s :: steps) st
  = KeyboardRecorder.run env steps (KeyboardRecorder.step env st s).
Proof. reflexivity. Qed.







Lemma recorder_run_app (xs ys : list KeyboardRecorder.Step)
    (st : KeyboardRecorder.t * World) :
  KeyboardRecorder.run env (xs ++ ys) st
  = KeyboardRecorder.run env ys (KeyboardRecorder.run env xs st).
Proof. apply fold_left_app. Qed.



End Paused.

Section Resumed.
Context (env : Env).

Lemma save_screenshot_file (self : ScreenCapture.t) (img : string) (w : World) :
  ScreenCapture._save_screenshot env self img w
  = match io_error env w (path_str (Observe.screenshot_file self w)) with
    | Some e => (None, logger ERROR ("Erro ao salvar screenshot: " +:+ e) w)
    | None =>
        (Some (Observe.screenshot_file self w),
         logger DEBUG ("Screenshot salvo: " +:+ name (Observe.screenshot_file self w))
           (set_fs (<[path_str (Observe.screenshot_file self w) := img]> (fs w)) w))
    end.
Proof.
  unfold ScreenCapture._save_screenshot, Observe.screenshot_file.
  by destruct (String.eqb (ScreenCapture.format self) "jpg").
Qed.



Lemma press_buffer (key : Key) (self : KeyboardRecorder.t) (w : World) :
  KeyboardRecorder.listener self = true -> KeyboardRecorder.paused self = false ->
  exists b,
    KeyboardRecorder.step env (self, w) (KeyboardRecorder.Press key)
    = (KeyboardRecorder.set_buffer (KeyboardRecorder.current_buffer self ++ b) self, w)
    /\ String.concat "" b = KeyboardRecorder.key_text key.
Proof.
  intros Hl Hp. simpl. rewrite Hl. unfold KeyboardRecorder._on_press. rewrite Hp.
  destruct (KeyboardRecorder.key_text key) as [|c s] eqn:E; simpl.
  - exists []. rewrite (right_id_L [] (++)). by destruct self.
  - by exists [String c s].
Qed.

(** A flush of a buffer that is not empty, when the write succeeds. *)
Lemma save_buffer_written (self : KeyboardRecorder.t) (w : World) :
  KeyboardRecorder.current_buffer self <> [] ->
  io_error env w (path_str (KeyboardRecorder.log_file self w)) = None ->
  KeyboardRecorder.save_buffer env self w
  = (KeyboardRecorder.set_buffer [] self,
     let w2 :=
       logger DEBUG ("Log de teclado salvo em " +:+ path_str (KeyboardRecorder.log_file self w))
         (set_fs (<[path_str (KeyboardRecorder.log_file self w) :=
                      default "" (fs w !! path_str (KeyboardRecorder.log_file self w))
                      +:+ KeyboardRecorder.header w
                      +:+ String.concat "" (KeyboardRecorder.current_buffer self)
                      +:+ nl]> (fs w)) w) in
     if KeyboardRecorder.on_log_ready self
     then emit (Notify "on_log_ready" (KeyboardRecorder.log_file self w)) w2
     else w2).
Proof.
  intros Hb Hio. unfold KeyboardRecorder.save_buffer, append_file. rewrite Hio.
  by destruct (KeyboardRecorder.current_buffer self).
Qed.

End Resumed.



(** After three paused turns and [resume()], the next turn grabs the
    screen once and hands over one screenshot. *)
Example resume_does_not_burst :
  let w' := (ScreenCapture.run Examples.env_ok
               ((ScreenCapture.Pause :: replicate 3 ScreenCapture.Tick)
                  ++ [ScreenCapture.Resume; ScreenCapture.Tick])
               (Examples.capture_running, Examples.world0)).2 in
  Observe.grabs (trace w') = 1 /\ length (Observe.notifications (trace w')) = 1.
Proof. vm_compute. split; reflexivity. Qed.

(** ** Stopping a producer *)

Lemma joins_snoc (t : list Effect) (e : Effect) :
  Observe.joins (t ++ [e]) = Observe.joins t ++ (if Observe.is_join e then [e] else []).
Proof.
  unfold Observe.joins. rewrite filter_app. f_equal.
  destruct (Observe.is_join e) eqn:E.
  - by rewrite filter_cons_True.
  - rewrite filter_cons_False; [done |]. by rewrite E.
Qed.

(** C7, as amended: [ScreenCapture.stop()] on a running capture clears
    [is_running] and joins the capture loop with a timeout of 10 seconds.
    [KeyboardRecorder.stop()] clears [running], stops the key listener and
    flushes the keystroke buffer before it returns: the buffer is emptied
    and, when the write succeeds, its text is appended to the keylog of
    the day and the keylog handed to [on_log_ready]; but it makes no join:
    the save loop is still alive when [stop()] returns and ends at its
    next wake-up. *)
Theorem stop_flushes_producer (env : Env)
    (sc : ScreenCapture.t) (kr : KeyboardRecorder.t) (w : World) :
  ScreenCapture.is_running sc = true ->
  ScreenCapture._capture_thread sc = true ->
  KeyboardRecorder.current_buffer kr <> [] ->
  io_error env (if KeyboardRecorder.listener kr then emit ListenerStop w else w)
           (path_str (KeyboardRecorder.log_file kr w)) = None ->
  ScreenCapture.stop sc w
  = (ScreenCapture.set_flags false (ScreenCapture.is_paused sc) sc,
     logger INFO "Captura de tela parada" (emit (Join "_capture_loop" 10) w))
  /\ KeyboardRecorder.running (KeyboardRecorder.stop env kr w).1 = false
  /\ KeyboardRecorder.listener (KeyboardRecorder.stop env kr w).1 = false
  /\ KeyboardRecorder.current_buffer (KeyboardRecorder.stop env kr w).1 = []
  /\ fs (KeyboardRecorder.stop env kr w).2 !! path_str (KeyboardRecorder.log_file kr w)
     = Some (default "" (fs w !! path_str (KeyboardRecorder.log_file kr w))
             +:+ KeyboardRecorder.header w
             +:+ String.concat "" (KeyboardRecorder.current_buffer kr) +:+ nl)
  /\ (KeyboardRecorder.on_log_ready kr = true ->
      Observe.notifications (trace (KeyboardRecorder.stop env kr w).2)
      = Observe.notifications (trace w)
        ++ [Notify "on_log_ready" (KeyboardRecorder.log_file kr w)])
  /\ Observe.joins (trace (KeyboardRecorder.stop env kr w).2) = Observe.joins (trace w)
  /\ KeyboardRecorder.alive (KeyboardRecorder.stop env kr w).1 = KeyboardRecorder.alive kr
  /\ (KeyboardRecorder.alive kr <> 0 ->
      KeyboardRecorder.alive
        (KeyboardRecorder.step env (KeyboardRecorder.stop env kr w) KeyboardRecorder.Wake).1
      = pred (KeyboardRecorder.alive kr)).
Proof.
  intros Hr Ht Hb Hio.
  split.
  { unfold ScreenCapture.stop. by rewrite Hr, Ht. }
  unfold KeyboardRecorder.stop, KeyboardRecorder.save_buffer, append_file.
  destruct kr as [si cb dd buf l r p t a]. simpl in *.
  destruct buf as [|c buf]; [done |].
  unfold KeyboardRecorder.log_file, KeyboardRecorder.header, get_today_folder in *.
  destruct l; simpl in *; rewrite Hio; simpl;
    (destruct cb; simpl;
     rewrite ?lookup_insert_eq, ?notifications_snoc, ?joins_snoc; simpl;
     rewrite ?notifications_snoc, ?joins_snoc; simpl;
     rewrite ?(right_id_L [] (++));
     repeat split; try done;
     intros Ha; destruct a; try done; simpl; by destruct p).
Qed.

Lemma stop_flushes_producer_witness :
  ScreenCapture.is_running Examples.capture_running = true
  /\ KeyboardRecorder.current_buffer Examples.recorder_typed <> []
  /\ KeyboardRecorder.current_buffer
       (KeyboardRecorder.stop Examples.env_ok Examples.recorder_typed Examples.world0).1
     = [].
Proof.
  split; [reflexivity |]. split; [vm_compute; discriminate |].
  apply (stop_flushes_producer Examples.env_ok Examples.capture_running
           Examples.recorder_typed Examples.world0).
  - reflexivity.
  - reflexivity.
  - vm_compute; discriminate.
  - reflexivity.
Defined.

(** C7 as stated fails for the keyboard recorder: its [stop()] joins
    nothing, and the save loop is still alive when it returns. *)
Lemma recorder_stop_does_not_join :
  ~ (forall (env : Env) (kr : KeyboardRecorder.t) (w : World),
       KeyboardRecorder.running kr = true -> KeyboardRecorder.alive kr <> 0 ->
       (exists target timeout,
           In (Join target timeout) (trace (KeyboardRecorder.stop env kr w).2))
       \/ KeyboardRecorder.alive (KeyboardRecorder.stop env kr w).1 = 0).
Proof.
  intros H.
  destruct (H Examples.env_ok Examples.recorder_typed Examples.world0)
    as [(target & timeout & Hin) | Hdead].
  - reflexivity.
  - vm_compute; discriminate.
  - vm_compute in Hin. destruct Hin as [E | [E | []]]; discriminate E.
  - vm_compute in Hdead. discriminate Hdead.
Qed.

(** ** Power monitor: listeners *)

Lemma invoked_snoc (t : list Effect) (c : string) :
  Observe.invoked (t ++ [Invoke c]) = Observe.invoked t ++ [c].
Proof. unfold Observe.invoked. by rewrite omap_app. Qed.

Lemma registrations_callbacks (regs : list (string * Callable)) (event : string)
    (pm : PowerMonitor.t) (w : World) :
  PowerMonitor._callbacks (PowerMonitor.run (Observe.registrations regs) (pm, w)).1 !! event
  = match Observe.last_registered event regs with
    | Some c => Some c
    | None => PowerMonitor._callbacks pm !! event
    end
  /\ (PowerMonitor.run (Observe.registrations regs) (pm, w)).2 = w.
Proof.
  induction regs as [|r regs IH] using rev_ind; [done |].
  destruct IH as [IH1 IH2].
  unfold Observe.registrations, Observe.last_registered, PowerMonitor.run in *.
  rewrite map_app, fold_left_app, omap_app. simpl.
  split; [| exact IH2].
  case_decide as E.
  - rewrite last_snoc, <- E. apply lookup_insert_eq.
  - rewrite (right_id_L [] (++)), lookup_insert_ne by done. exact IH1.
Qed.

(** C3, as amended: the monitor keeps one listener per event name.
    Whatever registrations are made, in whatever order, when the event
    fires only the listener registered last under that name is called,
    once; an exception it raises is logged and [_trigger] returns.  An
    event no registration names fires as it did before. *)
Theorem trigger_calls_last_listener (pm : PowerMonitor.t) (w0 w : World)
    (regs : list (string * Callable)) (event : string) :
  match Observe.last_registered event regs with
  | Some c =>
      Observe.invoked
        (trace (PowerMonitor._trigger event
                  (PowerMonitor.run (Observe.registrations regs) (pm, w0)).1 w))
      = Observe.invoked (trace w) ++ [callable_name c]
      /\ log (PowerMonitor._trigger event
                (PowerMonitor.run (Observe.registrations regs) (pm, w0)).1 w)
         = log w ++ match raises c with
                    | Some e => [(ERROR, "Erro no callback " +:+ event +:+ ": " +:+ e)]
                    | None => []
                    end
  | None =>
      PowerMonitor._trigger event
        (PowerMonitor.run (Observe.registrations regs) (pm, w0)).1 w
      = PowerMonitor._trigger event pm w
  end.
Proof.
  destruct (registrations_callbacks regs event pm w0) as [E _].
  unfold PowerMonitor._trigger. rewrite E.
  destruct (Observe.last_registered event regs) as [c|]; [| done].
  unfold call. destruct (raises c); simpl; rewrite invoked_snoc;
    by rewrite ?(right_id_L [] (++)).
Qed.

(** C3 as stated fails: of two listeners registered for the same event
    only the second is called. *)
Lemma second_listener_replaces_first :
  ~ (forall (pm : PowerMonitor.t) (w : World) (event : string) (c1 c2 : Callable),
       Observe.invoked
         (trace (PowerMonitor._trigger event
                   (PowerMonitor.register_callback event c2
                      (PowerMonitor.register_callback event c1 pm)) w))
       = Observe.invoked (trace w) ++ [callable_name c1; callable_name c2]).
Proof.
  intros H.
  specialize (H (PowerMonitor.init true) Examples.world0 "on_sleep"
                Examples.on_sleep_a Examples.on_sleep_b).
  vm_compute in H. discriminate H.
Qed.

(** ** Orchestrator: order of start *)

Section StartOrder.

Lemma invoked_other (t : list Effect) (e : Effect) :
  (forall c, e <> Invoke c) -> Observe.invoked (t ++ [e]) = Observe.invoked t.
Proof.
  intros H. unfold Observe.invoked. rewrite omap_app. simpl.
  destruct e; rewrite ?(right_id_L [] (++)); try done. by destruct (H callable).
Qed.







Lemma seq_ret {A : Type} (m : Assistant.M unit) (k : Assistant.M A)
    (a a' : Assistant.t) (w w' : World) :
  m a w = (Ret tt, a', w') -> Assistant.seq m k a w = k a' w'.
Proof. unfold Assistant.seq, Assistant.bind. by intros ->. Qed.











Lemma seq_assign {A : Type} (f : Assistant.t -> Assistant.t) (k : Assistant.M A)
    (a : Assistant.t) (w : World) :
  Assistant.seq (Assistant.assign f) k a w = k (f a) w.
Proof. reflexivity. Qed.

Lemma seq_info {A : Type} (msg : string) (k : Assistant.M A)
    (a : Assistant.t) (w : World) :
  Assistant.seq (Assistant.info msg) k a w = k a (logger INFO msg w).
Proof. reflexivity. Qed.





End StartOrder.


(** ** Task scheduler: once a day *)

Section Scheduler.

Lemma day_le_antisym (a b : DayKey) : day_le a b -> day_le b a -> a = b.
Proof.
  destruct a as [[y m] d], b as [[y' m'] d'].
  unfold day_le, day_lt. simpl. intros [E | H1] [E' | H2]; try done.
  exfalso. lia.
Qed.

Lemma fire_now (self : TaskScheduler.t) (f : JobFunc) (w : World) :
  now (TaskScheduler.fire self f w) = now w.
Proof.
  destruct f; simpl;
    unfold TaskScheduler._trigger_daily_summary, TaskScheduler._trigger_cleanup, call;
    repeat case_match; simplify_eq/=; done.
Qed.

Lemma fire_lines (self : TaskScheduler.t) (f : JobFunc) (w : World) :
  exists lines,
    log (TaskScheduler.fire self f w) = log w ++ lines
    /\ omap Observe.trigger_of_line lines = [f].
Proof.
  destruct f; simpl;
    unfold TaskScheduler._trigger_daily_summary, TaskScheduler._trigger_cleanup, call;
    repeat case_match; simplify_eq/=;
    rewrite <- ?(assoc_L (++)); eexists; (split; [reflexivity |]); simpl;
    unfold Observe.trigger_of_line; repeat case_decide; simplify_eq; done.
Qed.

Lemma run_pending_spec (self : TaskScheduler.t) (jobs : list Schedule.ScheduledTrigger) :
  forall w : World,
    (Schedule.run_pending (TaskScheduler.fire self) jobs w).1 = map (Observe.tick (now w)) jobs
    /\ now (Schedule.run_pending (TaskScheduler.fire self) jobs w).2 = now w
    /\ exists lines,
         log (Schedule.run_pending (TaskScheduler.fire self) jobs w).2 = log w ++ lines
         /\ omap Observe.trigger_of_line lines
            = map Schedule.job_func
                  (filter (fun j => Schedule.due j (now w) = true) jobs).
Proof.
  induction jobs as [|j jobs IH]; intros w.
  { simpl. split; [done |]. split; [done |]. exists []. by rewrite (right_id_L [] (++)). }
  simpl. unfold Observe.tick at 1.
  destruct (Schedule.due j (now w)) eqn:D.
  - destruct (IH (TaskScheduler.fire self (Schedule.job_func j) w)) as (E1 & E2 & lines & E3 & E4).
    destruct (Schedule.run_pending (TaskScheduler.fire self) jobs
                (TaskScheduler.fire self (Schedule.job_func j) w)) as [js w2].
    simpl in *. rewrite fire_now in *.
    split; [by rewrite E1 |]. split; [done |].
    destruct (fire_lines self (Schedule.job_func j) w) as (l0 & F1 & F2).
    exists (l0 ++ lines). rewrite E3, F1, <- (assoc_L (++)). split; [done |].
    rewrite omap_app, F2, E4, filter_cons_True by done. done.
  - destruct (IH w) as (E1 & E2 & lines & E3 & E4).
    destruct (Schedule.run_pending (TaskScheduler.fire self) jobs w) as [js w2].
    simpl in *. split; [by rewrite E1 |]. split; [done |].
    exists lines. split; [done |]. rewrite filter_cons_False; [done |]. by rewrite D.
Qed.

(** A turn of the loop of a running scheduler updates every job and runs
    the trigger functions of the jobs that are due, in order. *)
Lemma poll_spec (self : TaskScheduler.t) (w : World) (d : DateTime) :
  TaskScheduler._is_running self = true -> TaskScheduler.alive self <> 0 ->
  (TaskScheduler.step (self, w) (TaskScheduler.Poll d)).1
  = TaskScheduler.set_jobs (map (Observe.tick d) (TaskScheduler.jobs self)) self
  /\ Observe.triggered (self, w) d
     = map Schedule.job_func
           (filter (fun j => Schedule.due j d = true) (TaskScheduler.jobs self)).
Proof.
  intros Hr Ha. unfold Observe.triggered.
  change (TaskScheduler.step (self, w) (TaskScheduler.Poll d))
    with (if TaskScheduler.alive self is 0 then (self, TaskScheduler.set_now d w)
          else TaskScheduler._run_scheduler self (TaskScheduler.set_now d w)).
  destruct (TaskScheduler.alive self); [done |].
  unfold TaskScheduler._run_scheduler. rewrite Hr.
  destruct (run_pending_spec self (TaskScheduler.jobs self) (TaskScheduler.set_now d w))
    as (E1 & E2 & lines & E3 & E4).
  destruct (Schedule.run_pending (TaskScheduler.fire self) (TaskScheduler.jobs self)
              (TaskScheduler.set_now d w)) as [js w1].
  simpl in *. split; [by rewrite E1 |].
  rewrite E3, drop_app_length. exact E4.
Qed.

Lemma polls_spec (ds : list DateTime) :
  forall (self : TaskScheduler.t) (w : World),
    TaskScheduler._is_running self = true -> TaskScheduler.alive self <> 0 ->
    (TaskScheduler.run (Observe.polls ds) (self, w)).1
    = TaskScheduler.set_jobs (map (Observe.ticks ds) (TaskScheduler.jobs self)) self.
Proof.
  induction ds as [|d ds IH]; intros self w Hr Ha.
  { simpl. rewrite map_id. by destruct self. }
  change (TaskScheduler.run (Observe.polls (d :: ds)) (self, w))
    with (TaskScheduler.run (Observe.polls ds) (TaskScheduler.step (self, w) (TaskScheduler.Poll d))).
  destruct (poll_spec self w d Hr Ha) as [E _].
  destruct (TaskScheduler.step (self, w) (TaskScheduler.Poll d)) as [self1 w1].
  simpl in E. subst self1. rewrite IH by done.
  simpl. rewrite map_map. by destruct self.
Qed.

Lemma tick_fields (d : DateTime) (j : Schedule.ScheduledTrigger) :
  Schedule.job_func (Observe.tick d j) = Schedule.job_func j
  /\ Schedule.timeOfDay (Observe.tick d j) = Schedule.timeOfDay j.
Proof. unfold Observe.tick. by destruct (Schedule.due j d). Qed.

Lemma ticks_fields (ds : list DateTime) (j : Schedule.ScheduledTrigger) :
  Schedule.job_func (Observe.ticks ds j) = Schedule.job_func j
  /\ Schedule.timeOfDay (Observe.ticks ds j) = Schedule.timeOfDay j.
Proof.
  revert j. induction ds as [|d ds IH]; intros j; [done |].
  change (Observe.ticks (d :: ds) j) with (Observe.ticks ds (Observe.tick d j)).
  destruct (IH (Observe.tick d j)) as [-> ->]. apply tick_fields.
Qed.

Lemma due_eligible (j : Schedule.ScheduledTrigger) (d : DateTime) :
  Schedule.due j d
  = Observe.eligible (Schedule.timeOfDay j) d
    && negb (bool_decide (Schedule.lastFiredDayKey j = Some (dayKey d))).
Proof. reflexivity. Qed.

(** After a poll at or after its time, a job has fired on that day. *)
Lemma tick_eligible (d : DateTime) (j : Schedule.ScheduledTrigger) :
  Observe.eligible (Schedule.timeOfDay j) d = true ->
  Schedule.lastFiredDayKey (Observe.tick d j) = Some (dayKey d).
Proof.
  intros He. unfold Observe.tick. rewrite due_eligible, He. simpl.
  case_bool_decide; simpl; done.
Qed.

(** Polls on the day a job last fired leave it alone. *)
Lemma ticks_same_day (q : list DateTime) (K : DayKey) :
  forall j : Schedule.ScheduledTrigger,
    Schedule.lastFiredDayKey j = Some K ->
    (forall d, In d q -> dayKey d = K) ->
    Schedule.lastFiredDayKey (Observe.ticks q j) = Some K.
Proof.
  induction q as [|d q IH]; intros j Hl Hq; [done |].
  change (Observe.ticks (d :: q) j) with (Observe.ticks q (Observe.tick d j)).
  apply IH; [| intros x Hx; apply Hq; by right].
  unfold Observe.tick. rewrite due_eligible, Hl, (Hq d) by (by left).
  rewrite bool_decide_eq_true_2 by done. by rewrite andb_false_r.
Qed.

(** The day a job last fired is the day of a poll at or after its time. *)
Lemma ticks_last (ds : list DateTime) (K : DayKey) :
  forall j : Schedule.ScheduledTrigger,
    Schedule.lastFiredDayKey (Observe.ticks ds j) = Some K ->
    Schedule.lastFiredDayKey j = Some K
    \/ exists d, In d ds /\ dayKey d = K
                 /\ Observe.eligible (Schedule.timeOfDay j) d = true.
Proof.
  induction ds as [|d ds IH]; intros j Hl; [by left |].
  change (Observe.ticks (d :: ds) j) with (Observe.ticks ds (Observe.tick d j)) in Hl.
  destruct (IH _ Hl) as [H | (x & Hx & Hk & He)].
  - unfold Observe.tick in H. rewrite due_eligible in H.
    destruct (Observe.eligible (Schedule.timeOfDay j) d) eqn:He; simpl in H; [| by left].
    case_bool_decide; simpl in H; [by left |].
    right. exists d. simplify_eq/=. split; [by left | done].
  - right. exists x. destruct (tick_fields d j) as [_ Et]. rewrite Et in He.
    split; [by right | done].
Qed.

(** A job that has never fired is due at a poll exactly when the clock
    has reached its time and no earlier poll of the same day had. *)
Lemma due_first_tick (pre : list DateTime) (d : DateTime) (j : Schedule.ScheduledTrigger) :
  Observe.days_in_order (pre ++ [d]) ->
  Schedule.lastFiredDayKey j = None ->
  Schedule.due (Observe.ticks pre j) d = true
  <-> Observe.eligible (Schedule.timeOfDay j) d = true
      /\ forall dk, In dk pre -> dayKey dk = dayKey d ->
                    Observe.eligible (Schedule.timeOfDay j) dk = false.
Proof.
  intros Hord Hnone.
  rewrite due_eligible. destruct (ticks_fields pre j) as [_ ->].
  rewrite andb_true_iff, negb_true_iff, bool_decide_eq_false.
  split; intros [He Hl]; (split; [done |]).
  - intros dk Hin Hk.
    destruct (Observe.eligible (Schedule.timeOfDay j) dk) eqn:Hek; [| done].
    exfalso. apply Hl.
    apply in_split in Hin as (p1 & q & ->).
    change (p1 ++ dk :: q) with (p1 ++ [dk] ++ q).
    unfold Observe.ticks. rewrite !fold_left_app. fold (Observe.ticks p1 j). simpl.
    fold (Observe.ticks q (Observe.tick dk (Observe.ticks p1 j))).
    apply ticks_same_day.
    + rewrite <- Hk. apply tick_eligible. by destruct (ticks_fields p1 j) as [_ ->].
    + intros x Hx. apply in_split in Hx as (q1 & q2 & ->).
      apply day_le_antisym.
      * apply (Hord (p1 ++ dk :: q1) q2 [] x d).
        repeat (rewrite <- app_assoc; simpl); done.
      * rewrite <- Hk. apply (Hord p1 q1 (q2 ++ [d]) dk x).
        repeat (rewrite <- app_assoc; simpl); done.
  - intros Hlast.
    destruct (ticks_last pre (dayKey d) j Hlast) as [H | (x & Hx & Hk & Hex)].
    + congruence.
    + rewrite (Hl x Hx Hk) in Hex. discriminate.
Qed.
End Scheduler.

Section Started.
Context (self0 : TaskScheduler.t) (w : World) (tod : nat * nat).
Hypothesis Hstopped : TaskScheduler._is_running self0 = false.
Hypothesis Hnojobs : TaskScheduler.jobs self0 = [].
Hypothesis Htime : Schedule.parse_time (TaskScheduler.summary_time self0) = Some tod.

(** What a poll triggers after [start()] and the polls [pre]. *)
Lemma triggered_after_start (pre : list DateTime) (d : DateTime) (f : JobFunc) :
  Observe.triggered
    (TaskScheduler.run (TaskScheduler.Start :: Observe.polls pre) (self0, w)) d
  = (if Schedule.due
          (Observe.ticks pre (Schedule.mkTrigger TriggerDailySummary tod None)) d
     then [TriggerDailySummary] else [])
    ++ (if Schedule.due
             (Observe.ticks pre (Schedule.mkTrigger TriggerCleanup (0, 30) None)) d
        then [TriggerCleanup] else []).
Proof.
  change (TaskScheduler.run (TaskScheduler.Start :: Observe.polls pre) (self0, w))
    with (TaskScheduler.run (Observe.polls pre)
            (TaskScheduler.step (self0, w) TaskScheduler.Start)).
  assert (E : exists self1 w1,
             TaskScheduler.step (self0, w) TaskScheduler.Start = (self1, w1)
             /\ TaskScheduler._is_running self1 = true
             /\ TaskScheduler.alive self1 <> 0
             /\ TaskScheduler.jobs self1
                = [Schedule.mkTrigger TriggerDailySummary tod None;
                   Schedule.mkTrigger TriggerCleanup (0, 30) None]).
  { simpl. unfold TaskScheduler.start. rewrite Hstopped, Htime, Hnojobs.
    change (Schedule.parse_time "00:30") with (Some (0, 30)).
    eexists _, _. split; [reflexivity |]. done. }
  destruct E as (self1 & w1 & -> & Hr & Ha & Hj).
  pose proof (polls_spec pre self1 w1 Hr Ha) as E.
  destruct (TaskScheduler.run (Observe.polls pre) (self1, w1)) as [self2 w2].
  simpl in E. subst self2.
  destruct (poll_spec
              (TaskScheduler.set_jobs (map (Observe.ticks pre) (TaskScheduler.jobs self1)) self1)
              w2 d) as [_ ->]; [done | done |].
  rewrite Hj. simpl.
  destruct (ticks_fields pre (Schedule.mkTrigger TriggerDailySummary tod None)) as [F1 _].
  destruct (ticks_fields pre (Schedule.mkTrigger TriggerCleanup (0, 30) None)) as [F2 _].
  destruct (Schedule.due (Observe.ticks pre (Schedule.mkTrigger TriggerDailySummary tod None)) d) eqn:D1;
    destruct (Schedule.due (Observe.ticks pre (Schedule.mkTrigger TriggerCleanup (0, 30) None)) d) eqn:D2.
  - rewrite filter_cons_True, filter_cons_True, filter_nil by done. simpl. by rewrite F1, F2.
  - rewrite filter_cons_True, filter_cons_False, filter_nil by (by rewrite ?D2). simpl.
    by rewrite F1.
  - rewrite filter_cons_False, filter_cons_True, filter_nil by (by rewrite ?D1). simpl.
    by rewrite F2.
  - rewrite filter_cons_False, filter_cons_False, filter_nil by (by rewrite ?D1, ?D2). done.
Qed.

Lemma triggered_iff_due (pre : list DateTime) (d : DateTime) (f : JobFunc) :
  In f (Observe.triggered
          (TaskScheduler.run (TaskScheduler.Start :: Observe.polls pre) (self0, w)) d)
  <-> Schedule.due
        (Observe.ticks pre (Schedule.mkTrigger f (Observe.scheduled_at tod f) None)) d = true.
Proof.
  rewrite (triggered_after_start pre d f).
  destruct f; simpl;
    destruct (Schedule.due (Observe.ticks pre (Schedule.mkTrigger TriggerDailySummary tod None)) d);
    destruct (Schedule.due (Observe.ticks pre (Schedule.mkTrigger TriggerCleanup (0, 30) None)) d);
    simpl; intuition discriminate.
Qed.

End Started.

Lemma days_in_order_prefix (p1 p2 : list DateTime) (dk d : DateTime) :
  Observe.days_in_order ((p1 ++ dk :: p2) ++ [d]) -> Observe.days_in_order (p1 ++ [dk]).
Proof.
  intros H l1 l2 l3 a b E.
  apply (H l1 l2 (l3 ++ p2 ++ [d]) a b).
  assert (E' : p1 ++ dk :: p2 ++ [d] = (p1 ++ [dk]) ++ p2 ++ [d]).
  { by rewrite <- app_assoc. }
  rewrite <- app_assoc. simpl. rewrite E', E.
  repeat (rewrite <- app_assoc; simpl). done.
Qed.

(** C4: after [start()], a trigger function (daily summary at the
    configured time, cleanup at 00:30) runs at a poll exactly when the
    clock has reached its time of day and no earlier poll of the same
    calendar day had: it runs at the first poll at or after its time on
    each day and at no later poll of that day, however often the loop
    polls; it never runs twice in one poll; and each run calls the
    callback registered for it exactly once.  The clock is taken never to
    go back to an earlier day. *)
Theorem trigger_fires_once_a_day (self0 : TaskScheduler.t) (w : World)
    (tod : nat * nat) (pre : list DateTime) (d : DateTime) (f : JobFunc) :
  TaskScheduler._is_running self0 = false ->
  TaskScheduler.jobs self0 = [] ->
  Schedule.parse_time (TaskScheduler.summary_time self0) = Some tod ->
  Observe.days_in_order (pre ++ [d]) ->
  (In f (Observe.triggered
           (TaskScheduler.run (TaskScheduler.Start :: Observe.polls pre) (self0, w)) d)
   <-> Observe.eligible (Observe.scheduled_at tod f) d = true
       /\ forall dk, In dk pre -> dayKey dk = dayKey d ->
                     Observe.eligible (Observe.scheduled_at tod f) dk = false)
  /\ NoDup (Observe.triggered
              (TaskScheduler.run (TaskScheduler.Start :: Observe.polls pre) (self0, w)) d)
  /\ (forall p1 dk p2,
        pre = p1 ++ dk :: p2 ->
        In f (Observe.triggered
                (TaskScheduler.run (TaskScheduler.Start :: Observe.polls p1) (self0, w)) dk) ->
        In f (Observe.triggered
                (TaskScheduler.run (TaskScheduler.Start :: Observe.polls pre) (self0, w)) d) ->
        dayKey dk <> dayKey d)
  /\ (forall (self : TaskScheduler.t) (w' : World),
        Observe.invoked (trace (TaskScheduler.fire self f w'))
        = Observe.invoked (trace w')
          ++ match TaskScheduler._callbacks self !! Observe.callback_key f with
             | Some c => [callable_name c]
             | None => []
             end).
Proof.
  intros Hs Hj Ht Hord.
  assert (Hiff : forall p x,
             Observe.days_in_order (p ++ [x]) ->
             In f (Observe.triggered
                     (TaskScheduler.run (TaskScheduler.Start :: Observe.polls p) (self0, w)) x)
             <-> Observe.eligible (Observe.scheduled_at tod f) x = true
                 /\ forall dk, In dk p -> dayKey dk = dayKey x ->
                               Observe.eligible (Observe.scheduled_at tod f) dk = false).
  { intros p x Hp. rewrite (triggered_iff_due self0 w tod Hs Hj Ht p x f).
    by rewrite (due_first_tick p x _ Hp). }
  split; [by apply Hiff |]. split; [| split].
  - rewrite (triggered_after_start self0 w tod Hs Hj Ht pre d f).
    destruct (Schedule.due _ d), (Schedule.due _ d); simpl;
      by apply (bool_decide_unpack _).
  - intros p1 dk p2 -> H1 H2 Hk.
    apply Hiff in H1; [| by eapply days_in_order_prefix].
    apply Hiff in H2; [| done].
    destruct H1 as [H1 _]. destruct H2 as [_ H2].
    assert (Hin : In dk (p1 ++ dk :: p2)) by (apply in_or_app; right; by left).
    pose proof (H2 dk Hin Hk) as Hf. congruence.
  - intros self w'. destruct f; simpl;
      unfold TaskScheduler._trigger_daily_summary, TaskScheduler._trigger_cleanup, call;
      repeat case_match; simplify_eq/=;
      rewrite ?invoked_snoc, ?(right_id_L [] (++)); done.
Qed.

Lemma trigger_fires_once_a_day_witness :
  TaskScheduler._is_running Examples.scheduler8 = false
  /\ Observe.days_in_order ([Examples.at_time 14 7 59 59] ++ [Examples.at_time 14 8 0 0])
  /\ (In TriggerDailySummary
        (Observe.triggered
           (TaskScheduler.run
              (TaskScheduler.Start :: Observe.polls [Examples.at_time 14 7 59 59])
              (Examples.scheduler8, Examples.world0))
           (Examples.at_time 14 8 0 0))
      <-> Observe.eligible (Observe.scheduled_at (8, 0) TriggerDailySummary)
            (Examples.at_time 14 8 0 0) = true
          /\ forall dk, In dk [Examples.at_time 14 7 59 59] ->
                        dayKey dk = dayKey (Examples.at_time 14 8 0 0) ->
                        Observe.eligible (Observe.scheduled_at (8, 0) TriggerDailySummary) dk
                        = false).
Proof.
  assert (Hord : Observe.days_in_order
                   ([Examples.at_time 14 7 59 59] ++ [Examples.at_time 14 8 0 0])).
  { intros l1 l2 l3 a b E.
    destruct l1 as [|x1 [|x2 [|x3 l1]]]; simpl in E;
      try (destruct l2 as [|y1 [|y2 l2]]; simpl in E); simplify_eq/=.
    by left. }
  split; [reflexivity |]. split; [exact Hord |].
  apply (trigger_fires_once_a_day Examples.scheduler8 Examples.world0 (8, 0)
           [Examples.at_time 14 7 59 59] (Examples.at_time 14 8 0 0) TriggerDailySummary).
  - reflexivity.
  - reflexivity.
  - reflexivity.
  - exact Hord.
Defined.

(** Two days of polls for a summary at 08:00: the cleanup of 00:30 runs
    at the first poll of each day, the summary at the first poll from
    08:00 on, and neither runs again that day. *)
Example two_days_of_polls :
  let st0 := TaskScheduler.step (Examples.scheduler8, Examples.world0) TaskScheduler.Start in
  let polled (pre : list DateTime) (d : DateTime) :=
    Observe.triggered (TaskScheduler.run (Observe.polls pre) st0) d in
  let d1 := Examples.at_time 14 7 59 59 in
  let d2 := Examples.at_time 14 8 0 0 in
  let d3 := Examples.at_time 14 8 0 1 in
  let d4 := Examples.at_time 14 23 59 59 in
  let d5 := Examples.at_time 15 0 0 0 in
  let d6 := Examples.at_time 15 8 0 30 in
  polled [] d1 = [TriggerCleanup]
  /\ polled [d1] d2 = [TriggerDailySummary]
  /\ polled [d1; d2] d3 = []
  /\ polled [d1; d2; d3] d4 = []
  /\ polled [d1; d2; d3; d4] d5 = []
  /\ polled [d1; d2; d3; d4; d5] d6 = [TriggerDailySummary; TriggerCleanup].
Proof. vm_compute. repeat split; reflexivity. Qed.

(** ** Start and stop are idempotent *)

Section Idempotent.
Import Lifecycle.










End Idempotent.

Section OneLoop.
Import Lifecycle.








End OneLoop.



(** A transcriber and a screen capture started twice have one loop
    thread each, spawned once. *)
Example started_twice :
  let st := Worker.run Examples.env_ok [Worker.Start; Worker.Start]
              (Worker_init Audio "data/transcriptions" "whisper" "", Examples.world0) in
  let sc := ScreenCapture.run Examples.env_ok [ScreenCapture.Start; ScreenCapture.Start]
              (ScreenCapture.init 30 "data/temp_screenshots" true 0 "jpg" 70 [] [],
               Examples.world0) in
  alive st.1 = 1 /\ trace st.2 = [Spawn "_worker"]
  /\ ScreenCapture.alive sc.1 = 1 /\ trace sc.2 = [Spawn "_capture_loop"].
Proof. vm_compute. repeat split; reflexivity. Qed.

(** * Further properties

    What the code does besides: queues and files of the workers, what
    the producers capture and hand over, the power monitor and the
    scheduler at their edges, configuration keys and file names, the
    daily summary, and the orchestrator when it sets up, pauses and
    stops. *)

(** ** Analysis workers: queue and files *)

Section WorkerQueue.
Context (env : Env).
Import WorkerRun.

Lemma queue_start (self : Worker) (w : World) : _queue (Worker.start self w).1 = _queue self.
Proof. unfold Worker.start. by destruct (_is_running self). Qed.

Lemma step_queue (s : Worker.Step) (self : Worker) (w : World) :
  dequeued (self, w) s ++ _queue (Worker.step env (self, w) s).1
  = _queue self ++ match s with Worker.Add item => [item] | _ => [] end.
Proof.
  destruct s as [| |item|]; simpl.
  - by rewrite queue_start, (right_id_L [] (++)).
  - by rewrite (right_id_L [] (++)).
  - done.
  - rewrite (right_id_L [] (++)).
    destruct (alive self); simpl; [done |].
    unfold _worker, queue_empty.
    destruct (_queue self) as [|item q] eqn:Hq; simpl.
    + destruct (_is_running self); simpl; by rewrite Hq.
    + by rewrite orb_true_r.
Qed.

Lemma history_queue (steps : list Worker.Step) :
  forall st : Worker * World,
    history env steps st ++ _queue (Worker.run env steps st).1
    = _queue st.1 ++ added steps.
Proof.
  induction steps as [|s steps IH]; intros [self w].
  - simpl. by rewrite (right_id_L [] (++)).
  - rewrite run_cons, history_cons, <- (assoc_L (++)), IH.
    rewrite (assoc_L (++)). 
    destruct (Worker.step env (self, w) s) as [self' w'] eqn:E.
    pose proof (step_queue s self w) as H. rewrite E in H. simpl in H |- *.
    rewrite H. rewrite <- (assoc_L (++)). f_equal. by destruct s.
Qed.

End WorkerQueue.

(** X1: a worker's queue is first in, first out and loses nothing.
    Along any run (calls of [start], [stop] and [add_to_queue] and turns
    of the loop, in any order) the items the loop has taken so far,
    followed by those still queued, are the items queued at the
    beginning followed by the items added, in that order;
    [get_queue_size] counts what is left. *)
Theorem queue_is_fifo (env : Env) (steps : list Worker.Step) (self : Worker) (w : World) :
  WorkerRun.history env steps (self, w) ++ _queue (Worker.run env steps (self, w)).1
  = _queue self ++ WorkerRun.added steps
  /\ length (WorkerRun.history env steps (self, w))
     + Worker.get_queue_size (Worker.run env steps (self, w)).1
     = Worker.get_queue_size self + length (WorkerRun.added steps).
Proof.
  pose proof (history_queue env steps (self, w)) as H. split; [exact H |].
  unfold Worker.get_queue_size. rewrite <- !length_app. by rewrite H.
Qed.

Section WorkerFiles.
Context (env : Env).
Import WorkerRun.

Ltac unfold_handle :=
  unfold handle, attempt, text_of,
    AudioTranscriber.handle, AudioTranscriber._save_transcription,
    ScreenAnalyzer.handle, ScreenAnalyzer._save_analysis,
    ScreenAnalyzer._delete_screenshot, KeyboardAnalyzer.handle,
    KeyboardAnalyzer._save_analysis, append_file, read_text;
  rewrite ?aggregate_file_emit, ?aggregate_file_logger.

(** Handling an item changes two files at most: the aggregate file of the
    day and, for a screenshot, the item itself. *)
Lemma handle_frame (self : Worker) (item : Path) (w : World) (f : string) :
  f <> aggregate_file self w ->
  (kind self = Screen -> f <> path_str item) ->
  fs (handle env self item w) !! f = fs w !! f.
Proof.
  intros Hf Hitem. unfold_handle.
  destruct (kind self) eqn:K;
    repeat (case_match; simplify_eq/=;
            rewrite ?aggregate_file_emit, ?aggregate_file_logger in *;
            try done);
    rewrite ?lookup_delete_ne by (apply not_eq_sym; by apply Hitem);
    rewrite ?lookup_insert_ne by (by apply not_eq_sym).
  all: try done.
Qed.

Lemma step_fields (s : Worker.Step) (self : Worker) (w : World) :
  kind (Worker.step env (self, w) s).1 = kind self
  /\ output_dir (Worker.step env (self, w) s).1 = output_dir self
  /\ now (Worker.step env (self, w) s).2 = now w.
Proof.
  destruct s as [| |item|]; simpl.
  - unfold Worker.start, started_line.
    destruct (_is_running self), (kind self) eqn:K; simpl; by rewrite ?K.
  - unfold stopped_line.
    destruct (_worker_thread self), (kind self) eqn:K; simpl; by rewrite ?K.
  - destruct (kind self) eqn:K; simpl; by rewrite ?K.
  - destruct (alive self); [done |]. unfold _worker.
    destruct (_is_running self || negb (queue_empty self)); [| done].
    destruct (_queue self); [done |]. simpl. by rewrite now_handle.
Qed.

Lemma step_frame (s : Worker.Step) (self : Worker) (w : World) (f : string) :
  f <> aggregate_file self w ->
  (kind self = Screen -> forall item, In item (_queue self) -> f <> path_str item) ->
  fs (Worker.step env (self, w) s).2 !! f = fs w !! f.
Proof.
  intros Hf Hq. destruct s as [| |item|]; simpl.
  - unfold Worker.start, started_line. destruct (_is_running self), (kind self); done.
  - unfold stopped_line. destruct (_worker_thread self), (kind self); done.
  - by destruct (kind self).
  - destruct (alive self); [done |]. unfold _worker.
    destruct (_is_running self || negb (queue_empty self)); [| done].
    destruct (_queue self) as [|item q] eqn:E; [done |]. simpl.
    apply handle_frame; [done |]. intros K. apply Hq; [done | by left].
Qed.

Lemma run_frame (steps : list Worker.Step) :
  forall (self : Worker) (w : World) (f : string),
    f <> aggregate_file self w ->
    (kind self = Screen ->
     forall item, In item (_queue self ++ added steps) -> f <> path_str item) ->
    fs (Worker.run env steps (self, w)).2 !! f = fs w !! f.
Proof.
  induction steps as [|s steps IH]; intros self w f Hf Hq; [done |].
  rewrite run_cons.
  destruct (Worker.step env (self, w) s) as [self' w'] eqn:E.
  pose proof (step_fields s self w) as (K & D & N). rewrite E in K, D, N. simpl in K, D, N.
  pose proof (step_queue env s self w) as Q. rewrite E in Q. simpl in Q.
  rewrite IH.
  - pose proof (step_frame s self w f Hf) as F. rewrite E in F. simpl in F. apply F.
    intros HK item Hin. apply Hq; [done |]. apply in_or_app. by left.
  - unfold aggregate_file, get_today_folder in *. by rewrite K, D, N.
  - rewrite K. intros HK item Hin. apply Hq; [done |].
    apply in_app_or in Hin as [Hin | Hin].
    + assert (Hin' : In item (dequeued (self, w) s ++ _queue self')).
      { apply in_or_app. by right. }
      rewrite Q in Hin'. apply in_app_or in Hin' as [H1 | H1].
      * apply in_or_app. by left.
      * apply in_or_app. right. destruct s; simpl in H1; try done.
        destruct H1 as [<- | []]. by left.
    + apply in_or_app. right. destruct s; simpl; auto.
Qed.

End WorkerFiles.

(** X2: a run of a worker changes its own files only.  Whatever the
    steps of the run, a file other than the aggregate file of the day
    and, for the screen analyzer, other than the screenshots queued or
    added, holds after the run what it held before. *)
Theorem worker_touches_only_its_files (env : Env) (steps : list Worker.Step)
    (self : Worker) (w : World) (f : string) :
  f <> aggregate_file self w ->
  (kind self = Screen ->
   forall item, In item (_queue self ++ WorkerRun.added steps) -> f <> path_str item) ->
  fs (Worker.run env steps (self, w)).2 !! f = fs w !! f.
Proof. apply run_frame. Qed.

Lemma worker_touches_only_its_files_witness :
  fs (Worker.run Examples.env_ok [Worker.Turn; Worker.Add Examples.b_wav; Worker.Turn]
        (Examples.transcriber, Examples.world0)).2 !! path_str Examples.a_wav
  = fs Examples.world0 !! path_str Examples.a_wav.
Proof.
  apply (worker_touches_only_its_files Examples.env_ok
           [Worker.Turn; Worker.Add Examples.b_wav; Worker.Turn]
           Examples.transcriber Examples.world0 (path_str Examples.a_wav)).
  - vm_compute. discriminate.
  - intros K. vm_compute in K. discriminate K.
Defined.

Section ScreenshotFate.
Context (env : Env).

Lemma screen_analysis_raises (self : Worker) (item : Path) (w : World) (e : string) :
  analyze_image env (logger INFO ("Analisando: " +:+ name item) w) item
    (prompt self) (model self) = Raise e ->
  ScreenAnalyzer.handle env self item w
  = logger ERROR ("Erro na análise: " +:+ e)
      (emit (ApiAnalyzeImage item) (logger INFO ("Analisando: " +:+ name item) w)).
Proof. unfold ScreenAnalyzer.handle. by intros ->. Qed.

End ScreenshotFate.

(** X3: what becomes of a screenshot that the screen analyzer
    handles, [unlink] on it not failing.  If the analysis call raises, no
    file changes and the screenshot stays.  If it returns, the screenshot
    is deleted (kept when screenshots are backed up), and this also when
    the analysis could not be written: then, backup being off, the
    screenshot is gone, its analysis is in no file and the log has the
    one error of [_save_analysis]. *)
Theorem screenshot_is_deleted_once_analysed (env : Env) (self : Worker) (item : Path)
    (w : World) (img : string) :
  kind self = Screen ->
  fs w !! path_str item = Some img ->
  path_str item <> aggregate_file self w ->
  (forall w', io_error env w' (path_str item) = None) ->
  (forall e,
      analyze_image env (logger INFO ("Analisando: " +:+ name item) w) item
        (prompt self) (model self) = Raise e ->
      fs (handle env self item w) = fs w)
  /\ (forall analysis,
        analyze_image env (logger INFO ("Analisando: " +:+ name item) w) item
          (prompt self) (model self) = Ret analysis ->
        fs (handle env self item w) !! path_str item
        = (if backup_screenshots env then Some img else None)
        /\ (forall e,
              io_error env
                (emit (ApiAnalyzeImage item) (logger INFO ("Analisando: " +:+ name item) w))
                (aggregate_file self w) = Some e ->
              fs (handle env self item w)
              = (if backup_screenshots env then fs w else delete (path_str item) (fs w))
              /\ WorkerRun.errors (log (handle env self item w))
                 = WorkerRun.errors (log w) ++ ["Erro ao salvar análise: " +:+ e])).
Proof.
  intros K Himg Hne Hio. unfold handle. rewrite K. split.
  - intros e He. by rewrite (screen_analysis_raises env self item w e He).
  - intros analysis Ha.
    unfold ScreenAnalyzer.handle, ScreenAnalyzer._save_analysis,
      ScreenAnalyzer._delete_screenshot, append_file.
    rewrite Ha, ?aggregate_file_emit, ?aggregate_file_logger.
    split.
    + destruct (backup_screenshots env);
        repeat (case_match; simplify_eq/=; rewrite ?Hio in *; simplify_eq/=);
        rewrite ?lookup_delete_eq, ?lookup_insert_ne by (by apply not_eq_sym);
        repeat match goal with
               | H : context [<[_:=_]> _ !! _] |- _ =>
                   rewrite lookup_insert_ne in H by (by apply not_eq_sym)
               end;
        try done; congruence.
    + intros e He. simpl in He. rewrite He.
      destruct (backup_screenshots env); simpl.
      * split; [done |]. rewrite !errors_snoc. simpl.
        by rewrite (right_id_L [] (++)).
      * rewrite Hio, Himg. simpl. split; [done |].
        rewrite !errors_snoc. simpl. by rewrite !(right_id_L [] (++)).
Qed.

Lemma screenshot_is_deleted_once_analysed_witness :
  fs (handle Examples.env_ok Examples.screen_analyzer Examples.shot Examples.world_shot)
  !! path_str Examples.shot = None.
Proof.
  destruct (screenshot_is_deleted_once_analysed Examples.env_ok Examples.screen_analyzer
              Examples.shot Examples.world_shot "pixels") as [_ H].
  - reflexivity.
  - vm_compute. reflexivity.
  - vm_compute. discriminate.
  - intros w'. reflexivity.
  - destruct (H "view of 07h59m30s") as [E _]; [reflexivity | exact E].
Defined.

(** ** Substrings *)

Lemma prefix_spec (a b : string) :
  String.prefix a b = true <-> exists c, b = a +:+ c.
Proof.
  revert b. induction a as [|x a IH]; intros b.
  - split; [intros _; exists b; reflexivity | by destruct b].
  - destruct b as [|y b]; [split; [done | intros [c Hc]; discriminate Hc] |].
    simpl. destruct (Ascii.ascii_dec x y) as [-> | Hxy].
    + rewrite IH. split; intros [c Hc]; exists c.
      * change (String y b = String y (a +:+ c)). by rewrite Hc.
      * change (String y b = String y (a +:+ c)) in Hc. by injection Hc.
    + split; [done |]. intros [c Hc].
      change (String y b = String x (a +:+ c)) in Hc. injection Hc as E _. congruence.
Qed.

(** [needle in hay] holds exactly when [hay] is some text, [needle],
    some text. *)
Lemma contains_spec (needle hay : string) :
  contains needle hay = true <-> exists pre post, hay = pre +:+ needle +:+ post.
Proof.
  induction hay as [|y hay IH].
  - change (contains needle "") with (String.prefix needle "" || false).
    rewrite orb_false_r, prefix_spec. split.
    + intros [c Hc]. by exists "", c.
    + intros (pre & post & H). destruct pre; [by exists post |]. discriminate H.
  - change (contains needle (String y hay))
      with (String.prefix needle (String y hay) || contains needle hay).
    rewrite orb_true_iff, prefix_spec, IH. split.
    + intros [[c Hc] | (pre & post & H)].
      * by exists "", c.
      * exists (String y pre), post. rewrite H. reflexivity.
    + intros (pre & post & H). destruct pre as [|x pre].
      * left. by exists post.
      * right. exists pre, post.
        change (String y hay = String x (pre +:+ needle +:+ post)) in H.
        by injection H.
Qed.

Lemma contains_empty (hay : string) : contains "" hay = true.
Proof. apply contains_spec. by exists "", hay. Qed.

Section Exclusions.
Context (env : Env).

(** An excluded name that occurs in the title of the active window. *)
Lemma find_some_spec {A : Type} (f : A -> bool) (l : list A) :
  (exists x, In x l /\ f x = true) <-> exists y, List.find f l = Some y.
Proof.
  split.
  - intros (x & Hin & Hx). destruct (List.find f l) as [y|] eqn:E; [by exists y |].
    pose proof (find_none f l E x Hin). congruence.
  - intros [y Hy]. apply find_some in Hy. by exists y.
Qed.

Lemma should_skip_spec (self : ScreenCapture.t) (w : World) :
  Observe.hidden env self w
  <-> exists line, ScreenCapture._should_skip_capture env self w = Some line.
Proof.
  unfold Observe.hidden, ScreenCapture._should_skip_capture. split.
  - intros (x & pre & post & Hin & Ht).
    assert (Hc : contains (lower x) (lower (active_window_title env w)) = true).
    { apply contains_spec. by exists pre, post. }
    destruct (List.find _ (ScreenCapture.excluded_apps self)) as [app|] eqn:Ea; [eauto |].
    destruct (List.find _ (ScreenCapture.excluded_windows self)) as [win|] eqn:Ew; [eauto |].
    apply in_app_or in Hin as [Hin | Hin].
    + pose proof (find_none _ _ Ea x Hin) as F. simpl in F. congruence.
    + pose proof (find_none _ _ Ew x Hin) as F. simpl in F. congruence.
  - intros [line H].
    destruct (List.find _ (ScreenCapture.excluded_apps self)) as [app|] eqn:Ea.
    + apply find_some in Ea as [Hin Hc]. apply contains_spec in Hc as (pre & post & Hc).
      exists app, pre, post. split; [apply in_or_app; by left | done].
    + destruct (List.find _ (ScreenCapture.excluded_windows self)) as [win|] eqn:Ew; [| done].
      apply find_some in Ew as [Hin Hc]. apply contains_spec in Hc as (pre & post & Hc).
      exists win, pre, post. split; [apply in_or_app; by right | done].
Qed.

End Exclusions.

Section CaptureTick.
Context (env : Env).

(** A turn of a paused loop, or with an excluded window in front, only
    sleeps, after at most one debug line. *)
Lemma tick_no_capture (self : ScreenCapture.t) (w : World) :
  ScreenCapture.is_running self = true -> ScreenCapture.alive self <> 0 ->
  ScreenCapture.is_paused self = true \/ Observe.hidden env self w ->
  exists lines,
    ScreenCapture.step env (self, w) ScreenCapture.Tick
    = (self, mkWorld (fs w) (log w ++ lines)
               (trace w ++ [Sleep (ScreenCapture.interval self)]) (now w)).
Proof.
  intros Hr Ha Hskip. simpl. destruct (ScreenCapture.alive self); [done |].
  unfold ScreenCapture._capture_loop. rewrite Hr.
  destruct (ScreenCapture.is_paused self) eqn:Hp.
  - exists []. by rewrite (right_id_L [] (++)).
  - destruct Hskip as [? | Hh]; [done |].
    apply should_skip_spec in Hh as [line ->]. by exists [(DEBUG, line)].
Qed.

Lemma tick_grabs (self : ScreenCapture.t) (w : World) :
  ScreenCapture.is_running self = true -> ScreenCapture.alive self <> 0 ->
  ScreenCapture.is_paused self = false -> ~ Observe.hidden env self w ->
  Observe.grabs (trace (ScreenCapture.step env (self, w) ScreenCapture.Tick).2)
  = Observe.grabs (trace w) + 1.
Proof.
  intros Hr Ha Hp Hh. simpl. destruct (ScreenCapture.alive self); [done |].
  unfold ScreenCapture._capture_loop. rewrite Hr, Hp.
  destruct (ScreenCapture._should_skip_capture env self w) as [line|] eqn:E.
  { destruct Hh. apply should_skip_spec. by exists line. }
  destruct (grab env w) as [img|e]; rewrite ?save_screenshot_file;
    repeat (case_match; simplify_eq/=); rewrite ?grabs_snoc; simpl;
    rewrite ?grabs_snoc; simpl; rewrite ?grabs_snoc; simpl; lia.
Qed.

Lemma ticks_no_capture (n : nat) (self : ScreenCapture.t) :
  ScreenCapture.is_running self = true -> ScreenCapture.alive self <> 0 ->
  (forall w, ScreenCapture.is_paused self = true \/ Observe.hidden env self w) ->
  forall w : World,
    exists lines,
      ScreenCapture.run env (replicate n ScreenCapture.Tick) (self, w)
      = (self, mkWorld (fs w) (log w ++ lines)
                 (trace w ++ replicate n (Sleep (ScreenCapture.interval self))) (now w)).
Proof.
  intros Hr Ha Hskip. induction n as [|n IH]; intros w.
  - exists []. simpl. rewrite !(right_id_L [] (++)). by destruct w.
  - change (replicate (S n) ScreenCapture.Tick)
      with (ScreenCapture.Tick :: replicate n ScreenCapture.Tick).
    rewrite capture_run_cons.
    destruct (tick_no_capture self w Hr Ha (Hskip w)) as [l1 ->].
    destruct (IH (mkWorld (fs w) (log w ++ l1)
                    (trace w ++ [Sleep (ScreenCapture.interval self)]) (now w)))
      as [l2 ->].
    exists (l1 ++ l2). simpl. by rewrite <- !(assoc_L (++)).
Qed.

End CaptureTick.

(** X4: one turn of the loop of a running capture that is not
    paused, the title of the active window and the excluded names being
    ASCII text.  When the lower-cased title contains the lower-cased
    name of an excluded application or window, the turn leaves the
    capture and the files as they are and only sleeps for the interval;
    when it contains none, the turn grabs the screen once. *)
Theorem excluded_window_is_not_captured (env : Env) (self : ScreenCapture.t) (w : World) :
  ScreenCapture.is_running self = true -> ScreenCapture.is_paused self = false ->
  ScreenCapture.alive self <> 0 ->
  Observe.ascii_names env self w ->
  (Observe.hidden env self w ->
   (ScreenCapture.step env (self, w) ScreenCapture.Tick).1 = self
   /\ fs (ScreenCapture.step env (self, w) ScreenCapture.Tick).2 = fs w
   /\ trace (ScreenCapture.step env (self, w) ScreenCapture.Tick).2
      = trace w ++ [Sleep (ScreenCapture.interval self)])
  /\ (~ Observe.hidden env self w ->
      Observe.grabs (trace (ScreenCapture.step env (self, w) ScreenCapture.Tick).2)
      = Observe.grabs (trace w) + 1).
Proof.
  intros Hr Hp Ha _. split.
  - intros Hh. destruct (tick_no_capture env self w Hr Ha (or_intror Hh)) as [lines ->]. done.
  - by apply tick_grabs.
Qed.

Lemma excluded_window_is_not_captured_witness :
  fs (ScreenCapture.step Examples.env_keepass (Examples.capture_running, Examples.world0)
        ScreenCapture.Tick).2 = fs Examples.world0.
Proof.
  destruct (excluded_window_is_not_captured Examples.env_keepass Examples.capture_running
              Examples.world0) as [H _].
  - reflexivity.
  - reflexivity.
  - vm_compute. discriminate.
  - split; [reflexivity |]. repeat constructor.
  - apply H. exists "keepass", "", " - passwords.kdbx". split; [by left | reflexivity].
Defined.

(** X5: an empty string among the excluded applications or windows
    switches the capture off.  The empty string occurs in every title,
    so each of [n] turns of a running capture skips: no screen is
    grabbed, no file is written, the loop sleeps [n] times. *)
Theorem empty_exclusion_blocks_every_capture (env : Env) (self : ScreenCapture.t)
    (w : World) (n : nat) :
  ScreenCapture.is_running self = true -> ScreenCapture.alive self <> 0 ->
  In "" (ScreenCapture.excluded_apps self ++ ScreenCapture.excluded_windows self) ->
  fs (ScreenCapture.run env (replicate n ScreenCapture.Tick) (self, w)).2 = fs w
  /\ trace (ScreenCapture.run env (replicate n ScreenCapture.Tick) (self, w)).2
     = trace w ++ replicate n (Sleep (ScreenCapture.interval self))
  /\ Observe.grabs (trace (ScreenCapture.run env (replicate n ScreenCapture.Tick) (self, w)).2)
     = Observe.grabs (trace w).
Proof.
  intros Hr Ha Hin.
  destruct (ticks_no_capture env n self Hr Ha) with (w := w) as [lines ->].
  - intros w'. right. exists "", "", (lower (active_window_title env w')). by split.
  - simpl. by rewrite grabs_sleeps.
Qed.

Lemma empty_exclusion_blocks_every_capture_witness :
  Observe.grabs
    (trace (ScreenCapture.run Examples.env_ok (replicate 3 ScreenCapture.Tick)
              (Examples.capture_blank_entry, Examples.world0)).2)
  = Observe.grabs (trace Examples.world0).
Proof.
  apply (empty_exclusion_blocks_every_capture Examples.env_ok Examples.capture_blank_entry
           Examples.world0 3).
  - reflexivity.
  - vm_compute. discriminate.
  - by left.
Defined.

(** X6: a callback of the capture loop is only handed a screenshot
    that was saved.  If a turn of the loop hands a path to a callback,
    then the callback is [on_capture_ready], the path is the file of the
    day named after the time, the capture was running, not paused and
    without an excluded window in front, and the file holds the image
    that was grabbed. *)
Theorem callback_gets_a_saved_screenshot (env : Env) (self : ScreenCapture.t) (w : World)
    (c : string) (p : Path) :
  In (Notify c p) (trace (ScreenCapture.step env (self, w) ScreenCapture.Tick).2) ->
  ~ In (Notify c p) (trace w) ->
  c = "on_capture_ready" /\ p = Observe.screenshot_file self w
  /\ ScreenCapture.is_running self = true /\ ScreenCapture.is_paused self = false
  /\ ~ Observe.hidden env self w
  /\ exists img,
       grab env w = Ret img
       /\ fs (ScreenCapture.step env (self, w) ScreenCapture.Tick).2 !! path_str p = Some img.
Proof.
  intros Hin Hold. simpl in Hin |- *.
  destruct (ScreenCapture.alive self); [done |].
  unfold ScreenCapture._capture_loop in *.
  destruct (ScreenCapture.is_running self); [| done].
  destruct (ScreenCapture.is_paused self).
  { simpl in Hin. apply in_app_or in Hin as [? | [? | []]]; done. }
  destruct (ScreenCapture._should_skip_capture env self w) as [line|] eqn:E.
  { simpl in Hin. apply in_app_or in Hin as [? | [? | []]]; done. }
  assert (Hh : ~ Observe.hidden env self w).
  { intros Hh. apply should_skip_spec in Hh as [line Hl]. congruence. }
  destruct (grab env w) as [img|e].
  2:{ simpl in Hin. apply in_app_or in Hin as [Hin | [? | []]]; [| done].
      apply in_app_or in Hin as [? | [? | []]]; done. }
  rewrite save_screenshot_file in *.
  change (Observe.screenshot_file self (emit Grab w))
    with (Observe.screenshot_file self w) in *.
  destruct (io_error env (emit Grab w) (path_str (Observe.screenshot_file self w))).
  { simpl in Hin. apply in_app_or in Hin as [Hin | [? | []]]; [| done].
      apply in_app_or in Hin as [? | [? | []]]; done. }
  destruct (ScreenCapture.on_capture_ready self); simpl in Hin |- *.
  - apply in_app_or in Hin as [Hin | [? | []]]; [| done].
    apply in_app_or in Hin as [Hin | [Hin | []]].
    + apply in_app_or in Hin as [? | [? | []]]; done.
    + injection Hin as <- <-. repeat split; try done.
      exists img. split; [done |]. apply lookup_insert_eq.
  - apply in_app_or in Hin as [Hin | [? | []]]; [| done].
    apply in_app_or in Hin as [? | [? | []]]; done.
Qed.

Lemma callback_gets_a_saved_screenshot_witness :
  mkPath "data/temp_screenshots/2025-03-14" "08h00m00s" ".jpg"
  = Observe.screenshot_file Examples.capture_running Examples.world0.
Proof.
  apply (callback_gets_a_saved_screenshot Examples.env_ok Examples.capture_running
           Examples.world0 "on_capture_ready"
           (mkPath "data/temp_screenshots/2025-03-14" "08h00m00s" ".jpg")).
  - vm_compute. right. left. reflexivity.
  - intros [].
Defined.

(** X7: [capture_once] looks at neither [is_paused] nor the
    exclusions.  For a running capture that is paused or has an excluded
    window in front, a turn of the loop writes no file, while
    [capture_once] in the same state saves the screenshot, returns its
    path and calls no callback. *)
Theorem capture_once_ignores_pause_and_exclusions (env : Env) (self : ScreenCapture.t)
    (w : World) (img : string) :
  ScreenCapture.is_running self = true -> ScreenCapture.alive self <> 0 ->
  ScreenCapture.is_paused self = true \/ Observe.hidden env self w ->
  grab env w = Ret img ->
  io_error env (emit Grab w) (path_str (Observe.screenshot_file self w)) = None ->
  fs (ScreenCapture.step env (self, w) ScreenCapture.Tick).2 = fs w
  /\ (ScreenCapture.capture_once env self w).1 = Ret (Some (Observe.screenshot_file self w))
  /\ fs (ScreenCapture.capture_once env self w).2
     = <[path_str (Observe.screenshot_file self w) := img]> (fs w)
  /\ Observe.notifications (trace (ScreenCapture.capture_once env self w).2)
     = Observe.notifications (trace w).
Proof.
  intros Hr Ha Hskip Hg Hio. split.
  - by destruct (tick_no_capture env self w Hr Ha Hskip) as [lines ->].
  - unfold ScreenCapture.capture_once. rewrite Hg, save_screenshot_file.
    change (Observe.screenshot_file self (emit Grab w))
      with (Observe.screenshot_file self w).
    rewrite Hio. simpl.
    repeat split. rewrite notifications_snoc. simpl. by rewrite (right_id_L [] (++)).
Qed.

Lemma capture_once_ignores_pause_and_exclusions_witness :
  fs (ScreenCapture.capture_once Examples.env_keepass Examples.capture_running
        Examples.world0).2
  = <[path_str (Observe.screenshot_file Examples.capture_running Examples.world0) := "pixels"]>
      (fs Examples.world0).
Proof.
  apply (capture_once_ignores_pause_and_exclusions Examples.env_keepass
           Examples.capture_running Examples.world0 "pixels").
  - reflexivity.
  - vm_compute. discriminate.
  - right. exists "keepass", "", " - passwords.kdbx". split; [by left | reflexivity].
  - reflexivity.
  - reflexivity.
Defined.

(** ** Keyboard recorder: what is typed is what is written *)

Lemma concat_cons (x : string) (l : list string) :
  String.concat "" (x :: l) = x +:+ String.concat "" l.
Proof. destruct l; simpl; [by rewrite append_nil_r | done]. Qed.

Lemma concat_app (l1 l2 : list string) :
  String.concat "" (l1 ++ l2) = String.concat "" l1 +:+ String.concat "" l2.
Proof.
  induction l1 as [|x l1 IH]; [done |].
  change ((x :: l1) ++ l2) with (x :: (l1 ++ l2)).
  by rewrite !concat_cons, IH, append_assoc.
Qed.

Lemma list_ascii_app (a b : string) :
  String.list_ascii_of_string (a +:+ b)
  = String.list_ascii_of_string a ++ String.list_ascii_of_string b.
Proof.
  induction a as [|c a IH]; [done |].
  change (c :: String.list_ascii_of_string (a +:+ b)
          = c :: (String.list_ascii_of_string a ++ String.list_ascii_of_string b)).
  by rewrite IH.
Qed.

(** Every entry of a keylog has dashes in its header: the text of a
    keylog that was flushed to is not blank. *)
Lemma keylog_not_blank (old text content : string) (w : World) :
  text_of_bytes (old +:+ KeyboardRecorder.header w +:+ text) = Ret content ->
  truthy (strip content) = true.
Proof.
  unfold text_of_bytes. destruct (decode _); [| done]. intros [= <-].
  apply (not_blank (Ascii.ascii_of_nat 45)); [by vm_compute | by vm_compute |].
  apply universal_newlines_keeps; [by vm_compute |].
  rewrite list_ascii_app. apply in_or_app. right.
  unfold KeyboardRecorder.header.
  rewrite !list_ascii_app. apply in_or_app. left.
  apply in_or_app. right. apply in_or_app. left. by left.
Qed.

Section Typing.
Context (env : Env).

Lemma presses_buffer (keys : list Key) :
  forall (self : KeyboardRecorder.t) (w : World),
    KeyboardRecorder.listener self = true -> KeyboardRecorder.paused self = false ->
    exists b,
      KeyboardRecorder.run env (Observe.presses keys) (self, w)
      = (KeyboardRecorder.set_buffer (KeyboardRecorder.current_buffer self ++ b) self, w)
      /\ String.concat "" b = Observe.typed keys.
Proof.
  induction keys as [|key keys IH]; intros self w Hl Hp.
  - exists []. rewrite (right_id_L [] (++)). by destruct self.
  - change (Observe.presses (key :: keys))
      with (KeyboardRecorder.Press key :: Observe.presses keys).
    rewrite recorder_run_cons.
    destruct (press_buffer env key self w Hl Hp) as (b1 & -> & E1).
    destruct (IH (KeyboardRecorder.set_buffer (KeyboardRecorder.current_buffer self ++ b1) self)
                w Hl Hp) as (b2 & -> & E2).
    exists (b1 ++ b2). simpl. rewrite <- (assoc_L (++)). split; [done |].
    unfold Observe.typed in *. simpl map. by rewrite concat_app, concat_cons, E1, E2.
Qed.

(** [save_buffer] is [save_buffer_with] for a callback that is only
    recorded. *)
Lemma save_buffer_with_notify (self : KeyboardRecorder.t) (w : World) :
  KeyboardRecorder.save_buffer_with
    (fun log_path (_ : unit) w0 => (tt, emit (Notify "on_log_ready" log_path) w0))
    env self tt w
  = ((KeyboardRecorder.save_buffer env self w).1, tt,
     (KeyboardRecorder.save_buffer env self w).2).
Proof.
  unfold KeyboardRecorder.save_buffer_with, KeyboardRecorder.save_buffer.
  destruct (KeyboardRecorder.current_buffer self); [done |].
  destruct (append_file env _ _ w); [| done].
  by destruct (KeyboardRecorder.on_log_ready self).
Qed.

End Typing.

(** X8: the keys typed between two flushes reach the keylog, in
    order.  For a listening recorder that is not paused, the keys
    pressed and then one turn of the save loop append to the keylog of
    the day one entry: the header with the time, what was in the buffer
    followed by the text of the keys, and a newline; the buffer is empty
    afterwards and [on_log_ready], if set, is called once with the
    file.  The write is assumed not to fail. *)
Theorem typed_keys_reach_the_keylog (env : Env) (self : KeyboardRecorder.t) (w : World)
    (keys : list Key) :
  KeyboardRecorder.listener self = true -> KeyboardRecorder.paused self = false ->
  KeyboardRecorder.running self = true -> KeyboardRecorder.alive self <> 0 ->
  Observe.typed keys <> "" ->
  io_error env w (path_str (KeyboardRecorder.log_file self w)) = None ->
  fs (KeyboardRecorder.run env (Observe.presses keys ++ [KeyboardRecorder.Wake]) (self, w)).2
  = <[path_str (KeyboardRecorder.log_file self w) :=
        default "" (fs w !! path_str (KeyboardRecorder.log_file self w))
        +:+ KeyboardRecorder.header w
        +:+ (String.concat "" (KeyboardRecorder.current_buffer self) +:+ Observe.typed keys)
        +:+ nl]> (fs w)
  /\ KeyboardRecorder.current_buffer
       (KeyboardRecorder.run env (Observe.presses keys ++ [KeyboardRecorder.Wake]) (self, w)).1
     = []
  /\ Observe.notifications
       (trace (KeyboardRecorder.run env
                 (Observe.presses keys ++ [KeyboardRecorder.Wake]) (self, w)).2)
     = Observe.notifications (trace w)
       ++ (if KeyboardRecorder.on_log_ready self
           then [Notify "on_log_ready" (KeyboardRecorder.log_file self w)] else []).
Proof.
  intros Hl Hp Hr Ha Ht Hio.
  rewrite recorder_run_app.
  destruct (presses_buffer env keys self w Hl Hp) as (b & -> & Eb).
  set (self' := KeyboardRecorder.set_buffer (KeyboardRecorder.current_buffer self ++ b) self).
  assert (Hne : KeyboardRecorder.current_buffer self' <> []).
  { simpl. intros E. apply app_eq_nil in E as [_ ->]. simpl in Eb. congruence. }
  assert (E : KeyboardRecorder.run env [KeyboardRecorder.Wake] (self', w)
              = (KeyboardRecorder.set_buffer [] self,
                 emit (Sleep (KeyboardRecorder.save_interval self))
                   (KeyboardRecorder.save_buffer env self' w).2)).
  { unfold KeyboardRecorder.run. simpl.
    destruct (KeyboardRecorder.alive self); [done |].
    unfold KeyboardRecorder._save_loop. simpl. rewrite Hp.
    rewrite (save_buffer_written env self' w Hne Hio). simpl. by rewrite Hr. }
  rewrite E, (save_buffer_written env self' w Hne Hio).
  change (KeyboardRecorder.log_file self' w) with (KeyboardRecorder.log_file self w).
  change (KeyboardRecorder.on_log_ready self') with (KeyboardRecorder.on_log_ready self).
  change (KeyboardRecorder.current_buffer self')
    with (KeyboardRecorder.current_buffer self ++ b).
  rewrite concat_app, Eb.
  destruct (KeyboardRecorder.on_log_ready self); cbn [fst snd fs trace emit logger set_fs];
    rewrite ?notifications_snoc; simpl; rewrite ?notifications_snoc; simpl;
    rewrite ?(right_id_L [] (++)); done.
Qed.

Lemma typed_keys_reach_the_keylog_witness :
  KeyboardRecorder.current_buffer
    (KeyboardRecorder.run Examples.env_ok
       (Observe.presses [KeyCode (Some "h") 72; SpecialKey "enter"] ++ [KeyboardRecorder.Wake])
       (Examples.recorder_idle, Examples.world0)).1 = [].
Proof.
  apply (typed_keys_reach_the_keylog Examples.env_ok Examples.recorder_idle Examples.world0
           [KeyCode (Some "h") 72; SpecialKey "enter"]).
  - reflexivity.
  - reflexivity.
  - reflexivity.
  - vm_compute. discriminate.
  - vm_compute. discriminate.
  - reflexivity.
Defined.

(** X9: a flush that cannot write loses what was typed.  The
    buffer is emptied before the write is tried, so when the write
    raises the keys are in no file and no longer in the buffer, no
    callback is called, the error is logged, and the next flush finds
    nothing to save. *)
Theorem failed_flush_loses_the_buffer (env : Env) (self : KeyboardRecorder.t) (w : World)
    (e : string) :
  KeyboardRecorder.current_buffer self <> [] ->
  io_error env w (path_str (KeyboardRecorder.log_file self w)) = Some e ->
  KeyboardRecorder.current_buffer (KeyboardRecorder.save_buffer env self w).1 = []
  /\ fs (KeyboardRecorder.save_buffer env self w).2 = fs w
  /\ trace (KeyboardRecorder.save_buffer env self w).2 = trace w
  /\ log (KeyboardRecorder.save_buffer env self w).2
     = log w ++ [(ERROR, "Erro ao salvar log de teclado: " +:+ e)]
  /\ forall (env' : Env) (w' : World),
       KeyboardRecorder.save_buffer env' (KeyboardRecorder.save_buffer env self w).1 w'
       = ((KeyboardRecorder.save_buffer env self w).1, w').
Proof.
  intros Hb Hio. unfold KeyboardRecorder.save_buffer at 1 2 3 4 6 7, append_file.
  destruct (KeyboardRecorder.current_buffer self) as [|x rest] eqn:E; [done |].
  rewrite Hio. simpl. repeat split; done.
Qed.

Lemma failed_flush_loses_the_buffer_witness :
  KeyboardRecorder.current_buffer
    (KeyboardRecorder.save_buffer Examples.env_disk_full Examples.recorder_typed
       Examples.world0).1 = [].
Proof.
  apply (failed_flush_loses_the_buffer Examples.env_disk_full Examples.recorder_typed
           Examples.world0 "[Errno 28] No space left on device").
  - vm_compute. discriminate.
  - reflexivity.
Defined.

(** X10: the keylog of the day is one file that grows, and the
    keyboard analyzer reads it whole.  After a flush the file handed to
    [on_log_ready] holds what was flushed earlier in the day followed by
    the new entry, and the analyzer that handles this path sends the
    text of the whole file, as [read_text] decodes it, to the analysis
    service: keys sent after an earlier flush are sent again.  When the
    file is no UTF-8 the analyzer calls no service and logs the
    [UnicodeDecodeError].  No operation on a file is refused. *)
Theorem keylog_is_analysed_whole (env : Env) (kr : KeyboardRecorder.t) (ka : Worker)
    (w : World) :
  kind ka = Keyboard ->
  KeyboardRecorder.current_buffer kr <> [] ->
  (forall w' f, io_error env w' f = None) ->
  fs (KeyboardRecorder.save_buffer env kr w).2 !! path_str (KeyboardRecorder.log_file kr w)
  = Some (default "" (fs w !! path_str (KeyboardRecorder.log_file kr w))
          +:+ KeyboardRecorder.header w
          +:+ String.concat "" (KeyboardRecorder.current_buffer kr) +:+ nl)
  /\ (forall content,
        text_of_bytes
          (default "" (fs w !! path_str (KeyboardRecorder.log_file kr w))
           +:+ KeyboardRecorder.header w
           +:+ String.concat "" (KeyboardRecorder.current_buffer kr) +:+ nl)
        = Ret content ->
        In (ApiSummary content)
           (trace (handle env ka (KeyboardRecorder.log_file kr w)
                     (KeyboardRecorder.save_buffer env kr w).2)))
  /\ (forall e,
        text_of_bytes
          (default "" (fs w !! path_str (KeyboardRecorder.log_file kr w))
           +:+ KeyboardRecorder.header w
           +:+ String.concat "" (KeyboardRecorder.current_buffer kr) +:+ nl)
        = Raise e ->
        trace (handle env ka (KeyboardRecorder.log_file kr w)
                 (KeyboardRecorder.save_buffer env kr w).2)
        = trace (KeyboardRecorder.save_buffer env kr w).2
        /\ WorkerRun.errors
             (log (handle env ka (KeyboardRecorder.log_file kr w)
                     (KeyboardRecorder.save_buffer env kr w).2))
           = WorkerRun.errors (log (KeyboardRecorder.save_buffer env kr w).2)
             ++ ["Erro na análise de teclado: " +:+ e]).
Proof.
  intros K Hb Hio.
  set (whole := default "" (fs w !! path_str (KeyboardRecorder.log_file kr w))
                +:+ KeyboardRecorder.header w
                +:+ String.concat "" (KeyboardRecorder.current_buffer kr) +:+ nl).
  assert (Hfs : fs (KeyboardRecorder.save_buffer env kr w).2
                !! path_str (KeyboardRecorder.log_file kr w) = Some whole).
  { unfold KeyboardRecorder.save_buffer, append_file.
    destruct (KeyboardRecorder.current_buffer kr) as [|x rest] eqn:E; [done |].
    rewrite Hio. destruct (KeyboardRecorder.on_log_ready kr); simpl; apply lookup_insert_eq. }
  split; [exact Hfs |].
  unfold handle. rewrite K. unfold KeyboardAnalyzer.handle, read_text.
  rewrite Hio. simpl. rewrite Hfs.
  split.
  - intros content Hread. rewrite Hread.
    rewrite (keylog_not_blank _ _ _ _ Hread). simpl.
    destruct (generate_summary env _ content (prompt ka) (model ka)) as [analysis|e].
    + unfold KeyboardAnalyzer._save_analysis, append_file. rewrite Hio. simpl.
      apply in_or_app. right. by left.
    + simpl. apply in_or_app. right. by left.
  - intros e Hread. rewrite Hread. simpl. split; [done |].
    rewrite !errors_snoc. simpl. by rewrite (right_id_L [] (++)).
Qed.

Lemma keylog_is_analysed_whole_witness :
  In (ApiSummary
        (default "" (fs Examples.world0
                     !! path_str (KeyboardRecorder.log_file Examples.recorder_typed
                                    Examples.world0))
         +:+ KeyboardRecorder.header Examples.world0
         +:+ String.concat "" (KeyboardRecorder.current_buffer Examples.recorder_typed)
         +:+ nl))
     (trace (handle Examples.env_ok Examples.keyboard_analyzer
               (KeyboardRecorder.log_file Examples.recorder_typed Examples.world0)
               (KeyboardRecorder.save_buffer Examples.env_ok Examples.recorder_typed
                  Examples.world0).2)).
Proof.
  destruct (keylog_is_analysed_whole Examples.env_ok Examples.recorder_typed
              Examples.keyboard_analyzer Examples.world0) as (_ & H & _).
  - reflexivity.
  - vm_compute. discriminate.
  - intros w' f. reflexivity.
  - apply H. vm_compute. reflexivity.
Defined.

(** ** Power monitor: what reaches the listeners *)

Section MonitorRuns.

Lemma monitor_run_cons (s : PowerMonitor.Step) (steps : list PowerMonitor.Step)
    (st : PowerMonitor.t * World) :
  PowerMonitor.run (s :: steps) st = PowerMonitor.run steps (PowerMonitor.step st s).
Proof. reflexivity. Qed.

Lemma monitor_quiet_step (s : PowerMonitor.Step) (pm : PowerMonitor.t) (w : World) :
  match s with PowerMonitor.Message _ _ => False | _ => True end ->
  Observe.invoked (trace (PowerMonitor.step (pm, w) s).2) = Observe.invoked (trace w)
  /\ PowerMonitor.pause_on_lock (PowerMonitor.step (pm, w) s).1 = PowerMonitor.pause_on_lock pm.
Proof.
  destruct s as [event cb| | |created|msg wparam]; simpl; try done; intros _.
  - unfold PowerMonitor.start. destruct (PowerMonitor._is_running pm); [done |].
    simpl. by rewrite invoked_other.
  - destruct (PowerMonitor._hwnd pm); simpl; [| done]. by rewrite !invoked_other.
  - destruct (PowerMonitor.starting pm); [done |].
    unfold PowerMonitor._message_loop_bind. destruct created as [h|e]; simpl; [| done].
    destruct (PowerMonitor._is_running pm); simpl; by rewrite !invoked_other.
Qed.

Lemma session_change_step (pm : PowerMonitor.t) (w : World) (wparam : Z) :
  PowerMonitor.pause_on_lock pm = false ->
  Observe.invoked
    (trace (PowerMonitor.step (pm, w)
              (PowerMonitor.Message PowerMonitor.WM_WTSSESSION_CHANGE wparam)).2)
  = Observe.invoked (trace w)
  /\ PowerMonitor.pause_on_lock
       (PowerMonitor.step (pm, w)
          (PowerMonitor.Message PowerMonitor.WM_WTSSESSION_CHANGE wparam)).1 = false.
Proof.
  intros Hp. simpl. destruct (PowerMonitor.looping pm); [done |].
  unfold PowerMonitor._message_loop_turn, PowerMonitor._window_proc.
  change (PowerMonitor.WM_WTSSESSION_CHANGE =? PowerMonitor.WM_POWERBROADCAST)%Z with false.
  change (PowerMonitor.WM_WTSSESSION_CHANGE =? PowerMonitor.WM_WTSSESSION_CHANGE)%Z with true.
  rewrite Hp. cbv iota.
  destruct (PowerMonitor._is_running pm), (wparam =? PowerMonitor.WTS_SESSION_LOCK)%Z,
    (wparam =? PowerMonitor.WTS_SESSION_UNLOCK)%Z; simpl; done.
Qed.

Lemma session_changes_run (steps : list PowerMonitor.Step) :
  forall (pm : PowerMonitor.t) (w : World),
    PowerMonitor.pause_on_lock pm = false ->
    Forall Observe.session_change steps ->
    Observe.invoked (trace (PowerMonitor.run steps (pm, w)).2) = Observe.invoked (trace w).
Proof.
  induction steps as [|s steps IH]; intros pm w Hp Hs; [done |].
  inversion Hs as [|? ? Hs1 Hs2]; subst. rewrite monitor_run_cons.
  destruct (PowerMonitor.step (pm, w) s) as [pm' w'] eqn:E.
  assert (H : Observe.invoked (trace w') = Observe.invoked (trace w)
              /\ PowerMonitor.pause_on_lock pm' = false).
  { destruct s as [event cb| | |created|msg wparam].
    1-4: (match goal with
          | |- context [Observe.invoked] =>
              match type of E with
              | PowerMonitor.step _ ?s = _ =>
                  pose proof (monitor_quiet_step s pm w I) as [H1 H2]
              end
          end; rewrite E in H1, H2; simpl in H1, H2; by rewrite H2).
    simpl in Hs1. subst msg.
    pose proof (session_change_step pm w wparam Hp) as [H1 H2].
    by rewrite E in H1, H2. }
  destruct H as [H1 H2]. by rewrite IH.
Qed.

(** After a failed creation of the window the monitor has no thread, and
    nothing but [stop()] changes that. *)
Lemma deaf_run (steps : list PowerMonitor.Step) :
  forall (pm : PowerMonitor.t) (w : World),
    PowerMonitor._is_running pm = true ->
    PowerMonitor.starting pm = 0 -> PowerMonitor.looping pm = 0 ->
    Forall Observe.not_stop steps ->
    Observe.invoked (trace (PowerMonitor.run steps (pm, w)).2) = Observe.invoked (trace w)
    /\ PowerMonitor._is_running (PowerMonitor.run steps (pm, w)).1 = true
    /\ PowerMonitor.starting (PowerMonitor.run steps (pm, w)).1 = 0
    /\ PowerMonitor.looping (PowerMonitor.run steps (pm, w)).1 = 0.
Proof.
  induction steps as [|s steps IH]; intros pm w Hr H0 H1 Hs; [done |].
  inversion Hs as [|? ? Hs1 Hs2]; subst. rewrite monitor_run_cons.
  destruct s as [event cb| | |created|msg wparam]; simpl in Hs1 |- *; try done.
  - apply IH; done.
  - unfold PowerMonitor.start. rewrite Hr. by apply IH.
  - rewrite H0. by apply IH.
  - rewrite H1. by apply IH.
Qed.

End MonitorRuns.

(** X11: with [pause_on_lock] off, a change of the session (lock,
    unlock) calls no listener, whatever listeners are registered and
    however many such messages arrive; a suspend message still calls
    the listener registered for [on_sleep]. *)
Theorem lock_is_ignored_without_pause_on_lock (steps : list PowerMonitor.Step)
    (pm : PowerMonitor.t) (w : World) :
  PowerMonitor.pause_on_lock pm = false ->
  (Forall Observe.session_change steps ->
   Observe.invoked (trace (PowerMonitor.run steps (pm, w)).2) = Observe.invoked (trace w))
  /\ (forall c,
        PowerMonitor._callbacks pm !! "on_sleep" = Some c ->
        PowerMonitor.looping pm <> 0 ->
        Observe.invoked
          (trace (PowerMonitor.step (pm, w)
                    (PowerMonitor.Message PowerMonitor.WM_POWERBROADCAST
                       PowerMonitor.PBT_APMSUSPEND)).2)
        = Observe.invoked (trace w) ++ [callable_name c]).
Proof.
  intros Hp. split; [by apply session_changes_run |].
  intros c Hc Hl. simpl. destruct (PowerMonitor.looping pm); [done |].
  unfold PowerMonitor._message_loop_turn, PowerMonitor._window_proc.
  change (PowerMonitor.WM_POWERBROADCAST =? PowerMonitor.WM_POWERBROADCAST)%Z with true.
  change (PowerMonitor.PBT_APMSUSPEND =? PowerMonitor.PBT_APMSUSPEND)%Z with true.
  cbv iota. unfold PowerMonitor._trigger, call. rewrite Hc.
  destruct (PowerMonitor._is_running pm), (raises c); simpl; by rewrite invoked_snoc.
Qed.

Lemma lock_is_ignored_without_pause_on_lock_witness :
  Observe.invoked
    (trace (PowerMonitor.run
              [PowerMonitor.Message PowerMonitor.WM_WTSSESSION_CHANGE
                 PowerMonitor.WTS_SESSION_LOCK]
              (Examples.monitor_no_lock, Examples.world0)).2)
  = Observe.invoked (trace Examples.world0).
Proof.
  destruct (lock_is_ignored_without_pause_on_lock
              [PowerMonitor.Message PowerMonitor.WM_WTSSESSION_CHANGE
                 PowerMonitor.WTS_SESSION_LOCK]
              Examples.monitor_no_lock Examples.world0) as [H _].
  - reflexivity.
  - apply H. repeat constructor.
Defined.

(** X12: when the message loop of the power monitor raises while
    it creates its window, the thread ends but [_is_running] stays set:
    until [stop] is called, no message calls a listener and a further
    [start] returns at once without a new thread. *)
Theorem failed_window_leaves_monitor_deaf (pm : PowerMonitor.t) (w : World) (e : string)
    (steps : list PowerMonitor.Step) :
  PowerMonitor._is_running pm = false ->
  PowerMonitor.starting pm = 0 -> PowerMonitor.looping pm = 0 ->
  Forall Observe.not_stop steps ->
  Observe.invoked
    (trace (PowerMonitor.run
              (PowerMonitor.Start :: PowerMonitor.Bind (Raise e) :: steps) (pm, w)).2)
  = Observe.invoked (trace w)
  /\ PowerMonitor._is_running
       (PowerMonitor.run
          (PowerMonitor.Start :: PowerMonitor.Bind (Raise e) :: steps) (pm, w)).1 = true
  /\ PowerMonitor.starting
       (PowerMonitor.run
          (PowerMonitor.Start :: PowerMonitor.Bind (Raise e) :: steps) (pm, w)).1
     + PowerMonitor.looping
         (PowerMonitor.run
            (PowerMonitor.Start :: PowerMonitor.Bind (Raise e) :: steps) (pm, w)).1 = 0.
Proof.
  intros Hr H0 H1 Hs. rewrite !monitor_run_cons.
  assert (E : PowerMonitor.step (PowerMonitor.step (pm, w) PowerMonitor.Start)
                (PowerMonitor.Bind (Raise e))
              = (PowerMonitor.set_threads 0 0 (PowerMonitor.set_is_running true pm),
                 logger ERROR ("Erro no message loop: " +:+ e)
                   (emit (Spawn "_message_loop") w))).
  { simpl. unfold PowerMonitor.start. rewrite Hr. simpl. by rewrite H0, H1. }
  rewrite E.
  destruct (deaf_run steps
              (PowerMonitor.set_threads 0 0 (PowerMonitor.set_is_running true pm))
              (logger ERROR ("Erro no message loop: " +:+ e)
                 (emit (Spawn "_message_loop") w))
              eq_refl eq_refl eq_refl Hs) as (T & R & S0 & L0).
  rewrite T, R, S0, L0. simpl. by rewrite invoked_other.
Qed.

Lemma failed_window_leaves_monitor_deaf_witness :
  Observe.invoked
    (trace (PowerMonitor.run
              [PowerMonitor.Start; PowerMonitor.Bind (Raise "no window");
               PowerMonitor.Message PowerMonitor.WM_POWERBROADCAST PowerMonitor.PBT_APMSUSPEND;
               PowerMonitor.Start]
              (PowerMonitor.register_callback "on_sleep" Examples.on_sleep_a
                 (PowerMonitor.init true), Examples.world0)).2)
  = Observe.invoked (trace Examples.world0).
Proof.
  apply (failed_window_leaves_monitor_deaf
           (PowerMonitor.register_callback "on_sleep" Examples.on_sleep_a
              (PowerMonitor.init true))
           Examples.world0 "no window"
           [PowerMonitor.Message PowerMonitor.WM_POWERBROADCAST PowerMonitor.PBT_APMSUSPEND;
            PowerMonitor.Start]).
  - reflexivity.
  - reflexivity.
  - reflexivity.
  - repeat constructor.
Defined.

(** ** Task scheduler: [stop] and [run_now] *)

Section SchedulerRuns.

Lemma scheduler_run_cons (s : TaskScheduler.Step) (steps : list TaskScheduler.Step)
    (st : TaskScheduler.t * World) :
  TaskScheduler.run (s :: steps) st = TaskScheduler.run steps (TaskScheduler.step st s).
Proof. reflexivity. Qed.

(** The turns of the loop of a stopped scheduler: each one ends a thread. *)
Lemma polls_stopped (ds : list DateTime) :
  forall (self : TaskScheduler.t) (w : World),
    TaskScheduler._is_running self = false ->
    Observe.invoked (trace (TaskScheduler.run (Observe.polls ds) (self, w)).2)
    = Observe.invoked (trace w)
    /\ TaskScheduler.jobs (TaskScheduler.run (Observe.polls ds) (self, w)).1
       = TaskScheduler.jobs self
    /\ TaskScheduler.alive (TaskScheduler.run (Observe.polls ds) (self, w)).1
       = TaskScheduler.alive self - length ds.
Proof.
  induction ds as [|d ds IH]; intros self w Hr.
  { simpl. repeat split. lia. }
  change (Observe.polls (d :: ds)) with (TaskScheduler.Poll d :: Observe.polls ds).
  rewrite scheduler_run_cons. simpl TaskScheduler.step.
  destruct (TaskScheduler.alive self) as [|a] eqn:Ea.
  - destruct (IH self (TaskScheduler.set_now d w) Hr) as (E1 & E2 & E3).
    rewrite E1, E2, E3, Ea. done.
  - unfold TaskScheduler._run_scheduler. rewrite Hr.
    destruct (IH (TaskScheduler.set_thread (TaskScheduler._thread self)
                    (pred (TaskScheduler.alive self)) self)
                (logger INFO "Scheduler parado" (TaskScheduler.set_now d w)) Hr)
      as (E1 & E2 & E3).
    rewrite E1, E2, E3. simpl. rewrite Ea. done.
Qed.

Lemma step_state (s : TaskScheduler.Step) (self : TaskScheduler.t) (w w' : World) :
  (TaskScheduler.step (self, w) s).1 = (TaskScheduler.step (self, w') s).1.
Proof.
  destruct s as [name cb| | |d|task]; simpl; try done.
  - unfold TaskScheduler.start. destruct (TaskScheduler._is_running self); [done |].
    by destruct (Schedule.parse_time (TaskScheduler.summary_time self)),
         (Schedule.parse_time "00:30").
  - destruct (TaskScheduler.alive self); [done |].
    unfold TaskScheduler._run_scheduler. destruct (TaskScheduler._is_running self); [| done].
    destruct (run_pending_spec self (TaskScheduler.jobs self) (TaskScheduler.set_now d w))
      as (E & _).
    destruct (run_pending_spec self (TaskScheduler.jobs self) (TaskScheduler.set_now d w'))
      as (E' & _).
    destruct (Schedule.run_pending _ _ (TaskScheduler.set_now d w)) as [js w1].
    destruct (Schedule.run_pending _ _ (TaskScheduler.set_now d w')) as [js' w1'].
    simpl in *. by rewrite E, E'.
Qed.

Lemma run_state (steps : list TaskScheduler.Step) :
  forall (self : TaskScheduler.t) (w w' : World),
    (TaskScheduler.run steps (self, w)).1
    = (TaskScheduler.run (Observe.without_run_now steps) (self, w')).1.
Proof.
  induction steps as [|s steps IH]; intros self w w'; [done |].
  rewrite scheduler_run_cons. unfold Observe.without_run_now in *.
  destruct (Observe.is_run_now s) eqn:R.
  - rewrite filter_cons_False by (by rewrite R).
    destruct s; try done. simpl. apply IH.
  - rewrite filter_cons_True by done. rewrite scheduler_run_cons.
    pose proof (step_state s self w w') as E.
    destruct (TaskScheduler.step (self, w) s) as [x w1].
    destruct (TaskScheduler.step (self, w') s) as [x' w1'].
    simpl in E. subst x'. apply IH.
Qed.

End SchedulerRuns.

(** X13: after [stop] the scheduler calls no callback, at whatever
    times its loop turns again: the jobs were cleared and every thread
    that was in the loop leaves it at its next turn.  The package
    [schedule] is modelled from the specification. *)
Theorem stopped_scheduler_fires_nothing (self : TaskScheduler.t) (w : World)
    (ds : list DateTime) :
  Observe.invoked
    (trace (TaskScheduler.run (TaskScheduler.Stop :: Observe.polls ds) (self, w)).2)
  = Observe.invoked (trace w)
  /\ TaskScheduler.jobs
       (TaskScheduler.run (TaskScheduler.Stop :: Observe.polls ds) (self, w)).1 = []
  /\ TaskScheduler.alive
       (TaskScheduler.run (TaskScheduler.Stop :: Observe.polls ds) (self, w)).1
     = TaskScheduler.alive self - length ds.
Proof.
  rewrite scheduler_run_cons. simpl TaskScheduler.step. unfold TaskScheduler.stop.
  match goal with
  | |- context [TaskScheduler.run _ (?x, ?w0)] =>
      destruct (polls_stopped ds x w0 eq_refl) as (E1 & E2 & E3)
  end.
  rewrite E1, E2, E3. simpl. split; [| done].
  destruct (TaskScheduler._thread self); [| done]. simpl. by rewrite invoked_other.
Qed.

(** X14: [run_now] does not touch the schedule.  A run of the
    scheduler leaves the scheduler in the state that the same run
    without its calls of [run_now] leaves it in, so a task forced by
    hand does not count as the run of the day; [run_now('summary')]
    calls the callback registered as [on_summary_time], and a task that
    is neither ['summary'] nor ['cleanup'] does nothing at all.  The
    package [schedule] is modelled from the specification. *)
Theorem run_now_is_outside_the_schedule (steps : list TaskScheduler.Step)
    (self : TaskScheduler.t) (w : World) :
  (TaskScheduler.run steps (self, w)).1
  = (TaskScheduler.run (Observe.without_run_now steps) (self, w)).1
  /\ (forall c,
        TaskScheduler._callbacks self !! "on_summary_time" = Some c ->
        Observe.invoked (trace (TaskScheduler.run_now "summary" self w))
        = Observe.invoked (trace w) ++ [callable_name c])
  /\ (forall task,
        task <> "summary" -> task <> "cleanup" -> TaskScheduler.run_now task self w = w).
Proof.
  split; [apply run_state |]. split.
  - intros c Hc. unfold TaskScheduler.run_now. simpl.
    unfold TaskScheduler._trigger_daily_summary, call. rewrite Hc.
    destruct (raises c); simpl; by rewrite invoked_snoc.
  - intros task H1 H2. unfold TaskScheduler.run_now.
    destruct (String.eqb_spec task "summary"); [done |].
    by destruct (String.eqb_spec task "cleanup").
Qed.

(** ** File names *)

Lemma replace_char_app (old new : Ascii.ascii) (a b : string) :
  replace_char old new (a +:+ b) = replace_char old new a +:+ replace_char old new b.
Proof.
  induction a as [|c a IH]; [done |].
  change (replace_char old new (String c (a +:+ b))
          = String (if Ascii.eqb c old then new else c)
              (replace_char old new a +:+ replace_char old new b)).
  simpl. by rewrite IH.
Qed.

Lemma replace_char_length (old new : Ascii.ascii) (s : string) :
  String.length (replace_char old new s) = String.length s.
Proof. induction s as [|c s IH]; simpl; [done | by rewrite IH]. Qed.

Lemma safe_filename_app (a b : string) :
  safe_filename (a +:+ b) = safe_filename a +:+ safe_filename b.
Proof. unfold safe_filename, invalid_chars. simpl. by rewrite !replace_char_app. Qed.

Lemma safe_filename_char (x : Ascii.ascii) :
  exists y,
    safe_filename (String x "") = String y ""
    /\ ~ In y invalid_chars
    /\ (~ In x invalid_chars -> y = x).
Proof.
  unfold safe_filename, invalid_chars, underscore. simpl.
  repeat match goal with
         | |- context [Ascii.eqb x ?b] =>
             destruct (Ascii.eqb_spec x b) as [-> | ?]; simpl
         end;
    (eexists; split; [reflexivity |]; split;
     [ intros H; repeat (destruct H as [H | H]; [try discriminate H; congruence |]); done
     | intros H; try done; exfalso; apply H; auto 10 ]).
Qed.

Lemma safe_filename_cons (x : Ascii.ascii) (s : string) :
  safe_filename (String x s) = safe_filename (String x "") +:+ safe_filename s.
Proof. apply (safe_filename_app (String x "") s). Qed.

(** ** Configuration keys *)

Section Keys.
Import ConfigManager.

Lemma split_cons (sep : Ascii.ascii) (s : string) :
  exists part parts, split sep s = part :: parts.
Proof.
  induction s as [|c s (p & ps & IH)]; simpl; [eauto |].
  destruct (Ascii.eqb c sep); [eauto |]. rewrite IH. eauto.
Qed.

Lemma split_app (a b : string) :
  split dot (a +:+ "." +:+ b) = split dot a ++ split dot b.
Proof.
  induction a as [|c a IH]; [done |].
  change (split dot (String c (a +:+ "." +:+ b)) = split dot (String c a) ++ split dot b).
  simpl. rewrite IH. destruct (Ascii.eqb c dot); [done |].
  by destruct (split_cons dot a) as (p & ps & ->).
Qed.

Lemma join_split (s : string) : String.concat "." (split dot s) = s.
Proof.
  induction s as [|c s IH]; [done |]. simpl split.
  destruct (split_cons dot s) as (p & ps & E). rewrite E in IH |- *.
  destruct (Ascii.eqb_spec c dot) as [-> | Hc].
  - change (String.concat "." ("" :: p :: ps)) with ("" +:+ "." +:+ String.concat "." (p :: ps)).
    by rewrite IH.
  - destruct ps as [|q ps].
    + simpl in *. by rewrite IH.
    + change (String.concat "." (String c p :: q :: ps))
        with (String c (p +:+ "." +:+ String.concat "." (q :: ps))).
      change (String.concat "." (p :: q :: ps))
        with (p +:+ "." +:+ String.concat "." (q :: ps)) in IH.
      by rewrite IH.
Qed.

Lemma subscripts_app (k1 k2 : list string) (value : Yaml) :
  subscripts (k1 ++ k2) value
  = match subscripts k1 value with
    | Some v => subscripts k2 v
    | None => None
    end.
Proof.
  revert value. induction k1 as [|k k1 IH]; intros value; [done |].
  simpl. destruct value; try done. destruct (getitem k items); [apply IH | done].
Qed.

Lemma complaint_nil (_config : Yaml) (key : string) :
  complaint _config key = []
  <-> get key YNone _config <> YNone
      /\ get key YNone _config <> YStr ""
      /\ (key = "openrouter.api_key" ->
          get key YNone _config <> YStr "YOUR_OPENROUTER_API_KEY").
Proof.
  unfold complaint. destruct (get key YNone _config) as [| | |s| |]; try (by intuition).
  destruct s as [|c s]; [by intuition |].
  destruct (String.eqb_spec key "openrouter.api_key") as [-> | Hk].
  - destruct (String.eqb_spec (String c s) "YOUR_OPENROUTER_API_KEY") as [E | Hs].
    + rewrite E. split; [done |]. intros (_ & _ & H). by destruct H.
    + split; [| done]. intros _. repeat split; try done. intros _ E. congruence.
  - split; [| done]. intros _. repeat split; done.
Qed.

End Keys.

(** X15: [safe_filename] keeps the length of the name, leaves none
    of the nine invalid characters in it, returns a name without such
    characters as it is, and is idempotent. *)
Theorem safe_filename_is_safe (filename : string) :
  String.length (safe_filename filename) = String.length filename
  /\ (forall c, In c invalid_chars ->
        ~ In c (String.list_ascii_of_string (safe_filename filename)))
  /\ ((forall c, In c invalid_chars -> ~ In c (String.list_ascii_of_string filename)) ->
      safe_filename filename = filename)
  /\ safe_filename (safe_filename filename) = safe_filename filename.
Proof.
  split; [| split; [| split]].
  - unfold safe_filename, invalid_chars. simpl. by rewrite !replace_char_length.
  - induction filename as [|x s IH]; intros c Hc; [intros [] |].
    rewrite safe_filename_cons.
    destruct (safe_filename_char x) as (y & -> & Hy & _).
    change (String y "" +:+ safe_filename s) with (String y (safe_filename s)).
    simpl. intros [<- | Hin]; [done | by apply (IH c)].
  - induction filename as [|x s IH]; intros H; [done |].
    rewrite safe_filename_cons.
    destruct (safe_filename_char x) as (y & -> & _ & Hx).
    rewrite Hx, IH.
    + done.
    + intros c Hc Hin. apply (H c Hc). by right.
    + intros Hin. apply (H x Hin). by left.
  - induction filename as [|x s IH]; [done |].
    rewrite safe_filename_cons.
    destruct (safe_filename_char x) as (y & -> & Hy & _).
    rewrite safe_filename_app, IH.
    destruct (safe_filename_char y) as (z & -> & _ & Hz). by rewrite (Hz Hy).
Qed.

(** X16: a dotted key is looked up one level after the other.
    Splitting a key at its dots and joining the parts with dots gives
    the key back; [get] on the key [a.b] is [get] on [b] in what [get]
    finds for [a] (the default when [a] is missing or is no mapping);
    [is_enabled(a)] is [get] on [enabled] in the section [a], [False]
    being the default. *)
Theorem dotted_key_is_iterated_lookup (a b : string)
    (default _config : ConfigManager.Yaml) :
  String.concat "." (ConfigManager.split ConfigManager.dot (a +:+ "." +:+ b))
  = a +:+ "." +:+ b
  /\ ConfigManager.get (a +:+ "." +:+ b) default _config
     = ConfigManager.get b default (ConfigManager.get a ConfigManager.YNone _config)
  /\ ConfigManager.is_enabled a _config
     = ConfigManager.get "enabled" (ConfigManager.YBool false)
         (ConfigManager.get a ConfigManager.YNone _config).
Proof.
  assert (H : forall b' d,
             ConfigManager.get (a +:+ "." +:+ b') d _config
             = ConfigManager.get b' d (ConfigManager.get a ConfigManager.YNone _config)).
  { intros b' d. unfold ConfigManager.get. rewrite split_app, subscripts_app.
    destruct (ConfigManager.subscripts (ConfigManager.split ConfigManager.dot a) _config)
      as [v|]; [done |].
    by destruct (split_cons ConfigManager.dot b') as (p & ps & ->). }
  split; [apply join_split |]. split; [apply H |].
  apply (H "enabled").
Qed.

(** X17: [_validate] returns, instead of raising [ConfigError],
    exactly when each of the four required keys has a value that is
    neither [None] nor the empty string, and the API key is not the
    placeholder of the template. *)
Theorem validate_accepts_complete_configs (_config : ConfigManager.Yaml) :
  ConfigManager._validate _config = Ret tt
  <-> (forall key, In key ConfigManager.required ->
         ConfigManager.get key ConfigManager.YNone _config <> ConfigManager.YNone
         /\ ConfigManager.get key ConfigManager.YNone _config <> ConfigManager.YStr "")
      /\ ConfigManager.get "openrouter.api_key" ConfigManager.YNone _config
         <> ConfigManager.YStr "YOUR_OPENROUTER_API_KEY".
Proof.
  unfold ConfigManager._validate, ConfigManager.required. simpl flat_map.
  rewrite (right_id_L [] (++)).
  pose proof (complaint_nil _config "openrouter.api_key") as H1.
  pose proof (complaint_nil _config "models.transcription") as H2.
  pose proof (complaint_nil _config "models.screen_analysis") as H3.
  pose proof (complaint_nil _config "models.summary") as H4.
  split.
  - intros E.
    destruct (ConfigManager.complaint _config "openrouter.api_key"); [| done].
    destruct (ConfigManager.complaint _config "models.transcription"); [| done].
    destruct (ConfigManager.complaint _config "models.screen_analysis"); [| done].
    destruct (ConfigManager.complaint _config "models.summary"); [| done].
    destruct H1 as [H1 _], H2 as [H2 _], H3 as [H3 _], H4 as [H4 _].
    specialize (H1 eq_refl). specialize (H2 eq_refl).
    specialize (H3 eq_refl). specialize (H4 eq_refl).
    split; [| by apply H1].
    intros key [<- | [<- | [<- | [<- | []]]]]; split; tauto.
  - intros [Hreq Hkey].
    assert (G : forall key, In key ConfigManager.required ->
                  ConfigManager.complaint _config key = []).
    { intros key Hin. apply complaint_nil. destruct (Hreq key Hin) as [A B].
      split; [done |]. split; [done |]. by intros ->. }
    rewrite !G; [done | | | |]; unfold ConfigManager.required.
    + do 3 right. by left.
    + do 2 right. by left.
    + right. by left.
    + by left.
Qed.

(** ** Daily summary *)

Section Summary.
Context (env : Env).

Lemma read_if_exists_text (p : Path) (w : World) :
  (forall (w' : World) (f : string), io_error env w' f = None) ->
  read_if_exists env p w = Observe.read_of_day p w.
Proof.
  intros Hio. unfold read_if_exists, read_text, Observe.read_of_day, Observe.text_of_day.
  rewrite Hio. by destruct (fs w !! path_str p).
Qed.

Lemma date_or_today_idem (date : option string) (w : World) (l : Level) (m : string) :
  SummaryGenerator.date_or_today (Some (SummaryGenerator.date_or_today date w)) (logger l m w)
  = SummaryGenerator.date_or_today date w.
Proof.
  unfold SummaryGenerator.date_or_today.
  destruct date as [[|c d]|]; try done;
    unfold get_today_folder, strftime_Ymd, pad4; simpl;
    repeat case_match; done.
Qed.

(** [generate] when no file operation is refused and the three files of
    the day can be read: what it does is decided by their texts and
    the answer of the service. *)
Lemma generate_spec (self : SummaryGenerator.t) (date : option string) (w : World)
    (t s k : string) :
  (forall (w' : World) (f : string), io_error env w' f = None) ->
  let d := SummaryGenerator.date_or_today date w in
  let w1 := logger INFO ("Gerando resumo para " +:+ d) w in
  Observe.read_of_day (SummaryGenerator.transcriptions_file self d) w = Ret t ->
  Observe.read_of_day (SummaryGenerator.screen_analysis_file self d) w = Ret s ->
  Observe.read_of_day (SummaryGenerator.keyboard_analysis_file self d) w = Ret k ->
  let content := String.concat nl (SummaryGenerator.content_parts t s k) in
  SummaryGenerator.generate env self date w
  = if negb (truthy t) && negb (truthy s) && negb (truthy k)
    then (Ret "Nenhum conteúdo foi capturado hoje.",
          logger WARNING "Nenhum conteúdo para resumir" w1)
    else
      match generate_summary env w1 content (SummaryGenerator.prompt self)
              (SummaryGenerator.model self) with
      | Raise e => (Raise e, emit (ApiSummary content) w1)
      | Ret summary =>
          (Ret summary,
           logger INFO ("Resumo gerado: " +:+ pretty (len summary) +:+ " caracteres")
             (logger INFO ("Resumo salvo: " +:+ path_str (SummaryGenerator.summary_file self d))
                (set_fs (<[path_str (SummaryGenerator.summary_file self d) :=
                             SummaryGenerator.header d w +:+ summary]> (fs w))
                   (emit (ApiSummary content) w1))))
      end.
Proof.
  intros Hio d w1 Ht Hs Hk content.
  unfold SummaryGenerator.generate, SummaryGenerator._get_transcriptions,
    SummaryGenerator._get_screen_analysis, SummaryGenerator._get_keyboard_analysis.
  rewrite !date_or_today_idem, !read_if_exists_text by done.
  fold d. fold w1.
  change (Observe.read_of_day ?p w1) with (Observe.read_of_day p w).
  rewrite Ht, Hs, Hk.
  destruct (negb (truthy t) && negb (truthy s) && negb (truthy k)); [done |].
  fold content.
  destruct (generate_summary env w1 content _ _) as [summary|e]; [| done].
  unfold SummaryGenerator._save_summary, write_text. by rewrite !Hio.
Qed.

(** A [generate] that raises has written nothing, or has emptied the
    summary file of the day and written nothing. *)
Lemma generate_raises (self : SummaryGenerator.t) (date : option string) (w : World) :
  Observe.returns (SummaryGenerator.generate env self date w).1 = false ->
  fs (SummaryGenerator.generate env self date w).2 = fs w
  \/ fs (SummaryGenerator.generate env self date w).2
     = <[path_str (SummaryGenerator.summary_file self
                     (SummaryGenerator.date_or_today date w)) := ""]> (fs w).
Proof.
  unfold SummaryGenerator.generate, SummaryGenerator._save_summary, write_text.
  repeat (case_match; simplify_eq/=; try done); auto.
Qed.

End Summary.

(** X18: when the three files of the day are absent or empty,
    [generate] returns a fixed sentence, calls no service, writes no
    file and logs one warning after its first record.  Reads are assumed
    not to fail. *)
Theorem nothing_captured_nothing_summarised (env : Env) (self : SummaryGenerator.t)
    (date : option string) (w : World) :
  (forall (w' : World) (f : string), io_error env w' f = None) ->
  Observe.text_of_day
    (SummaryGenerator.transcriptions_file self (SummaryGenerator.date_or_today date w)) w = "" ->
  Observe.text_of_day
    (SummaryGenerator.screen_analysis_file self (SummaryGenerator.date_or_today date w)) w = "" ->
  Observe.text_of_day
    (SummaryGenerator.keyboard_analysis_file self (SummaryGenerator.date_or_today date w)) w = "" ->
  (SummaryGenerator.generate env self date w).1 = Ret "Nenhum conteúdo foi capturado hoje."
  /\ fs (SummaryGenerator.generate env self date w).2 = fs w
  /\ trace (SummaryGenerator.generate env self date w).2 = trace w
  /\ log (SummaryGenerator.generate env self date w).2
     = log w ++ [(INFO, "Gerando resumo para " +:+ SummaryGenerator.date_or_today date w);
                 (WARNING, "Nenhum conteúdo para resumir")].
Proof.
  intros Hio Ht Hs Hk.
  rewrite (generate_spec env self date w "" "" "") by
    (try done; unfold Observe.read_of_day; by rewrite ?Ht, ?Hs, ?Hk).
  simpl. by rewrite <- (assoc_L (++)).
Qed.

Lemma nothing_captured_nothing_summarised_witness :
  fs (SummaryGenerator.generate Examples.env_ok Examples.generator None Examples.world0).2
  = fs Examples.world0.
Proof.
  apply (nothing_captured_nothing_summarised Examples.env_ok Examples.generator None
           Examples.world0).
  - intros w' f. reflexivity.
  - vm_compute. reflexivity.
  - vm_compute. reflexivity.
  - vm_compute. reflexivity.
Defined.



(** A summary with a carriage return in it is not what [get_summary]
    gives back. *)
Example carriage_return_is_not_read_back :
  let env :=
    mkEnv (fun _ _ _ _ => Ret "") (fun _ _ _ _ => Ret "")
      (fun _ _ _ _ => Ret ("um" +:+ String CR (String LF "dois")))
      (fun _ _ => None) false (fun _ => "editor") (fun _ => Ret "pixels") in
  let st := SummaryGenerator.generate env Examples.generator None Examples.world_transcribed in
  st.1 = Ret ("um" +:+ String CR (String LF "dois"))
  /\ SummaryGenerator.get_summary env Examples.generator None st.2
     = Ret (SummaryGenerator.header "2025-03-14" Examples.world_transcribed
            +:+ "um" +:+ String LF "dois").
Proof. vm_compute. split; reflexivity. Qed.

(** X20: a [generate] that raises leaves every file but the summary
    file of the day as it was.  The summary file is as it was when the
    exception came from a read, from the service or from opening the
    file, and is left empty when it came from the write, which follows
    the opening with mode ['w']: the summary made earlier that day is
    then lost. *)
Theorem failed_summary_leaves_an_empty_file_at_most (env : Env) (self : SummaryGenerator.t)
    (date : option string) (w : World) (e : string) :
  (SummaryGenerator.generate env self date w).1 = Raise e ->
  (fs (SummaryGenerator.generate env self date w).2 = fs w
   \/ fs (SummaryGenerator.generate env self date w).2
      = <[path_str (SummaryGenerator.summary_file self
                      (SummaryGenerator.date_or_today date w)) := ""]> (fs w))
  /\ (forall f,
        f <> path_str (SummaryGenerator.summary_file self
                         (SummaryGenerator.date_or_today date w)) ->
        fs (SummaryGenerator.generate env self date w).2 !! f = fs w !! f)
  /\ ((forall w' f, io_error env w' f = None) ->
      fs (SummaryGenerator.generate env self date w).2 = fs w).
Proof.
  intros H.
  assert (G : Observe.returns (SummaryGenerator.generate env self date w).1 = false)
    by by rewrite H.
  split; [exact (generate_raises env self date w G) |]. split.
  - intros f Hf. destruct (generate_raises env self date w G) as [-> | ->]; [done |].
    by rewrite lookup_insert_ne.
  - intros Hio. revert H.
    unfold SummaryGenerator.generate, SummaryGenerator._save_summary, write_text.
    repeat (case_match; simplify_eq/=; try done);
      match goal with Hx : io_error env _ _ = Some _ |- _ => by rewrite Hio in Hx end.
Qed.

Lemma failed_summary_leaves_an_empty_file_at_most_witness :
  fs (SummaryGenerator.generate Examples.env_write_fails Examples.generator None
        Examples.world_summarised).2
  !! "/guardian/data/transcriptions/2025-03-14/transcricao.txt"
  = fs Examples.world_summarised
    !! "/guardian/data/transcriptions/2025-03-14/transcricao.txt".
Proof.
  destruct (failed_summary_leaves_an_empty_file_at_most Examples.env_write_fails
              Examples.generator None Examples.world_summarised
              "[Errno 28] No space left on device") as (_ & H & _).
  - vm_compute. reflexivity.
  - apply H. vm_compute. discriminate.
Defined.

(** The write that fails after the file was opened loses the summary
    made earlier. *)
Example failed_write_empties_the_summary :
  fs Examples.world_summarised !! "/guardian/data/summaries/2025-03-14/resumo.md"
  = Some "resumo da manhã"
  /\ (SummaryGenerator.generate Examples.env_write_fails Examples.generator None
        Examples.world_summarised).1 = Raise "[Errno 28] No space left on device"
  /\ fs (SummaryGenerator.generate Examples.env_write_fails Examples.generator None
           Examples.world_summarised).2
     !! "/guardian/data/summaries/2025-03-14/resumo.md" = Some "".
Proof. vm_compute. repeat split; reflexivity. Qed.

(** ** Orchestrator: a failed setup *)

Section Setup.
Import Assistant.

Lemma static_info (msg : string) : Observe.static (info msg) true.
Proof. intros a w. unfold info, effect. by simpl. Qed.

Lemma static_invoke (c : string) : Observe.static (effect (emit (Invoke c))) true.
Proof.
  intros a w. unfold effect. simpl. split; [done |]. split; [| done].
  unfold Observe.spawns. rewrite omap_app. simpl. by rewrite (right_id_L [] (++)).
Qed.

Lemma static_assign (f : t -> t) :
  (forall a, running (f a) = running a) -> Observe.static (assign f) true.
Proof. intros H a w. simpl. by rewrite H. Qed.

Lemma static_construct (cfg : Config) (class : string) :
  Observe.static (construct cfg class)
    (match ctor_error cfg class with None => true | Some _ => false end).
Proof. intros a w. unfold construct. by destruct (ctor_error cfg class). Qed.

Lemma static_seq (m k : M unit) (b1 b2 : bool) :
  Observe.static m b1 -> Observe.static k b2 -> Observe.static (m >> k) (b1 && b2).
Proof.
  intros Hm Hk a w. unfold seq, bind.
  destruct (Hm a w) as (R & S & F). destruct (m a w) as [[[[]|e] a1] w1]; simpl in *.
  - subst b1. destruct (Hk a1 w1) as (R' & S' & F'). simpl. by rewrite R', S', F', S, F.
  - subst b1. done.
Qed.

Lemma static_when (c : bool) (m : M unit) (b : bool) :
  Observe.static m b -> Observe.static (when (fun _ => c) m) (if c then b else true).
Proof. intros Hm a w. unfold when. destruct c; [apply Hm | done]. Qed.

Lemma static_setup_body (cfg : Config) :
  Observe.static (setup_body cfg)
    (forallb (fun class => match ctor_error cfg class with None => true | Some _ => false end)
       (Observe.constructed cfg)).
Proof.
  assert (E : forall b b' m, Observe.static m b -> b = b' -> Observe.static m b')
    by (by intros b b' m H <-).
  eapply E.
  - unfold setup_body, _setup_audio, _setup_screen, _setup_keyboard, _setup_drive,
      _setup_email, _setup_summary, _setup_scheduler, _setup_power_monitor, _log_status.
    repeat first
      [ apply static_seq
      | apply static_when
      | apply static_info
      | apply static_invoke
      | apply static_construct
      | apply static_assign; intros a; reflexivity ].
  - unfold Observe.constructed.
    destruct (audio_enabled cfg), (screen_enabled cfg), (keyboard_enabled cfg),
      (drive_enabled cfg), (email_enabled cfg); simpl;
      repeat (destruct (ctor_error cfg _); simpl; try done);
      by destruct (start_with_windows cfg && negb (startup_is_enabled cfg)).
Qed.

End Setup.

(** X21: when the constructor of a component that [setup] builds
    raises, [setup] returns [False]; and when [setup] returns [False],
    [start] exits with status 1 without having started a thread and
    without having set [running]. *)
Theorem failed_setup_starts_nothing (loaded : Outcome Assistant.Config)
    (a : Assistant.t) (w : World) :
  (forall cfg class,
      loaded = Ret cfg ->
      In class (Observe.constructed cfg) ->
      Assistant.ctor_error cfg class <> None ->
      (Assistant.setup loaded a w).1.1 = false)
  /\ ((Assistant.setup loaded a w).1.1 = false ->
      (Assistant.start loaded a w).1.1 = Raise "SystemExit: 1"
      /\ Observe.spawns (trace (Assistant.start loaded a w).2) = Observe.spawns (trace w)
      /\ Assistant.running (Assistant.start loaded a w).1.2 = Assistant.running a).
Proof.
  assert (H : forall cfg,
             Observe.returns (Assistant.setup_body cfg a w).1.1
             = (Assistant.setup (Ret cfg) a w).1.1
             /\ (Assistant.setup (Ret cfg) a w).1.2 = (Assistant.setup_body cfg a w).1.2
             /\ (Assistant.setup (Ret cfg) a w).2 = (Assistant.setup_body cfg a w).2).
  { intros cfg. unfold Assistant.setup.
    by destruct (Assistant.setup_body cfg a w) as [[[[]|e] a1] w1]. }
  split.
  - intros cfg class -> Hin Hne. destruct (H cfg) as (<- & _ & _).
    destruct (static_setup_body cfg a w) as (-> & _ & _).
    apply not_true_is_false. rewrite forallb_forall. intros G. specialize (G class Hin).
    by destruct (Assistant.ctor_error cfg class).
  - intros Hfail. unfold Assistant.start.
    destruct loaded as [cfg|e]; [| done].
    destruct (H cfg) as (_ & E1 & E2).
    destruct (static_setup_body cfg a w) as (_ & S & F).
    destruct (Assistant.setup (Ret cfg) a w) as [[ok a1] w1]. simpl in *. subst ok a1 w1.
    done.
Qed.

(** ** Orchestrator: power events *)

Section PowerEvents.
Import Assistant.

Lemma pause_producers_spec (a : t) (w : World) :
  (pause_producers a w).1.1 = Ret tt
  /\ (pause_producers a w).1.2 = Observe.with_paused true a
  /\ fs (pause_producers a w).2 = fs w
  /\ trace (pause_producers a w).2 = trace w.
Proof.
  destruct a as [r c [ar|] at_ [sc|] sa [kr|] ka d e s sch pm];
    unfold pause_producers, Observe.with_paused; simpl; done.
Qed.

Lemma resume_producers_spec (a : t) (w : World) :
  (resume_producers a w).1.1 = Ret tt
  /\ (resume_producers a w).1.2 = Observe.with_paused false a
  /\ fs (resume_producers a w).2 = fs w
  /\ trace (resume_producers a w).2 = trace w.
Proof.
  destruct a as [r c [ar|] at_ [sc|] sa [kr|] ka d e s sch pm];
    unfold resume_producers, Observe.with_paused; simpl; done.
Qed.

Lemma with_paused_twice (p q : bool) (a : t) :
  Observe.with_paused q (Observe.with_paused p a) = Observe.with_paused q a.
Proof.
  by destruct a as [r c [ar|] at_ [sc|] sa [kr|] ka d e s sch pm].
Qed.

Lemma on_event_spec (msg : string) (m : M unit) (p : bool) :
  (forall a w,
      (m a w).1.1 = Ret tt /\ (m a w).1.2 = Observe.with_paused p a
      /\ fs (m a w).2 = fs w /\ trace (m a w).2 = trace w) ->
  forall a w,
    ((info msg >> m) a w).1.1 = Ret tt
    /\ ((info msg >> m) a w).1.2 = Observe.with_paused p a
    /\ fs ((info msg >> m) a w).2 = fs w
    /\ trace ((info msg >> m) a w).2 = trace w.
Proof. intros H a w. rewrite seq_info. apply (H a (logger INFO msg w)). Qed.

End PowerEvents.

(** X22: the four power callbacks only set the [paused] flag of the
    producers the assistant has: [_on_lock] and [_on_sleep] set it,
    [_on_unlock] and [_on_wake] clear it.  Pauses are not counted: after
    a lock, a sleep and a wake the producers are resumed although the
    session was never unlocked.  The callbacks write no file and make
    no other call.  The audio recorder is modelled from the
    specification. *)
Theorem wake_resumes_a_locked_session (a : Assistant.t) (w : World) :
  (Assistant._on_lock a w).1.2 = Observe.with_paused true a
  /\ (Assistant._on_sleep a w).1.2 = Observe.with_paused true a
  /\ (Assistant._on_unlock a w).1.2 = Observe.with_paused false a
  /\ (Assistant._on_wake a w).1.2 = Observe.with_paused false a
  /\ (Assistant.seq Assistant._on_lock
        (Assistant.seq Assistant._on_sleep Assistant._on_wake) a w).1.2
     = Observe.with_paused false a
  /\ fs (Assistant.seq Assistant._on_lock
           (Assistant.seq Assistant._on_sleep Assistant._on_wake) a w).2 = fs w
  /\ trace (Assistant.seq Assistant._on_lock
              (Assistant.seq Assistant._on_sleep Assistant._on_wake) a w).2 = trace w.
Proof.
  pose proof (on_event_spec "Pausando (tela bloqueada)..." _ true pause_producers_spec) as L.
  pose proof (on_event_spec "Pausando para sleep..." _ true pause_producers_spec) as S.
  pose proof (on_event_spec "Retomando (tela desbloqueada)..." _ false resume_producers_spec) as U.
  pose proof (on_event_spec "Retomando após wake..." _ false resume_producers_spec) as K.
  fold Assistant._on_lock in L. fold Assistant._on_sleep in S.
  fold Assistant._on_unlock in U. fold Assistant._on_wake in K.
  split; [apply L |]. split; [apply S |]. split; [apply U |]. split; [apply K |].
  destruct (L a w) as (L1 & L2 & L3 & L4).
  destruct (Assistant._on_lock a w) as [[r1 a1] w1] eqn:E1. simpl in *. subst r1 a1.
  rewrite (seq_ret _ _ _ _ _ _ E1).
  destruct (S (Observe.with_paused true a) w1) as (S1 & S2 & S3 & S4).
  destruct (Assistant._on_sleep (Observe.with_paused true a) w1) as [[r2 a2] w2] eqn:E2.
  simpl in *. subst r2 a2. rewrite (seq_ret _ _ _ _ _ _ E2).
  destruct (K (Observe.with_paused true (Observe.with_paused true a)) w2) as (K1 & K2 & K3 & K4).
  rewrite K2, K3, K4, !with_paused_twice. repeat split; congruence.
Qed.

(** ** Orchestrator: order of stop *)

Section StopOrder.
Context (env : Env).
Import Assistant.

Lemma worker_stop_spec (x : Worker) (w : World) :
  (Worker.stop x w).1 = set_is_running false x
  /\ Observe.invoked (trace (Worker.stop x w).2) = Observe.invoked (trace w)
  /\ fs (Worker.stop x w).2 = fs w /\ now (Worker.stop x w).2 = now w.
Proof.
  unfold Worker.stop, stopped_line. simpl.
  destruct (_worker_thread x), (kind x); simpl; rewrite ?invoked_other; done.
Qed.

Lemma capture_stop_spec (x : ScreenCapture.t) (w : World) :
  Observe.invoked (trace (ScreenCapture.stop x w).2) = Observe.invoked (trace w)
  /\ fs (ScreenCapture.stop x w).2 = fs w /\ now (ScreenCapture.stop x w).2 = now w.
Proof.
  unfold ScreenCapture.stop.
  destruct (ScreenCapture.is_running x), (ScreenCapture._capture_thread x); simpl;
    rewrite ?invoked_other; done.
Qed.

Lemma monitor_stop_spec (x : PowerMonitor.t) (w : World) :
  Observe.invoked (trace (PowerMonitor.stop x w).2) = Observe.invoked (trace w)
  /\ fs (PowerMonitor.stop x w).2 = fs w /\ now (PowerMonitor.stop x w).2 = now w.
Proof.
  unfold PowerMonitor.stop. destruct (PowerMonitor._hwnd x); simpl;
    rewrite ?invoked_other; done.
Qed.

Lemma scheduler_stop_spec (x : TaskScheduler.t) (w : World) :
  Observe.invoked (trace (TaskScheduler.stop x w).2) = Observe.invoked (trace w)
  /\ fs (TaskScheduler.stop x w).2 = fs w /\ now (TaskScheduler.stop x w).2 = now w.
Proof.
  unfold TaskScheduler.stop. destruct (TaskScheduler._thread x); simpl;
    rewrite ?invoked_other; done.
Qed.

Lemma on_keyboard_log_ready_spec (log_path : Path) (a : t) (w : World) :
  exists w',
    _on_keyboard_log_ready log_path a w
    = (Ret tt,
       set_keyboard_analyzer
         (option_map (fun ka => set_queue (_queue ka ++ [log_path]) ka) (keyboard_analyzer a))
         a,
       w')
    /\ Observe.invoked (trace w') = Observe.invoked (trace w)
    /\ fs w' = fs w /\ now w' = now w.
Proof.
  unfold _on_keyboard_log_ready.
  destruct a as [r0 c0 ar at_ sc sa kr [ka|] d e s sch pm]; simpl.
  - eexists. split; [reflexivity |]. by destruct (kind ka).
  - eexists. split; [reflexivity |]. done.
Qed.

(** A flush of the keyboard recorder whose callback is
    [_on_keyboard_log_ready]. *)
Lemma save_buffer_with_spec (x : KeyboardRecorder.t) (a : t) (w : World) :
  exists x' ka' w',
    KeyboardRecorder.save_buffer_with
      (fun log_path a0 w0 =>
         let '(_, a1, w1) := _on_keyboard_log_ready log_path a0 w0 in (a1, w1))
      env x a w
    = (x', set_keyboard_analyzer ka' a, w')
    /\ Observe.invoked (trace w') = Observe.invoked (trace w)
    /\ now w' = now w
    /\ (forall call, Observe.present ka' call = Observe.present (keyboard_analyzer a) call)
    /\ (KeyboardRecorder.current_buffer x <> [] ->
        KeyboardRecorder.on_log_ready x = true ->
        (forall (w0 : World) (f : string), io_error env w0 f = None) ->
        ka' = option_map
                (fun ka => set_queue (_queue ka ++ [KeyboardRecorder.log_file x w]) ka)
                (keyboard_analyzer a)
        /\ fs w' = <[path_str (KeyboardRecorder.log_file x w) :=
                       Observe.text_of_day (KeyboardRecorder.log_file x w) w
                       +:+ KeyboardRecorder.header w
                       +:+ String.concat "" (KeyboardRecorder.current_buffer x)
                       +:+ nl]> (fs w)).
Proof.
  assert (Hid : set_keyboard_analyzer (keyboard_analyzer a) a = a) by (by destruct a).
  unfold KeyboardRecorder.save_buffer_with, append_file.
  destruct (KeyboardRecorder.current_buffer x) as [|c buf] eqn:Eb.
  { exists x, (keyboard_analyzer a), w. by rewrite Hid. }
  destruct (io_error env w (path_str (KeyboardRecorder.log_file x w))) as [err|] eqn:Hio.
  { eexists _, (keyboard_analyzer a), _. rewrite Hid. split; [reflexivity |].
    split; [done |]. split; [done |]. split; [done |]. intros _ _ H. by rewrite H in Hio. }
  destruct (KeyboardRecorder.on_log_ready x) eqn:Hcb.
  2:{ eexists _, (keyboard_analyzer a), _. rewrite Hid. split; [reflexivity |]. done. }
  match goal with
  | |- context [_on_keyboard_log_ready ?p a ?w0] =>
      destruct (on_keyboard_log_ready_spec p a w0) as (w' & -> & T & F & N)
  end.
  eexists _, _, w'. split; [reflexivity |].
  split; [by rewrite T |]. split; [by rewrite N |].
  split; [intros call; by destruct (keyboard_analyzer a) |].
  intros _ _ _. split; [done |]. by rewrite F.
Qed.

(** The last flush of the keyboard recorder inside [Assistant.stop]. *)
Lemma recorder_stop_with_spec (x : KeyboardRecorder.t) (a : t) (w : World) :
  exists x' ka' w',
    KeyboardRecorder.stop_with
      (fun log_path a0 w0 =>
         let '(_, a1, w1) := _on_keyboard_log_ready log_path a0 w0 in (a1, w1))
      env x a w
    = (x', set_keyboard_analyzer ka' a, w')
    /\ Observe.invoked (trace w') = Observe.invoked (trace w)
    /\ now w' = now w
    /\ (forall call, Observe.present ka' call = Observe.present (keyboard_analyzer a) call)
    /\ (KeyboardRecorder.current_buffer x <> [] ->
        KeyboardRecorder.on_log_ready x = true ->
        (forall (w0 : World) (f : string), io_error env w0 f = None) ->
        ka' = option_map
                (fun ka => set_queue (_queue ka ++ [KeyboardRecorder.log_file x w]) ka)
                (keyboard_analyzer a)
        /\ fs w' = <[path_str (KeyboardRecorder.log_file x w) :=
                       Observe.text_of_day (KeyboardRecorder.log_file x w) w
                       +:+ KeyboardRecorder.header w
                       +:+ String.concat "" (KeyboardRecorder.current_buffer x)
                       +:+ nl]> (fs w)).
Proof.
  unfold KeyboardRecorder.stop_with.
  destruct (KeyboardRecorder.listener
              (KeyboardRecorder.set_flags false (KeyboardRecorder.paused x) x)).
  - destruct (save_buffer_with_spec
                (KeyboardRecorder.set_listener false
                   (KeyboardRecorder.set_flags false (KeyboardRecorder.paused x) x))
                a (emit ListenerStop w)) as (x' & ka' & w' & -> & T & N & P & F).
    exists x', ka', (logger INFO "Gravador de teclado encerrado" w').
    split; [done |]. split; [| split; [done | split; [done |]]].
    + simpl. rewrite T. simpl. by rewrite invoked_other.
    + exact F.
  - destruct (save_buffer_with_spec
                (KeyboardRecorder.set_flags false (KeyboardRecorder.paused x) x)
                a w) as (x' & ka' & w' & -> & T & N & P & F).
    exists x', ka', (logger INFO "Gravador de teclado encerrado" w').
    split; [done |]. split; [done |]. split; [done |]. split; [done |]. exact F.
Qed.

Ltac component_stopped field call stop lemma w :=
  destruct field as [x|];
  cbn [power_monitor scheduler screen_capture screen_analyzer keyboard_recorder
       keyboard_analyzer audio_recorder audio_transcriber];
  [ pose proof (lemma x (emit (Invoke call) w)) as (T1 & T2 & T3);
    destruct (stop x (emit (Invoke call) w)) as [x' w'];
    exists (Some x'), w'; split; [done |];
    simpl in T1, T2, T3; rewrite T1, T2, T3;
    split; [apply invoked_snoc | done]
  | exists None, w; simpl; by rewrite (right_id_L [] (++)) ].

Lemma stop_power_monitor_spec r c ar at_ sc sa kr ka d e s sch pm w :
  exists v w',
    stop_power_monitor (mk r c ar at_ sc sa kr ka d e s sch pm) w
    = (Ret tt, mk r c ar at_ sc sa kr ka d e s sch v, w')
    /\ Observe.invoked (trace w')
       = Observe.invoked (trace w) ++ Observe.present pm "power_monitor.stop"
    /\ fs w' = fs w /\ now w' = now w.
Proof.
  unfold stop_power_monitor.
  component_stopped pm "power_monitor.stop" PowerMonitor.stop monitor_stop_spec w.
Qed.

Lemma stop_scheduler_spec r c ar at_ sc sa kr ka d e s sch pm w :
  exists v w',
    stop_scheduler (mk r c ar at_ sc sa kr ka d e s sch pm) w
    = (Ret tt, mk r c ar at_ sc sa kr ka d e s v pm, w')
    /\ Observe.invoked (trace w')
       = Observe.invoked (trace w) ++ Observe.present sch "scheduler.stop"
    /\ fs w' = fs w /\ now w' = now w.
Proof.
  unfold stop_scheduler.
  component_stopped sch "scheduler.stop" TaskScheduler.stop scheduler_stop_spec w.
Qed.

Lemma stop_screen_capture_spec r c ar at_ sc sa kr ka d e s sch pm w :
  exists v w',
    stop_screen_capture (mk r c ar at_ sc sa kr ka d e s sch pm) w
    = (Ret tt, mk r c ar at_ v sa kr ka d e s sch pm, w')
    /\ Observe.invoked (trace w')
       = Observe.invoked (trace w) ++ Observe.present sc "screen_capture.stop"
    /\ fs w' = fs w /\ now w' = now w.
Proof.
  unfold stop_screen_capture.
  component_stopped sc "screen_capture.stop" ScreenCapture.stop capture_stop_spec w.
Qed.

Lemma stop_worker_spec (x : Worker) (call : string) (w : World) :
  exists w',
    Worker.stop x (emit (Invoke call) w) = (set_is_running false x, w')
    /\ Observe.invoked (trace w') = Observe.invoked (trace w) ++ [call]
    /\ fs w' = fs w /\ now w' = now w.
Proof.
  destruct (worker_stop_spec x (emit (Invoke call) w)) as (E & T1 & T2 & T3).
  destruct (Worker.stop x (emit (Invoke call) w)) as [x' w']. simpl in *. subst x'.
  exists w'. split; [done |]. rewrite T1, T2, T3. split; [apply invoked_snoc | done].
Qed.

Lemma stop_screen_analyzer_spec r c ar at_ sc sa kr ka d e s sch pm w :
  exists w',
    stop_screen_analyzer (mk r c ar at_ sc sa kr ka d e s sch pm) w
    = (Ret tt, mk r c ar at_ sc (option_map (set_is_running false) sa) kr ka d e s sch pm, w')
    /\ Observe.invoked (trace w')
       = Observe.invoked (trace w) ++ Observe.present sa "screen_analyzer.stop"
    /\ fs w' = fs w /\ now w' = now w.
Proof.
  unfold stop_screen_analyzer. destruct sa as [x|];
    cbn [screen_analyzer keyboard_analyzer audio_transcriber option_map].
  - destruct (stop_worker_spec x "screen_analyzer.stop" w) as (w' & -> & H). by exists w'.
  - exists w. simpl. by rewrite (right_id_L [] (++)).
Qed.

Lemma stop_keyboard_analyzer_spec r c ar at_ sc sa kr ka d e s sch pm w :
  exists w',
    stop_keyboard_analyzer (mk r c ar at_ sc sa kr ka d e s sch pm) w
    = (Ret tt, mk r c ar at_ sc sa kr (option_map (set_is_running false) ka) d e s sch pm, w')
    /\ Observe.invoked (trace w')
       = Observe.invoked (trace w) ++ Observe.present ka "keyboard_analyzer.stop"
    /\ fs w' = fs w /\ now w' = now w.
Proof.
  unfold stop_keyboard_analyzer. destruct ka as [x|];
    cbn [screen_analyzer keyboard_analyzer audio_transcriber option_map].
  - destruct (stop_worker_spec x "keyboard_analyzer.stop" w) as (w' & -> & H). by exists w'.
  - exists w. simpl. by rewrite (right_id_L [] (++)).
Qed.

Lemma stop_audio_transcriber_spec r c ar at_ sc sa kr ka d e s sch pm w :
  exists w',
    stop_audio_transcriber (mk r c ar at_ sc sa kr ka d e s sch pm) w
    = (Ret tt, mk r c ar (option_map (set_is_running false) at_) sc sa kr ka d e s sch pm, w')
    /\ Observe.invoked (trace w')
       = Observe.invoked (trace w) ++ Observe.present at_ "audio_transcriber.stop"
    /\ fs w' = fs w /\ now w' = now w.
Proof.
  unfold stop_audio_transcriber. destruct at_ as [x|];
    cbn [screen_analyzer keyboard_analyzer audio_transcriber option_map].
  - destruct (stop_worker_spec x "audio_transcriber.stop" w) as (w' & -> & H). by exists w'.
  - exists w. simpl. by rewrite (right_id_L [] (++)).
Qed.

Lemma stop_audio_recorder_spec r c ar at_ sc sa kr ka d e s sch pm w :
  exists v w',
    stop_audio_recorder (mk r c ar at_ sc sa kr ka d e s sch pm) w
    = (Ret tt, mk r c v at_ sc sa kr ka d e s sch pm, w')
    /\ Observe.invoked (trace w')
       = Observe.invoked (trace w) ++ Observe.present ar "audio_recorder.stop"
    /\ fs w' = fs w /\ now w' = now w.
Proof.
  unfold stop_audio_recorder. simpl. destruct ar as [x|]; simpl.
  - eexists (Some _), _. split; [done |]. split; [apply invoked_snoc | done].
  - exists None, w. simpl. by rewrite (right_id_L [] (++)).
Qed.

Lemma stop_keyboard_recorder_spec r c ar at_ sc sa kr ka d e s sch pm w :
  exists v ka' w',
    stop_keyboard_recorder env (mk r c ar at_ sc sa kr ka d e s sch pm) w
    = (Ret tt, mk r c ar at_ sc sa v ka' d e s sch pm, w')
    /\ Observe.invoked (trace w')
       = Observe.invoked (trace w) ++ Observe.present kr "keyboard_recorder.stop"
    /\ now w' = now w
    /\ (forall call, Observe.present ka' call = Observe.present ka call)
    /\ (kr = None -> ka' = ka /\ fs w' = fs w)
    /\ (forall x,
          kr = Some x ->
          KeyboardRecorder.current_buffer x <> [] ->
          KeyboardRecorder.on_log_ready x = true ->
          (forall (w0 : World) (f : string), io_error env w0 f = None) ->
          ka' = option_map
                  (fun y => set_queue (_queue y ++ [KeyboardRecorder.log_file x w]) y) ka
          /\ fs w' = <[path_str (KeyboardRecorder.log_file x w) :=
                         Observe.text_of_day (KeyboardRecorder.log_file x w) w
                         +:+ KeyboardRecorder.header w
                         +:+ String.concat "" (KeyboardRecorder.current_buffer x)
                         +:+ nl]> (fs w)).
Proof.
  unfold stop_keyboard_recorder. destruct kr as [x|]; cbn [keyboard_recorder].
  - destruct (recorder_stop_with_spec x (mk r c ar at_ sc sa (Some x) ka d e s sch pm)
                (emit (Invoke "keyboard_recorder.stop") w))
      as (x' & ka' & w' & -> & T & N & P & F).
    exists (Some x'), ka', w'. simpl. split; [done |].
    split; [rewrite T; apply invoked_snoc |]. split; [done |]. split; [exact P |].
    split; [done |].
    intros y Hy Hb Hcb Hio. injection Hy as <-. by apply F.
  - exists None, ka, w. simpl. rewrite (right_id_L [] (++)). repeat split; done.
Qed.

End StopOrder.

Section StopRun.
Context (env : Env).
Import Assistant.

(** [stop] step by step: the calls it makes, and what it does to the
    keyboard analyzer and to the file system. *)
Lemma stop_spec r c ar at_ sc sa kr ka d e s sch pm w :
  exists v1 v2 v3 v4 v5 ka' w',
    stop env (mk r c ar at_ sc sa kr ka d e s sch pm) w
    = (Ret tt,
       mk false c v1 (option_map (set_is_running false) at_) v2
          (option_map (set_is_running false) sa) v3
          (option_map (set_is_running false) ka') d e s v4 v5,
       w')
    /\ Observe.invoked (trace w')
       = Observe.invoked (trace w)
         ++ Observe.stop_calls (mk r c ar at_ sc sa kr ka d e s sch pm)
    /\ (kr = None -> ka' = ka /\ fs w' = fs w)
    /\ (forall x,
          kr = Some x ->
          KeyboardRecorder.current_buffer x <> [] ->
          KeyboardRecorder.on_log_ready x = true ->
          (forall (w0 : World) (f : string), io_error env w0 f = None) ->
          ka' = option_map
                  (fun y => set_queue (_queue y ++ [KeyboardRecorder.log_file x w]) y) ka
          /\ fs w' = <[path_str (KeyboardRecorder.log_file x w) :=
                         Observe.text_of_day (KeyboardRecorder.log_file x w) w
                         +:+ KeyboardRecorder.header w
                         +:+ String.concat "" (KeyboardRecorder.current_buffer x)
                         +:+ nl]> (fs w)).
Proof.
  unfold stop, Observe.stop_calls.
  rewrite seq_assign, seq_info. unfold set_running. simpl.
  set (w0 := logger INFO "Encerrando assistente..." w).
  destruct (stop_power_monitor_spec false c ar at_ sc sa kr ka d e s sch pm w0)
    as (v5 & w1 & E1 & T1 & F1 & N1).
  rewrite (seq_ret _ _ _ _ _ _ E1).
  destruct (stop_scheduler_spec false c ar at_ sc sa kr ka d e s sch v5 w1)
    as (v4 & w2 & E2 & T2 & F2 & N2).
  rewrite (seq_ret _ _ _ _ _ _ E2).
  destruct (stop_screen_capture_spec false c ar at_ sc sa kr ka d e s v4 v5 w2)
    as (v2 & w3 & E3 & T3 & F3 & N3).
  rewrite (seq_ret _ _ _ _ _ _ E3).
  destruct (stop_screen_analyzer_spec false c ar at_ v2 sa kr ka d e s v4 v5 w3)
    as (w4 & E4 & T4 & F4 & N4).
  rewrite (seq_ret _ _ _ _ _ _ E4).
  destruct (stop_keyboard_recorder_spec env false c ar at_ v2
              (option_map (set_is_running false) sa) kr ka d e s v4 v5 w4)
    as (v3 & ka' & w5 & E5 & T5 & N5 & P5 & G5 & H5).
  rewrite (seq_ret _ _ _ _ _ _ E5).
  destruct (stop_keyboard_analyzer_spec false c ar at_ v2
              (option_map (set_is_running false) sa) v3 ka' d e s v4 v5 w5)
    as (w6 & E6 & T6 & F6 & N6).
  rewrite (seq_ret _ _ _ _ _ _ E6).
  destruct (stop_audio_recorder_spec false c ar at_ v2
              (option_map (set_is_running false) sa) v3
              (option_map (set_is_running false) ka') d e s v4 v5 w6)
    as (v1 & w7 & E7 & T7 & F7 & N7).
  rewrite (seq_ret _ _ _ _ _ _ E7).
  destruct (stop_audio_transcriber_spec false c v1 at_ v2
              (option_map (set_is_running false) sa) v3
              (option_map (set_is_running false) ka') d e s v4 v5 w7)
    as (w8 & E8 & T8 & F8 & N8).
  rewrite (seq_ret _ _ _ _ _ _ E8).
  exists v1, v2, v3, v4, v5, ka', (logger INFO "Assistente encerrado." w8).
  split; [done |].
  assert (Hfs : fs w4 = fs w) by (by rewrite F4, F3, F2, F1).
  assert (Hnow : now w4 = now w) by (by rewrite N4, N3, N2, N1).
  split; [| split].
  - simpl. rewrite T8, T7, T6, T5, T4, T3, T2, T1, P5.
    by rewrite <- !(assoc_L (++)).
  - intros Hk. destruct (G5 Hk) as [-> G]. split; [done |].
    simpl. by rewrite F8, F7, F6, G.
  - intros x Hx Hb Hcb Hio. destruct (H5 x Hx Hb Hcb Hio) as [-> G]. split.
    + f_equal. unfold KeyboardRecorder.log_file, get_today_folder. by rewrite Hnow.
    + simpl. rewrite F8, F7, F6, G. unfold Observe.text_of_day, KeyboardRecorder.log_file,
        KeyboardRecorder.header, get_today_folder. by rewrite Hfs, Hnow.
Qed.

End StopRun.



(** The calls of [stop()] that this assistant receives. *)
Example every_component_is_stopped :
  Observe.stop_calls
    (Assistant.setup (Ret Examples.config) Assistant.init Examples.world0).1.2
  = Observe.stop_sequence.
Proof. vm_compute. reflexivity. Qed.

(** X24: keys still in the buffer when the assistant stops are
    not lost.  The last flush of the keyboard recorder writes them to
    the keylog and hands the file to the keyboard analyzer before the
    analyzer is stopped; the analyzer, stopped with this file in its
    queue, has a thread that handles the whole queue, this file last.
    File operations are assumed not to fail. *)
Theorem stop_hands_the_last_keys_to_the_analyzer (env : Env) (a : Assistant.t) (w : World)
    (kr : KeyboardRecorder.t) (ka : Worker) :
  (forall (w0 : World) (f : string), io_error env w0 f = None) ->
  Assistant.keyboard_recorder a = Some kr ->
  Assistant.keyboard_analyzer a = Some ka ->
  KeyboardRecorder.current_buffer kr <> [] ->
  KeyboardRecorder.on_log_ready kr = true ->
  Assistant.keyboard_analyzer (Assistant.stop env a w).1.2
  = Some (set_is_running false
            (set_queue (_queue ka ++ [KeyboardRecorder.log_file kr w]) ka))
  /\ fs (Assistant.stop env a w).2
     = <[path_str (KeyboardRecorder.log_file kr w) :=
           Observe.text_of_day (KeyboardRecorder.log_file kr w) w
           +:+ KeyboardRecorder.header w
           +:+ String.concat "" (KeyboardRecorder.current_buffer kr)
           +:+ nl]> (fs w)
  /\ (alive ka = 1 ->
      forall n, length (_queue ka) + 1 < n ->
        WorkerRun.history env (replicate n Worker.Turn)
          (set_is_running false
             (set_queue (_queue ka ++ [KeyboardRecorder.log_file kr w]) ka),
           (Assistant.stop env a w).2)
        = _queue ka ++ [KeyboardRecorder.log_file kr w]).
Proof.
  intros Hio Hkr Hka Hb Hcb.
  destruct a as [r c ar at_ sc sa kr0 ka0 d e s sch pm]. simpl in Hkr, Hka. subst kr0 ka0.
  destruct (stop_spec env r c ar at_ sc sa (Some kr) (Some ka) d e s sch pm w)
    as (v1 & v2 & v3 & v4 & v5 & ka' & w' & -> & _ & _ & H).
  destruct (H kr eq_refl Hb Hcb Hio) as [-> F]. simpl.
  split; [done |]. split; [exact F |].
  intros Ha n Hn.
  apply (drain env (_queue ka ++ [KeyboardRecorder.log_file kr w])); try done.
  rewrite length_app. simpl. lia.
Qed.

Lemma stop_hands_the_last_keys_to_the_analyzer_witness :
  Assistant.keyboard_analyzer
    (Assistant.stop Examples.env_ok Examples.assistant_typing Examples.world0).1.2
  = Some (set_is_running false
            (set_queue
               ([] ++ [KeyboardRecorder.log_file Examples.recorder_typed Examples.world0])
               (mkWorker Keyboard "data/keyboard_analysis" "gpt" "Resuma" [] true true 1))).
Proof.
  apply (stop_hands_the_last_keys_to_the_analyzer Examples.env_ok Examples.assistant_typing
           Examples.world0 Examples.recorder_typed
           (mkWorker Keyboard "data/keyboard_analysis" "gpt" "Resuma" [] true true 1)).
  - intros w' f. reflexivity.
  - reflexivity.
  - reflexivity.
  - vm_compute. discriminate.
  - reflexivity.
Defined.

(** ** Orchestrator: the daily summary *)

Section DailySummary.
Context (env : Env).

(** [generate] logs no error, calls nothing but the service and hands
    nothing over. *)
Lemma generate_quiet (self : SummaryGenerator.t) (date : option string) (w : World) :
  WorkerRun.errors (log (SummaryGenerator.generate env self date w).2) = WorkerRun.errors (log w)
  /\ Observe.invoked (trace (SummaryGenerator.generate env self date w).2)
     = Observe.invoked (trace w)
  /\ Observe.notifications (trace (SummaryGenerator.generate env self date w).2)
     = Observe.notifications (trace w)
  /\ now (SummaryGenerator.generate env self date w).2 = now w.
Proof.
  unfold SummaryGenerator.generate, SummaryGenerator._save_summary, write_text.
  repeat (case_match; simplify_eq/=);
    rewrite ?errors_snoc, ?notifications_snoc, ?invoked_other by done; simpl;
    rewrite ?errors_snoc, ?notifications_snoc, ?invoked_other by done; simpl;
    rewrite ?errors_snoc, ?notifications_snoc, ?invoked_other by done; simpl;
    rewrite ?(right_id_L [] (++)); done.
Qed.

End DailySummary.

(** X25: on a day without content [_generate_daily_summary]
    returns, writes no file and still sends the daily mail when there is
    an email sender: [send_daily_summary] is given the fixed sentence of
    [generate].  The drive manager is asked to upload the summary only
    if a summary file of the day exists already.  Reads are assumed not
    to fail. *)
Theorem summary_of_an_empty_day_is_still_mailed (env : Env) (root : string)
    (generator : SummaryGenerator.t) (a : Assistant.t) (w : World) :
  (forall (w0 : World) (f : string), io_error env w0 f = None) ->
  Observe.text_of_day
    (SummaryGenerator.transcriptions_file generator (get_today_folder w)) w = "" ->
  Observe.text_of_day
    (SummaryGenerator.screen_analysis_file generator (get_today_folder w)) w = "" ->
  Observe.text_of_day
    (SummaryGenerator.keyboard_analysis_file generator (get_today_folder w)) w = "" ->
  (Assistant._generate_daily_summary env root generator a w).1 = (Ret tt, a)
  /\ fs (Assistant._generate_daily_summary env root generator a w).2 = fs w
  /\ trace (Assistant._generate_daily_summary env root generator a w).2
     = trace w
       ++ (if Assistant.email_sender a
           then [Mail "send_daily_summary" "Nenhum conteúdo foi capturado hoje."] else [])
       ++ (if Assistant.drive_manager a
           then match fs w !! path_str (Assistant.summary_path root w) with
                | Some _ =>
                    [Notify "drive_manager.upload_summary" (Assistant.summary_path root w)]
                | None => []
                end
           else []).
Proof.
  intros Hio Ht Hs Hk. unfold Assistant._generate_daily_summary.
  rewrite (generate_spec env generator None _ "" "" "");
    [| done
     | unfold Observe.read_of_day;
       change (Observe.text_of_day ?p (logger INFO "Gerando resumo diário..." w))
         with (Observe.text_of_day p w);
       change (SummaryGenerator.date_or_today None (logger INFO "Gerando resumo diário..." w))
         with (get_today_folder w);
       by rewrite ?Ht, ?Hs, ?Hk ..].
  simpl.
  destruct (Assistant.email_sender a), (Assistant.drive_manager a); simpl;
    change (Assistant.summary_path root _) with (Assistant.summary_path root w);
    try destruct (fs w !! path_str (Assistant.summary_path root w));
    simpl; rewrite ?(right_id_L [] (++)), <- ?(assoc_L (++)); done.
Qed.

Lemma summary_of_an_empty_day_is_still_mailed_witness :
  trace (Assistant._generate_daily_summary Examples.env_ok "/guardian" Examples.generator
           Examples.assistant_mailing Examples.world0).2
  = [Mail "send_daily_summary" "Nenhum conteúdo foi capturado hoje."].
Proof.
  destruct (summary_of_an_empty_day_is_still_mailed Examples.env_ok "/guardian" Examples.generator
              Examples.assistant_mailing Examples.world0) as (_ & _ & T).
  - intros w' f. reflexivity.
  - vm_compute. reflexivity.
  - vm_compute. reflexivity.
  - vm_compute. reflexivity.
  - exact T.
Defined.

(** X26: when [generate] raises, [_generate_daily_summary] still
    returns.  It logs one error with the text of the exception and,
    when there is an email sender, gives that text to
    [send_error_alert]; it calls nothing else and hands nothing to the
    drive manager.  The files are as [generate] left them: as they
    were, or with the summary file of the day emptied by the write that
    failed. *)
Theorem failed_summary_is_logged_and_alerted (env : Env) (root : string)
    (generator : SummaryGenerator.t) (a : Assistant.t) (w : World) (e : string) :
  (SummaryGenerator.generate env generator None
     (logger INFO "Gerando resumo diário..." w)).1 = Raise e ->
  (Assistant._generate_daily_summary env root generator a w).1 = (Ret tt, a)
  /\ (fs (Assistant._generate_daily_summary env root generator a w).2 = fs w
      \/ fs (Assistant._generate_daily_summary env root generator a w).2
         = <[path_str (SummaryGenerator.summary_file generator (get_today_folder w)) := ""]>
             (fs w))
  /\ WorkerRun.errors (log (Assistant._generate_daily_summary env root generator a w).2)
     = WorkerRun.errors (log w) ++ ["Erro no resumo diário: " +:+ e]
  /\ trace (Assistant._generate_daily_summary env root generator a w).2
     = trace (SummaryGenerator.generate env generator None
                (logger INFO "Gerando resumo diário..." w)).2
       ++ (if Assistant.email_sender a then [Mail "send_error_alert" e] else [])
  /\ Observe.invoked (trace (Assistant._generate_daily_summary env root generator a w).2)
     = Observe.invoked (trace w)
  /\ Observe.notifications (trace (Assistant._generate_daily_summary env root generator a w).2)
     = Observe.notifications (trace w).
Proof.
  intros Hgen. unfold Assistant._generate_daily_summary.
  pose proof (generate_quiet env generator None (logger INFO "Gerando resumo diário..." w))
    as (Q1 & Q2 & Q3 & _).
  pose proof (generate_raises env generator None (logger INFO "Gerando resumo diário..." w)) as F.
  destruct (SummaryGenerator.generate env generator None
              (logger INFO "Gerando resumo diário..." w)) as [[summary|e'] w2].
  { discriminate Hgen. }
  simpl in *. injection Hgen as ->. specialize (F eq_refl).
  rewrite errors_snoc in Q1. simpl in Q1. rewrite (right_id_L [] (++)) in Q1.
  split; [done |].
  destruct (Assistant.email_sender a); simpl;
    rewrite ?errors_snoc, ?notifications_snoc, ?invoked_other by done; simpl;
    rewrite ?errors_snoc, ?(right_id_L [] (++)); simpl;
    rewrite ?(right_id_L [] (++)), Q1, Q2, Q3; done.
Qed.

Lemma failed_summary_is_logged_and_alerted_witness :
  trace (Assistant._generate_daily_summary Examples.env_api_down "/guardian" Examples.generator
           Examples.assistant_mailing Examples.world_transcribed).2
  = trace (SummaryGenerator.generate Examples.env_api_down Examples.generator None
             (logger INFO "Gerando resumo diário..." Examples.world_transcribed)).2
    ++ [Mail "send_error_alert" "503 Service Unavailable"].
Proof.
  apply (failed_summary_is_logged_and_alerted Examples.env_api_down "/guardian" Examples.generator
           Examples.assistant_mailing Examples.world_transcribed "503 Service Unavailable").
  vm_compute. reflexivity.
Defined.

(** ** Reading the file of the day back *)



(** ** From the screen to the analysis *)


